(** * ProactiveAgent: the service layer of [src/api.py] and the intervention
    engine it drives

    Definitions come first:

    - [PyStr]: the Python string primitives [api.py] uses to cut the
      structured payload out of the generator's prose ([in], [str.find],
      [str.rfind], slicing).
    - [Json]: Python values and [json.loads].
    - [Agent]: the agent's data as [api.py] reads and builds it.
    - [Api]: the routes of [src/api.py], written against an arbitrary agent.
    - [Engine]: the intervention engine behind [agent.process_student_event].
      Its module ([proactive_agent.py]) is not among the sources; it is
      modelled from the design document.
    - [Samples], [MoreSamples]: the data of the scenarios.
    - [Service]: the agent dependency, the artifact endpoint, the health
      check and the routing of requests in [src/api.py].
    - [TestAgent]: the test suite of [src/test_agent.py].

    The properties follow: of the decoder, of the string primitives, of the
    artifact parser, of the routes, of the engine and of the test suite.

    Texts are byte strings: a Python [str] is represented by its UTF-8
    encoding.  Braces, quotes, digits and JSON white space are ASCII, so
    searching and slicing at the positions [find] and [rfind] return commute
    with the encoding.  Instants are integers, so the rendering of a
    timestamp ([isoformat], [strftime]) is left out. *)

From Stdlib Require Import ZArith List String Ascii Floats Lia Bool.
From stdpp Require Import gmap strings list fin_maps.

Set Warnings "-inexact-float,-register-all".

Local Open Scope string_scope.
Local Open Scope Z_scope.

(* ===================================================================== *)
(** ** Python string primitives *)
(* ===================================================================== *)

Module PyStr.

(** [c in s] for a one-character [c]. *)
Fixpoint contains (c : ascii) (s : string) : bool :=
  match s with
  | EmptyString => false
  | String a r => if Ascii.eqb a c then true else contains c r
  end.

(** The search of [find], [i] being the index of the head of [s]. *)
Fixpoint find_from (c : ascii) (s : string) (i : Z) : Z :=
  match s with
  | EmptyString => -1
  | String a r => if Ascii.eqb a c then i else find_from c r (i + 1)
  end.

(** [s.find(c)]: lowest index of [c], or [-1]. *)
Definition find (c : ascii) (s : string) : Z := find_from c s 0.

(** The search of [rfind]: [last] is the latest index seen so far. *)
Fixpoint rfind_from (c : ascii) (s : string) (i last : Z) : Z :=
  match s with
  | EmptyString => last
  | String a r => rfind_from c r (i + 1) (if Ascii.eqb a c then i else last)
  end.

(** [s.rfind(c)]: highest index of [c], or [-1]. *)
Definition rfind (c : ascii) (s : string) : Z := rfind_from c s 0 (-1).

(** [len(s)]. *)
Definition len (s : string) : Z := Z.of_nat (String.length s).

(** How a slice bound is clamped: a negative bound counts from the end. *)
Definition clamp (n i : Z) : Z :=
  if i <? 0 then Z.max 0 (i + n) else Z.min i n.

(** [s[start:stop]]; empty when the clamped bounds cross. *)
Definition slice (s : string) (start stop : Z) : string :=
  let a := clamp (len s) start in
  let b := clamp (len s) stop in
  substring (Z.to_nat a) (Z.to_nat (b - a)) s.

End PyStr.

(* ===================================================================== *)
(** ** Python values and [json.loads] *)
(* ===================================================================== *)

(** [json.loads] is the standard library's decoder, with its default
    settings: strict strings, [NaN] and the infinities accepted, an object
    decoded to a [dict] in which a repeated key keeps its first place and
    its last value.  Two limits of the interpreter are outside the model:
    the recursion limit on nesting and the digit limit on integer
    literals; at either Python raises, and [api.py] would log a warning
    where this decoder returns a value. *)
Module Json.

(** Python objects as [json.loads] builds them and as event metadata
    ([Dict[str, Any]]) holds them.  A [dict] keeps its keys in insertion
    order. *)
Inductive pyval : Type :=
| PNone
| PBool (b : bool)
| PInt (z : Z)
| PFloat (f : float)
| PStr (s : string)
| PList (l : list pyval)
| PDict (d : list (string * pyval)).

(** [d.get(k)]. *)
Fixpoint dict_get {A} (k : string) (d : list (string * A)) : option A :=
  match d with
  | [] => None
  | (k', v) :: r => if String.eqb k' k then Some v else dict_get k r
  end.

(** [d[k] = v]: an existing key keeps its place and takes the new value. *)
Fixpoint dict_set {A} (k : string) (v : A) (d : list (string * A))
  : list (string * A) :=
  match d with
  | [] => [(k, v)]
  | (k', v') :: r =>
      if String.eqb k' k then (k', v) :: r else (k', v') :: dict_set k v r
  end.

(** [v.get(k)] on a decoded value; [None] when [v] is a dict without [k].
    On a value that is not a dict Python raises; no caller here reaches
    that. *)
Definition get (k : string) (v : pyval) : option pyval :=
  match v with
  | PDict d => dict_get k d
  | _ => None
  end.

(** *** Numbers *)

(** [float(lexeme)] for a lexeme [(-)m * 10^e10]: the binary64 nearest to
    the exact value, ties to even.  For a negative power of ten the
    quotient is cut with a sticky last bit, well below the rounding
    position. *)
Definition float_of_decimal (neg : bool) (m e10 : Z) : float :=
  if m =? 0 then (if neg then neg_zero else zero)
  else
    let sf :=
      if 0 <=? e10 then binary_normalize prec emax (m * 10 ^ e10) 0 false
      else
        let q := 10 ^ (- e10) in
        let s := Z.max 0 (Z.log2 q - Z.log2 m + 64) in
        let n := m * 2 ^ s in
        let t := 2 * (n / q) + (if n mod q =? 0 then 0 else 1) in
        binary_normalize prec emax t (- s - 1) false in
    let f := SF2Prim sf in
    if neg then (- f)%float else f.

(** The ASCII digits, the only ones the scanner takes. *)
Definition is_digit (c : ascii) : bool :=
  let n := N_of_ascii c in ((48 <=? n) && (n <=? 57))%N.

(** The value of a digit. *)
Definition digit_val (c : ascii) : Z := Z.of_N (N_of_ascii c) - 48.

(** The longest run of digits at the head, as (value, count, rest). *)
Fixpoint take_digits (s : list ascii) (acc : Z) (n : Z)
  : Z * Z * list ascii :=
  match s with
  | c :: r =>
      if is_digit c then take_digits r (10 * acc + digit_val c) (n + 1)
      else (acc, n, s)
  | [] => (acc, n, s)
  end.

(** The integer part of the number grammar: [0] or [[1-9][0-9]*]. *)
Definition match_int (s : list ascii) : option (Z * list ascii) :=
  match s with
  | c :: r =>
      if Ascii.eqb c "0" then Some (0, r)
      else if is_digit c then
        let '(v, _, r') := take_digits s 0 0 in Some (v, r')
      else None
  | [] => None
  end.

(** A run of one or more digits: value, count and rest. *)
Definition match_digits (s : list ascii) : option (Z * Z * list ascii) :=
  match s with
  | c :: _ => if is_digit c then Some (take_digits s 0 0) else None
  | [] => None
  end.

(** [\.[0-9]+]: the digits and how many, when present. *)
Definition match_frac (s : list ascii) : option (Z * Z * list ascii) :=
  match s with
  | c :: r => if Ascii.eqb c "." then match_digits r else None
  | [] => None
  end.

(** [[eE][-+]?[0-9]+]: the signed exponent, when present. *)
Definition match_exp (s : list ascii) : option (Z * list ascii) :=
  match s with
  | c :: r =>
      if Ascii.eqb c "e" || Ascii.eqb c "E" then
        let '(neg, digits) :=
          match r with
          | sign :: r' =>
              if Ascii.eqb sign "-" then (true, r')
              else if Ascii.eqb sign "+" then (false, r')
              else (false, r)
          | [] => (false, r)
          end in
        match match_digits digits with
        | Some (v, _, rest) => Some (if neg then - v else v, rest)
        | None => None
        end
      else None
  | [] => None
  end.

(** The number after its optional sign: an [int] lexeme decodes to [int],
    one with a fraction or an exponent to [float]. *)
Definition match_unsigned (neg : bool) (s : list ascii)
  : option (pyval * list ascii) :=
  match match_int s with
  | None => None
  | Some (i, r) =>
      let '(fd, fn, r1) :=
        match match_frac r with
        | Some (fd, fn, r1) => (fd, fn, r1)
        | None => (0, 0, r)
        end in
      match match_exp r1 with
      | Some (e, r2) =>
          Some (PFloat (float_of_decimal neg (i * 10 ^ fn + fd) (e - fn)), r2)
      | None =>
          if fn =? 0 then Some (PInt (if neg then - i else i), r1)
          else Some (PFloat (float_of_decimal neg (i * 10 ^ fn + fd) (- fn)), r1)
      end
  end.

(** [match_number]. *)
Definition match_number (s : list ascii) : option (pyval * list ascii) :=
  match s with
  | c :: r => if Ascii.eqb c "-" then match_unsigned true r else match_unsigned false s
  | [] => None
  end.

(** *** Strings *)

(** The double quote and the backslash, by their codes. *)
Definition dquote : ascii := "034"%char.
Definition backslash : ascii := "092"%char.

(** The value of a hexadecimal digit, in either case. *)
Definition hex_val (c : ascii) : option Z :=
  let n := Z.of_N (N_of_ascii c) in
  if (48 <=? n) && (n <=? 57) then Some (n - 48)
  else if (97 <=? n) && (n <=? 102) then Some (n - 87)
  else if (65 <=? n) && (n <=? 70) then Some (n - 55)
  else None.

(** The four hexadecimal digits of a [\uXXXX] escape. *)
Definition hex4 (a b c d : ascii) : option Z :=
  match hex_val a, hex_val b, hex_val c, hex_val d with
  | Some x, Some y, Some z, Some w => Some (((x * 16 + y) * 16 + z) * 16 + w)
  | _, _, _, _ => None
  end.

(** Surrogate halves, and the code point a pair stands for. *)
Definition is_high_surrogate (c : Z) : bool := (55296 <=? c) && (c <=? 56319).
Definition is_low_surrogate (c : Z) : bool := (56320 <=? c) && (c <=? 57343).
Definition join_surrogates (hi lo : Z) : Z :=
  65536 + Z.lor (Z.shiftl (Z.land hi 1023) 10) (Z.land lo 1023).

(** The character of code [n]. *)
Definition byte (n : Z) : ascii := ascii_of_N (Z.to_N n).

(** The bytes of a code point in the text representation (UTF-8; a lone
    surrogate, which Python keeps in the [str], takes the three-byte
    form). *)
Definition utf8 (c : Z) : list ascii :=
  if c <? 128 then [byte c]
  else if c <? 2048 then
    [byte (Z.lor 192 (Z.shiftr c 6)); byte (Z.lor 128 (Z.land c 63))]
  else if c <? 65536 then
    [byte (Z.lor 224 (Z.shiftr c 12));
     byte (Z.lor 128 (Z.land (Z.shiftr c 6) 63));
     byte (Z.lor 128 (Z.land c 63))]
  else
    [byte (Z.lor 240 (Z.shiftr c 18));
     byte (Z.lor 128 (Z.land (Z.shiftr c 12) 63));
     byte (Z.lor 128 (Z.land (Z.shiftr c 6) 63));
     byte (Z.lor 128 (Z.land c 63))].

(** The character a one-letter escape stands for. *)
Definition simple_escape (e : ascii) : option ascii :=
  if Ascii.eqb e dquote then Some dquote
  else if Ascii.eqb e backslash then Some backslash
  else if Ascii.eqb e "/" then Some "/"%char
  else if Ascii.eqb e "b" then Some "008"%char
  else if Ascii.eqb e "f" then Some "012"%char
  else if Ascii.eqb e "n" then Some "010"%char
  else if Ascii.eqb e "r" then Some "013"%char
  else if Ascii.eqb e "t" then Some "009"%char
  else None.

(** [scanstring] in strict mode, entered after the opening quote: the
    decoded characters (latest first in [acc]) and the text after the
    closing quote.  A raw control character, an unknown escape and a
    missing closing quote are errors. *)
Fixpoint scanstring (s : list ascii) (acc : list ascii)
  : option (string * list ascii) :=
  match s with
  | [] => None
  | c :: r =>
      if Ascii.eqb c dquote then Some (string_of_list_ascii (rev acc), r)
      else if Ascii.eqb c backslash then
        match r with
        | [] => None
        | e :: r1 =>
            if Ascii.eqb e "u" then
              match r1 with
              | h1 :: h2 :: h3 :: h4 :: r2 =>
                  match hex4 h1 h2 h3 h4 with
                  | None => None
                  | Some u =>
                      let lone := scanstring r2 (rev (utf8 u) ++ acc) in
                      if is_high_surrogate u then
                        match r2 with
                        | b :: x :: g1 :: g2 :: g3 :: g4 :: r3 =>
                            if Ascii.eqb b backslash && Ascii.eqb x "u" then
                              match hex4 g1 g2 g3 g4 with
                              | None => None
                              | Some u2 =>
                                  if is_low_surrogate u2 then
                                    scanstring r3
                                      (rev (utf8 (join_surrogates u u2)) ++ acc)
                                  else lone
                              end
                            else lone
                        | _ => lone
                        end
                      else lone
                  end
              | _ => None
              end
            else
              match simple_escape e with
              | Some d => scanstring r1 (d :: acc)
              | None => None
              end
        end
      else if (N_of_ascii c <? 32)%N then None
      else scanstring r (c :: acc)
  end.

(** *** Values *)

Definition is_ws (c : ascii) : bool :=
  Ascii.eqb c " " || Ascii.eqb c "009" || Ascii.eqb c "010" || Ascii.eqb c "013".

(** The text after the white space at its head. *)
Fixpoint skip_ws (s : list ascii) : list ascii :=
  match s with
  | c :: r => if is_ws c then skip_ws r else s
  | [] => []
  end.

(** [s[idx:idx+len(lit)] == lit], giving the text after the literal. *)
Fixpoint strip_prefix (lit s : list ascii) : option (list ascii) :=
  match lit, s with
  | [], _ => Some s
  | a :: lit', b :: s' => if Ascii.eqb a b then strip_prefix lit' s' else None
  | _ :: _, [] => None
  end.

(** The same, for a literal given as a string. *)
Definition literal (lit : string) (s : list ascii) : option (list ascii) :=
  strip_prefix (list_ascii_of_string lit) s.

(** What a scan gives: a value with the rest of the text, the decoder's
    error, or fuel exhausted (which [JsonFacts.scan_fuel] rules out). *)
Inductive result (A : Type) : Type :=
| Ok (a : A)
| DecodeError
| OutOfFuel.
Arguments Ok {A} a.
Arguments DecodeError {A}.
Arguments OutOfFuel {A}.

(** The scalar cases of [scan_once], in the scanner's order: the three
    literals, a number, then the non-finite floats. *)
Definition scan_scalar (s : list ascii) : result (pyval * list ascii) :=
  match literal "null" s with
  | Some r => Ok (PNone, r)
  | None =>
  match literal "true" s with
  | Some r => Ok (PBool true, r)
  | None =>
  match literal "false" s with
  | Some r => Ok (PBool false, r)
  | None =>
  match match_number s with
  | Some vr => Ok vr
  | None =>
  match literal "NaN" s with
  | Some r => Ok (PFloat nan, r)
  | None =>
  match literal "Infinity" s with
  | Some r => Ok (PFloat infinity, r)
  | None =>
  match literal "-Infinity" s with
  | Some r => Ok (PFloat neg_infinity, r)
  | None => DecodeError
  end end end end end end end.

(** [scan_once], [JSONArray] and [JSONObject].  [parse_array] and
    [parse_object] are entered at the first element, after the opening
    bracket and the white space behind it. *)
Fixpoint scan_once (fuel : nat) (s : list ascii)
  : result (pyval * list ascii) :=
  match fuel with
  | O => OutOfFuel
  | S f =>
      match s with
      | [] => DecodeError
      | c :: r =>
          if Ascii.eqb c dquote then
            match scanstring r [] with
            | Some (str, r') => Ok (PStr str, r')
            | None => DecodeError
            end
          else if Ascii.eqb c "{" then
            match skip_ws r with
            | [] => DecodeError
            | (c1 :: r1) as body =>
                if Ascii.eqb c1 "}" then Ok (PDict [], r1)
                else parse_object f body []
            end
          else if Ascii.eqb c "[" then
            match skip_ws r with
            | [] => DecodeError
            | (c1 :: r1) as body =>
                if Ascii.eqb c1 "]" then Ok (PList [], r1)
                else parse_array f body []
            end
          else scan_scalar s
      end
  end

with parse_array (fuel : nat) (s : list ascii) (acc : list pyval)
  : result (pyval * list ascii) :=
  match fuel with
  | O => OutOfFuel
  | S f =>
      match scan_once f s with
      | Ok (v, r) =>
          match skip_ws r with
          | [] => DecodeError
          | c :: r1 =>
              if Ascii.eqb c "]" then Ok (PList (rev (v :: acc)), r1)
              else if Ascii.eqb c "," then parse_array f (skip_ws r1) (v :: acc)
              else DecodeError
          end
      | DecodeError => DecodeError
      | OutOfFuel => OutOfFuel
      end
  end

with parse_object (fuel : nat) (s : list ascii) (acc : list (string * pyval))
  : result (pyval * list ascii) :=
  match fuel with
  | O => OutOfFuel
  | S f =>
      match s with
      | [] => DecodeError
      | c :: r =>
          if Ascii.eqb c dquote then
            match scanstring r [] with
            | None => DecodeError
            | Some (key, r1) =>
                match skip_ws r1 with
                | [] => DecodeError
                | c2 :: r2 =>
                    if Ascii.eqb c2 ":" then
                      match scan_once f (skip_ws r2) with
                      | Ok (v, r3) =>
                          match skip_ws r3 with
                          | [] => DecodeError
                          | c3 :: r4 =>
                              if Ascii.eqb c3 "}" then
                                Ok (PDict (dict_set key v acc), r4)
                              else if Ascii.eqb c3 "," then
                                parse_object f (skip_ws r4) (dict_set key v acc)
                              else DecodeError
                          end
                      | DecodeError => DecodeError
                      | OutOfFuel => OutOfFuel
                      end
                    else DecodeError
                end
            end
          else DecodeError
      end
  end.

(** Fuel that [scan_once] cannot exhaust on a text of this length (see
    [scan_once_fuel]). *)
Definition enough_fuel (s : list ascii) : nat := (2 * List.length s + 2)%nat.

(** [json.loads(text)]: one value between optional white space, or [None]
    where Python raises [JSONDecodeError]. *)
Definition loads (text : string) : option pyval :=
  let s := list_ascii_of_string text in
  match scan_once (enough_fuel s) (skip_ws s) with
  | Ok (v, r) =>
      match skip_ws r with
      | [] => Some v
      | _ :: _ => None
      end
  | DecodeError => None
  | OutOfFuel => None
  end.

(** Writing JSON texts in this file: an apostrophe stands for a double
    quote. *)
Definition quoted (s : string) : string :=
  string_of_list_ascii
    (map (fun c => if Ascii.eqb c "'" then dquote else c)
         (list_ascii_of_string s)).

End Json.

(* ===================================================================== *)
(** ** The agent's data, as [api.py] reads and builds it *)
(* ===================================================================== *)

Module Agent.
Import Json.

(** Instants are microseconds on the service's naive local clock. *)
Definition instant := Z.

(** [StudentEvent(user_id=..., event_type=..., topic=..., metadata=...,
    timestamp=...)]. *)
Record StudentEvent := {
  user_id : string;
  event_type : string;
  topic : string;
  metadata : list (string * pyval);
  timestamp : instant
}.

(** One entry of [struggle_history]. *)
Record StruggleRecord := {
  rec_event_type : string;
  rec_topic : string;
  rec_metadata : list (string * pyval);
  rec_timestamp : instant
}.

(** One value of [agent.user_memory].  [api.py] reads the keys
    [struggle_history], [intervention_count] and [last_intervention];
    the design document names the last one [last_intervention_at] and
    adds the topic it was about. *)
Record UserMemory := {
  struggle_history : list StruggleRecord;
  intervention_count : Z;
  last_intervention : option instant;
  last_intervention_topic : option string
}.

(** [agent.user_memory]. *)
Abbreviation UserStore := (gmap string UserMemory).

(** The dict [agent.process_student_event] returns, by the keys [api.py]
    reads; [None] is an absent key.  [response] is the generator's text as
    [str(...)] renders it. *)
Record AgentResult := {
  action : option string;
  response : option string;
  user_message : option string;
  result_timestamp : option instant
}.

(** A call that returns or raises. *)
Inductive outcome (A : Type) : Type :=
| Returned (a : A)
| Raised (exn : string) (msg : string).
Arguments Returned {A} a.
Arguments Raised {A} exn msg.

End Agent.

(* ===================================================================== *)
(** ** The routes of [src/api.py] *)
(* ===================================================================== *)

Module Api.
Import Json Agent.

(** The request and response models. *)
Record StudentEventRequest := {
  req_user_id : string;
  req_event_type : string;
  req_topic : string;
  req_metadata : list (string * pyval)
}.

Record InterventionResponse := {
  resp_action : string;
  resp_user_message : option string;
  resp_artifact : option pyval;
  resp_user_id : string;
  resp_timestamp : instant;
  resp_intervention_id : string * instant * string
}.

Record UserProfileResponse := {
  prof_user_id : string;
  prof_total_events : Z;
  prof_intervention_count : Z;
  prof_struggle_topics : list string;
  prof_last_intervention : option instant;
  prof_most_common_struggle_type : option string;
  prof_topics_needing_attention : list string;
  prof_recent_activity : Z
}.

Record SystemStatusResponse := {
  status_total_users : Z;
  status_total_events : Z;
  status_total_interventions : Z
}.

Record UserSummary := {
  sum_user_id : string;
  sum_event_count : Z;
  sum_intervention_count : Z;
  sum_last_activity : option instant
}.

(** What [background_tasks.add_task] queues. *)
Inductive BackgroundTask : Type :=
| TrackInterventionAnalytics
    (user : string) (event_type : string) (action : option string)
| ProcessStudentEventBackground (request : StudentEventRequest).

(** How a route ends: a body with the tasks it queued, an [HTTPException],
    or an exception that escapes the route. *)
Inductive reply (A : Type) : Type :=
| Reply (body : A) (tasks : list BackgroundTask)
| HTTPException (status_code : Z) (detail : string)
| Unhandled (exn : string).
Arguments Reply {A} body tasks.
Arguments HTTPException {A} status_code detail.
Arguments Unhandled {A} exn.

(** *** Lines 163-173: the artifact inside the response text *)

Inductive parsed : Type :=
| Artifact (artifact : pyval)
| NoPayload
| Unparsable.

(** [Artifact a]: [artifact = a].  [NoPayload]: a brace is missing, the
    block is skipped and [artifact] stays [None].  [Unparsable]:
    [json.loads] raised, the handler printed its warning and [artifact]
    stays [None]. *)
Definition parse (response_text : string) : parsed :=
  if PyStr.contains "{" response_text && PyStr.contains "}" response_text then
    let start := PyStr.find "{" response_text in
    let stop := PyStr.rfind "}" response_text + 1 in
    let json_str := PyStr.slice response_text start stop in
    match loads json_str with
    | Some artifact => Artifact artifact
    | None => Unparsable
    end
  else NoPayload.

(** The value of the variable [artifact] after the block. *)
Definition artifact_of (p : parsed) : option pyval :=
  match p with
  | Artifact a => Some a
  | NoPayload | Unparsable => None
  end.

(** What lines 165-173 print.  Only the [except] branch prints: the
    warning, with [str(e)] for the error [json.loads] raised on the part in
    braces.  Nothing is printed when a brace is missing (the [if] has no
    [else]) or when the part in braces decodes. *)
Definition parse_warning (decode_error : string -> string)
    (response_text : string) : list string :=
  if PyStr.contains "{" response_text && PyStr.contains "}" response_text then
    let start := PyStr.find "{" response_text in
    let stop := PyStr.rfind "}" response_text + 1 in
    let json_str := PyStr.slice response_text start stop in
    match loads json_str with
    | Some _ => []
    | None =>
        ["Warning: Could not parse artifact JSON: " +:+ decode_error json_str]
    end
  else [].

(** [max(items, key=key)]: the first item of greatest key. *)
Definition py_max {A} (key : A -> Z) (items : list A) : option A :=
  fold_left
    (fun best x =>
       match best with
       | None => Some x
       | Some b => if key b <? key x then Some x else Some b
       end)
    items None.

(** [l.count(x)]. *)
Definition count_occ_str (l : list string) (x : string) : Z :=
  Z.of_nat (List.length (List.filter (String.eqb x) l)).

(** A day, in microseconds. *)
Definition day : Z := 86400000000.

(** [t.replace(hour=0, minute=0, second=0, microsecond=0)]. *)
Definition midnight (t : instant) : instant := t - t mod day.

(** [sum(l)]. *)
Definition sum_Z (l : list Z) : Z := fold_right Z.add 0 l.

Section Routes.

(** [agent.process_student_event(event)], acting on [agent.user_memory]. *)
Variable agent_process :
  StudentEvent -> UserStore -> outcome AgentResult * UserStore.

(** [list(set(l))]: the distinct items of [l] in the set's iteration
    order, which Python leaves open. *)
Variable list_set : list string -> list string.

(** [float(s)] on a [str]; [None] where it raises [ValueError]. *)
Variable float_of_str : string -> option float.

(** How a request model validates a value given for one of its [str]
    fields: the string it stores, or the [ValidationError] it raises. *)
Variable str_field : pyval -> outcome string.

(** *** [POST /events] *)

Definition process_student_event
    (event_request : StudentEventRequest)
    (now_event now_stamp now_id : instant) (memory : UserStore)
  : reply InterventionResponse * UserStore :=
  let event := {|
    user_id := req_user_id event_request;
    event_type := req_event_type event_request;
    topic := req_topic event_request;
    metadata := req_metadata event_request;
    timestamp := now_event |} in
  match agent_process event memory with
  | (Raised _ msg, memory') =>
      (HTTPException 500 ("Failed to process event: " +:+ msg), memory')
  | (Returned result, memory') =>
      let artifact :=
        if bool_decide (action result = Some "intervention_created") then
          artifact_of (parse (default "" (response result)))
        else None in
      (Reply
         {| resp_action := default "unknown" (action result);
            resp_user_message := user_message result;
            resp_artifact := artifact;
            resp_user_id := req_user_id event_request;
            resp_timestamp := default now_stamp (result_timestamp result);
            resp_intervention_id := ("int", now_id, req_user_id event_request) |}
         [TrackInterventionAnalytics
            (req_user_id event_request) (req_event_type event_request)
            (action result)],
       memory')
  end.

(** What the body of [process_student_event] prints, lines 149-193: the
    parser's warning, and only on the path that parses.  (The analytics
    task prints its own line once the response is sent.) *)
Definition process_student_event_output (decode_error : string -> string)
    (event_request : StudentEventRequest) (now_event : instant)
    (memory : UserStore) : list string :=
  let event := {|
    user_id := req_user_id event_request;
    event_type := req_event_type event_request;
    topic := req_topic event_request;
    metadata := req_metadata event_request;
    timestamp := now_event |} in
  match agent_process event memory with
  | (Raised _ _, _) => []
  | (Returned result, _) =>
      if bool_decide (action result = Some "intervention_created") then
        parse_warning decode_error (default "" (response result))
      else []
  end.

(** *** [GET /users/{user_id}/profile] *)

(** [if not user_memory] also rejects an empty dict; a [UserMemory]
    always has its keys, so only the absent user is rejected here. *)
Definition get_user_profile (uid : string) (now : instant) (memory : UserStore)
  : reply UserProfileResponse :=
  match memory !! uid with
  | None => HTTPException 404 ("User " +:+ uid +:+ " not found")
  | Some user_memory =>
      let history := struggle_history user_memory in
      let topics := map rec_topic history in
      let unique_topics := list_set topics in
      let event_types := map rec_event_type history in
      Reply
        {| prof_user_id := uid;
           prof_total_events := Z.of_nat (List.length history);
           prof_intervention_count := intervention_count user_memory;
           prof_struggle_topics := unique_topics;
           prof_last_intervention := last_intervention user_memory;
           prof_most_common_struggle_type :=
             match event_types with
             | [] => None
             | _ :: _ => py_max (count_occ_str event_types) (list_set event_types)
             end;
           prof_topics_needing_attention := take 3 unique_topics;
           prof_recent_activity :=
             Z.of_nat
               (List.length
                  (List.filter (fun e => midnight now <? rec_timestamp e)
                     history)) |}
        []
  end.

(** *** [GET /users] and [GET /status] *)

Definition list_users (memory : UserStore) : list UserSummary * Z :=
  let users :=
    map (fun '(uid, m) =>
           {| sum_user_id := uid;
              sum_event_count := Z.of_nat (List.length (struggle_history m));
              sum_intervention_count := intervention_count m;
              sum_last_activity := rec_timestamp <$> last (struggle_history m) |})
        (map_to_list memory) in
  (users, Z.of_nat (List.length users)).

Definition get_system_status (memory : UserStore) : SystemStatusResponse :=
  let memories := map snd (map_to_list memory) in
  {| status_total_users := Z.of_nat (size memory);
     status_total_events :=
       sum_Z (map (fun m => Z.of_nat (List.length (struggle_history m))) memories);
     status_total_interventions := sum_Z (map intervention_count memories) |}.

(** *** [POST /users/{user_id}/reset] *)

Definition reset_user_profile (uid : string) (memory : UserStore)
  : reply string * UserStore :=
  if bool_decide (uid ∈ dom memory) then
    (Reply ("User " +:+ uid +:+ " profile reset successfully") [],
     delete uid memory)
  else (HTTPException 404 ("User " +:+ uid +:+ " not found"), memory).

(** *** Webhooks *)

(** [float(v)]. *)
Definition py_float (v : pyval) : outcome float :=
  match v with
  | PFloat f => Returned f
  | PInt z =>
      let f := float_of_decimal (z <? 0) (Z.abs z) 0 in
      if is_infinity f
      then Raised "OverflowError" "int too large to convert to float"
      else Returned f
  | PBool b => Returned (if b then one else zero)
  | PStr s =>
      match float_of_str s with
      | Some f => Returned f
      | None => Raised "ValueError" "could not convert string to float"
      end
  | PNone | PList _ | PDict _ =>
      Raised "TypeError" "float() argument must be a string or a real number"
  end.

(** The dict a webhook returns; [help-request] has no [will_process]. *)
Record WebhookAck := {
  ack_status : string;
  ack_will_process : option bool
}.

(** [POST /webhooks/quiz-completed]; [data] is the JSON body. *)
Definition quiz_completed_webhook (data : list (string * pyval))
  : reply WebhookAck :=
  match dict_get "user_id" data, dict_get "quiz_topic" data,
        dict_get "score" data with
  | Some uid, Some quiz_topic, Some raw_score =>
      match py_float raw_score with
      | Raised exn _ => Unhandled exn
      | Returned score =>
          let ack := {| ack_status := "received";
                        ack_will_process := Some (score <? 0.6)%float |} in
          if (score <? 0.6)%float then
            match str_field uid, str_field quiz_topic with
            | Returned u, Returned t =>
                Reply ack
                  [ProcessStudentEventBackground
                     {| req_user_id := u;
                        req_event_type := "quiz_failure";
                        req_topic := t;
                        req_metadata :=
                          [("quiz_score", PFloat score);
                           ("attempts",
                             default (PInt 1) (dict_get "attempts" data));
                           ("time_spent",
                             default (PInt 0) (dict_get "time_spent" data))] |}]
            | Raised exn _, _ => Unhandled exn
            | _, Raised exn _ => Unhandled exn
            end
          else Reply ack []
      end
  | _, _, _ =>
      HTTPException 400
        "Missing required fields: ['user_id', 'quiz_topic', 'score']"
  end.

(** [POST /webhooks/help-request]. *)
Definition help_request_webhook (data : list (string * pyval))
  : reply WebhookAck :=
  match dict_get "user_id" data, dict_get "topic" data with
  | Some uid, Some topic =>
      match str_field uid, str_field topic,
            default (PDict []) (dict_get "metadata" data) with
      | Returned u, Returned t, PDict md =>
          Reply {| ack_status := "received"; ack_will_process := None |}
            [ProcessStudentEventBackground
               {| req_user_id := u;
                  req_event_type := "help_request";
                  req_topic := t;
                  req_metadata := md |}]
      | _, _, _ => Unhandled "ValidationError"
      end
  | _, _ => Unhandled "KeyError"
  end.

(** *** Background tasks *)

(** [process_student_event_background]: the agent's exceptions are caught
    and printed, so only its effect on the memory remains. *)
Definition process_student_event_background
    (event_request : StudentEventRequest) (now : instant) (memory : UserStore)
  : UserStore :=
  snd (agent_process
         {| user_id := req_user_id event_request;
            event_type := req_event_type event_request;
            topic := req_topic event_request;
            metadata := req_metadata event_request;
            timestamp := now |}
         memory).

(** [track_intervention_analytics] only prints. *)
Definition track_intervention_analytics
    (user event_type : string) (action : option string) (memory : UserStore)
  : UserStore :=
  memory.

(** One queued task. *)
Definition run_task (task : BackgroundTask) (now : instant)
    (memory : UserStore) : UserStore :=
  match task with
  | TrackInterventionAnalytics user event_type action =>
      track_intervention_analytics user event_type action memory
  | ProcessStudentEventBackground event_request =>
      process_student_event_background event_request now memory
  end.

(** The queued tasks run in order once the response is sent; [clock n]
    is what [datetime.now()] reads in the [n]-th of them. *)
Fixpoint run_tasks (clock : nat -> instant) (tasks : list BackgroundTask)
    (memory : UserStore) : UserStore :=
  match tasks with
  | [] => memory
  | task :: rest =>
      run_tasks (fun n => clock (S n)) rest (run_task task (clock O) memory)
  end.

(** A whole request to the quiz webhook: the route, then its tasks. *)
Definition serve_quiz_completed (data : list (string * pyval))
    (clock : nat -> instant) (memory : UserStore)
  : reply WebhookAck * UserStore :=
  match quiz_completed_webhook data with
  | Reply ack tasks => (Reply ack tasks, run_tasks clock tasks memory)
  | other => (other, memory)
  end.

(** Requests that only look at one user's memory, or drop it. *)
Inductive user_request : Type :=
| GetProfile (now : instant)
| Reset.

(** The status a reply carries. *)
Definition status_of {A} (r : reply A) : Z :=
  match r with
  | Reply _ _ => 200
  | HTTPException code _ => code
  | Unhandled _ => 500
  end.

(** One such request. *)
Definition serve_user (uid : string) (rq : user_request) (memory : UserStore)
  : Z * UserStore :=
  match rq with
  | GetProfile now => (status_of (get_user_profile uid now memory), memory)
  | Reset =>
      let '(r, memory') := reset_user_profile uid memory in
      (status_of r, memory')
  end.

(** A run of such requests: the statuses in order and the final memory. *)
Fixpoint serve_all (uid : string) (rqs : list user_request)
    (memory : UserStore) : list Z * UserStore :=
  match rqs with
  | [] => ([], memory)
  | rq :: rest =>
      let '(code, memory') := serve_user uid rq memory in
      let '(codes, memory'') := serve_all uid rest memory' in
      (code :: codes, memory'')
  end.

End Routes.

End Api.

(* ===================================================================== *)
(** ** The intervention engine *)
(* ===================================================================== *)

(** [proactive_agent.py], which defines [ProactiveAgent] and its
    [process_student_event], is not among the sources.  Every definition of
    this module is modelled from the design document (sections 3 and 4). *)
Module Engine.
Import Json Agent.

(** Modelled from the spec: the [action] enum of the result record
    (section 4.5); [ProactiveAgent] is missing. *)
Inductive Action : Type :=
| intervention_created
| intervention_failed
| intervention_failed_unparseable
| monitoring.

(** Modelled from the spec: the action as the string [api.py] compares
    with; the agent's result dict is missing. *)
Definition action_name (a : Action) : string :=
  match a with
  | intervention_created => "intervention_created"
  | intervention_failed => "intervention_failed"
  | intervention_failed_unparseable => "intervention_failed_unparseable"
  | monitoring => "monitoring"
  end.

(** Modelled from the spec: the Artifact of section 3; the parser of
    [ProactiveAgent] is missing.  A slide is kept as decoded: section 4.4
    asks only that [slides] be a non-empty sequence. *)
Record Artifact := {
  title : string;
  slides : list pyval;
  duration_minutes : pyval
}.

(** Modelled from the spec: what the document leaves to configuration
    (sections 4.2 and 9); the constants of [ProactiveAgent] are missing.
    [related_topic] is the "matching or closely related" relation on
    topics, [related_signal] says which earlier event types besides
    [help_request] count for the repeated-signal rule, the windows are in
    microseconds. *)
Record Config := {
  failure_threshold : float;
  related_topic : string -> string -> bool;
  related_signal : string -> bool;
  recency_window : Z;
  cooldown : Z;
  default_duration : pyval;
  fallback_message : string;
  intervention_message : string -> string
}.

(** Modelled from the spec: the result record of section 4.5, with the raw
    generator text it carries on a parse failure; the result dict of
    [ProactiveAgent.process_student_event] is missing. *)
Record Result := {
  action : Action;
  user_message : option string;
  artifact : option Artifact;
  raw_text : option string;
  timestamp : instant
}.

(** Modelled from the spec: the [ValidationError] of section 7; the
    exception classes of [ProactiveAgent] are missing. *)
Inductive Error : Type :=
| ValidationError.

(** *** UserMemoryStore (section 4.1) *)

(** Modelled from the spec: the memory [get_or_create] makes on first
    access; [ProactiveAgent]'s memory initialisation is missing. *)
Definition empty_memory : UserMemory :=
  {| struggle_history := [];
     intervention_count := 0;
     last_intervention := None;
     last_intervention_topic := None |}.

(** Modelled from the spec: [get_or_create(user_id)], read side;
    [ProactiveAgent]'s memory accessors are missing. *)
Definition get_or_create (uid : string) (store : UserStore) : UserMemory :=
  default empty_memory (store !! uid).

(** Modelled from the spec: the StruggleRecord derived from an Event
    (section 3); [ProactiveAgent]'s bookkeeping is missing. *)
Definition record_of (ev : StudentEvent) : StruggleRecord :=
  {| rec_event_type := event_type ev;
     rec_topic := topic ev;
     rec_metadata := metadata ev;
     rec_timestamp := Agent.timestamp ev |}.

(** Modelled from the spec: [record_struggle], which appends and never
    truncates; [ProactiveAgent]'s bookkeeping is missing. *)
Definition record_struggle (uid : string) (r : StruggleRecord)
    (store : UserStore) : UserStore :=
  let m := get_or_create uid store in
  <[uid := {| struggle_history := struggle_history m ++ [r];
              intervention_count := intervention_count m;
              last_intervention := last_intervention m;
              last_intervention_topic := last_intervention_topic m |}]> store.

(** Modelled from the spec: [record_intervention], which increments the
    counter and sets the last-intervention fields; [ProactiveAgent]'s
    bookkeeping is missing. *)
Definition record_intervention (uid : string) (topic : string) (at_ : instant)
    (store : UserStore) : UserStore :=
  let m := get_or_create uid store in
  <[uid := {| struggle_history := struggle_history m;
              intervention_count := intervention_count m + 1;
              last_intervention := Some at_;
              last_intervention_topic := Some topic |}]> store.

(** Modelled from the spec: the administrative [reset(user_id)];
    [ProactiveAgent]'s own reset is missing ([api.py] deletes the key
    itself). *)
Definition reset (uid : string) (store : UserStore) : UserStore :=
  delete uid store.

(** *** InterventionPolicy (section 4.2) *)

(** Modelled from the spec: an InterventionDecision; the policy of
    [ProactiveAgent] is missing.  The document lists reasons but does not
    say which one the strong-signal rule reports, so the decision keeps
    the verdict only. *)
Record InterventionDecision := {
  should_intervene : bool
}.

(** Modelled from the spec: the "metadata score" of a quiz failure, under
    the key [quiz_score] that [api.py] writes; the policy of
    [ProactiveAgent] is missing. *)
Definition quiz_score (ev : StudentEvent) : option float :=
  match dict_get "quiz_score" (metadata ev) with
  | Some (PFloat f) => Some f
  | Some (PInt z) => Some (float_of_decimal (z <? 0) (Z.abs z) 0)
  | _ => None
  end.

(** Modelled from the spec: the single strong-signal rule; the policy of
    [ProactiveAgent] is missing. *)
Definition strong_signal (cfg : Config) (ev : StudentEvent) : bool :=
  String.eqb (event_type ev) "quiz_failure" &&
  match quiz_score ev with
  | Some score => (score <? failure_threshold cfg)%float
  | None => false
  end.

(** Modelled from the spec: an earlier record that makes a help request a
    repeated one: a help request (or related signal) on a matching or
    closely related topic, inside the recency window; the policy of
    [ProactiveAgent] is missing. *)
Definition earlier_signal (cfg : Config) (ev : StudentEvent)
    (r : StruggleRecord) : bool :=
  (String.eqb (rec_event_type r) "help_request"
   || related_signal cfg (rec_event_type r))
  && related_topic cfg (rec_topic r) (topic ev)
  && (Agent.timestamp ev - rec_timestamp r <=? recency_window cfg).

(** Modelled from the spec: the repeated-signal rule; the policy of
    [ProactiveAgent] is missing. *)
Definition repeated_signal (cfg : Config) (ev : StudentEvent)
    (memory : UserMemory) : bool :=
  String.eqb (event_type ev) "help_request" &&
  existsb (earlier_signal cfg ev) (struggle_history memory).

(** Modelled from the spec: the cooldown on the identical topic after an
    intervention; the policy of [ProactiveAgent] is missing. *)
Definition cooldown_active (cfg : Config) (ev : StudentEvent)
    (memory : UserMemory) : bool :=
  match last_intervention_topic memory, last_intervention memory with
  | Some t, Some at_ =>
      String.eqb t (topic ev) && (Agent.timestamp ev - at_ <? cooldown cfg)
  | _, _ => false
  end.

(** Modelled from the spec: [evaluate(event, memory)].  A session timeout
    never triggers alone; how it "raises the likelihood" of the next
    trigger is left open by the document and is not modelled.  The policy
    of [ProactiveAgent] is missing. *)
Definition evaluate (cfg : Config) (ev : StudentEvent) (memory : UserMemory)
  : InterventionDecision :=
  {| should_intervene :=
       negb (cooldown_active cfg ev memory)
       && (strong_signal cfg ev || repeated_signal cfg ev memory) |}.

(** *** ArtifactParser (section 4.4) *)

(** Modelled from the spec: the extraction strategy, first opening brace
    to last closing brace; the parser of [ProactiveAgent] is missing. *)
Definition extract_payload (raw_text : string) : option string :=
  if PyStr.contains "{" raw_text && PyStr.contains "}" raw_text then
    Some (PyStr.slice raw_text (PyStr.find "{" raw_text)
            (PyStr.rfind "}" raw_text + 1))
  else None.

(** Modelled from the spec: [parse(raw_text)], [None] standing for
    [ArtifactParseError]: the payload must decode, [title] must be a
    non-empty string and [slides] a non-empty sequence, and a missing
    [duration_minutes] is defaulted.  The parser of [ProactiveAgent] is
    missing. *)
Definition parse (cfg : Config) (raw_text : string) : option Artifact :=
  match extract_payload raw_text with
  | None => None
  | Some payload =>
      match loads payload with
      | Some (PDict d) =>
          match dict_get "title" d, dict_get "slides" d with
          | Some (PStr t), Some (PList (s :: ss)) =>
              if String.eqb t "" then None
              else Some {| title := t;
                           slides := s :: ss;
                           duration_minutes :=
                             default (default_duration cfg)
                               (dict_get "duration_minutes" d) |}
          | _, _ => None
          end
      | _ => None
      end
  end.

(** *** InterventionEngine (section 4.5) *)

(** Modelled from the spec: the event types of section 3; the validation
    of [ProactiveAgent] is missing. *)
Definition event_types : list string :=
  ["quiz_failure"; "help_request"; "session_timeout"].

(** Modelled from the spec: step 1, a non-empty [user_id], a known
    [event_type] and a non-empty [topic]; the validation of
    [ProactiveAgent] is missing. *)
Definition valid (ev : StudentEvent) : bool :=
  negb (String.eqb (user_id ev) "")
  && existsb (String.eqb (event_type ev)) event_types
  && negb (String.eqb (topic ev) "").

(** Modelled from the spec: [process(event)], steps 1 to 6.  [generate] is
    the generative-content call of this invocation, [None] when it fails.
    [ProactiveAgent.process_student_event] is missing. *)
Definition process (cfg : Config) (generate : string -> option string)
    (ev : StudentEvent) (store : UserStore) : (Error + Result) * UserStore :=
  if negb (valid ev) then (inl ValidationError, store)
  else
    let uid := user_id ev in
    let decision := evaluate cfg ev (get_or_create uid store) in
    let store1 := record_struggle uid (record_of ev) store in
    let result a msg art raw :=
      {| action := a; user_message := msg; artifact := art;
         raw_text := raw; timestamp := Agent.timestamp ev |} in
    if should_intervene decision then
      match generate (topic ev) with
      | None =>
          (inr (result intervention_failed (Some (fallback_message cfg))
                  None None),
           store1)
      | Some raw =>
          match parse cfg raw with
          | None =>
              (inr (result intervention_failed_unparseable None None (Some raw)),
               store1)
          | Some art =>
              (inr (result intervention_created
                      (Some (intervention_message cfg (topic ev)))
                      (Some art) (Some raw)),
               record_intervention uid (topic ev) (Agent.timestamp ev) store1)
          end
      end
    else (inr (result monitoring None None None), store1).

(** Modelled from the spec: a run of [process] calls, each with the
    generator behaviour of its own invocation; the results latest last.
    [ProactiveAgent] is missing. *)
Fixpoint process_all (cfg : Config)
    (calls : list (StudentEvent * (string -> option string)))
    (store : UserStore) : list (Error + Result) * UserStore :=
  match calls with
  | [] => ([], store)
  | (ev, generate) :: rest =>
      let '(r, store1) := process cfg generate ev store in
      let '(rs, store2) := process_all cfg rest store1 in
      (r :: rs, store2)
  end.

(** Modelled from the spec: the action of an outcome of [process], none
    for a validation failure; the result dict of
    [ProactiveAgent.process_student_event] is missing. *)
Definition action_of (r : Error + Result) : option Action :=
  match r with
  | inl _ => None
  | inr res => Some (action res)
  end.

(** Modelled from the spec: the engine seen through the interface
    [api.py] calls, a validation failure being a raised exception;
    [ProactiveAgent.process_student_event] is missing. *)
Definition as_agent (cfg : Config) (generate : string -> option string)
    (ev : StudentEvent) (store : UserStore)
  : outcome AgentResult * UserStore :=
  match process cfg generate ev store with
  | (inl ValidationError, store') =>
      (Raised "ValidationError" "invalid event", store')
  | (inr r, store') =>
      (Returned {| Agent.action := Some (action_name (action r));
                   response := raw_text r;
                   Agent.user_message := user_message r;
                   result_timestamp := Some (timestamp r) |},
       store')
  end.

(** Modelled from the spec: the read-only accessors over the store
    (section 6), total by [get_or_create]; [ProactiveAgent]'s memory
    accessors are missing. *)
Definition history (uid : string) (store : UserStore) : list StruggleRecord :=
  struggle_history (get_or_create uid store).

(** Modelled from the spec: the intervention count of a user, zero before
    the first event; [ProactiveAgent]'s memory accessors are missing. *)
Definition interventions (uid : string) (store : UserStore) : Z :=
  intervention_count (get_or_create uid store).

(** Modelled from the spec: what step 3 of one [process] call adds to the
    history of user [u], nothing for an invalid event or another user's;
    [ProactiveAgent]'s bookkeeping is missing. *)
Definition appended (u : string) (ev : StudentEvent) : list StruggleRecord :=
  if valid ev && bool_decide (user_id ev = u) then [record_of ev] else [].

(** Modelled from the spec: a user without struggle history and without a
    recorded intervention; [ProactiveAgent]'s memory is missing. *)
Definition fresh (uid : string) (store : UserStore) : Prop :=
  get_or_create uid store = empty_memory.

End Engine.

(* ===================================================================== *)
(** ** Sample data *)
(* ===================================================================== *)

Module Samples.
Import Json Agent.

(** The lesson text of the parser-robustness scenario. *)
Definition lesson_text : string :=
  quoted
    "Here is your lesson: {'title':'CSS Grid','slides':[{'title':'Intro'}]} Enjoy!".

(** Topics of one family share their first word. *)
Fixpoint first_word (s : string) : string :=
  match s with
  | EmptyString => EmptyString
  | String c r => if Ascii.eqb c " " then EmptyString else String c (first_word r)
  end.

(** The sample relation between topics. *)
Definition same_family (a b : string) : bool :=
  String.eqb (first_word a) (first_word b).

(** An hour, in microseconds. *)
Definition one_hour : Z := 3600000000.

(** A sample configuration, with the 0.6 cutoff. *)
Definition config : Engine.Config :=
  {| Engine.failure_threshold := 0.6%float;
     Engine.related_topic := same_family;
     Engine.related_signal := fun _ => false;
     Engine.recency_window := 24 * one_hour;
     Engine.cooldown := one_hour;
     Engine.default_duration := PInt 5;
     Engine.fallback_message := "We could not prepare a lesson right now.";
     Engine.intervention_message :=
       fun topic => "Here is a short lesson on " +:+ topic |}.

(** Generators: one that answers with the lesson text, one that fails, one
    that answers without a payload. *)
Definition generator_up (_ : string) : option string := Some lesson_text.
Definition generator_down (_ : string) : option string := None.
Definition generator_chatty (_ : string) : option string :=
  Some "Sorry, no lesson today.".

(** Events as the test suite's [simulate_*] helpers make them. *)
Definition failed_quiz (user topic : string) (score : float) (at_ : instant)
  : StudentEvent :=
  {| user_id := user; event_type := "quiz_failure"; topic := topic;
     metadata := [("quiz_score", PFloat score)]; timestamp := at_ |}.

Definition help_request (user topic : string) (at_ : instant) : StudentEvent :=
  {| user_id := user; event_type := "help_request"; topic := topic;
     metadata := []; timestamp := at_ |}.

(** An agent that reports an intervention whose text holds no payload. *)
Definition chatty_agent (_ : StudentEvent) (store : UserStore)
  : outcome AgentResult * UserStore :=
  (Returned {| action := Some "intervention_created";
               response := Some "Sorry, no lesson today.";
               user_message := Some "I made you a lesson";
               result_timestamp := None |},
   store).

(** A body of the quiz-completion webhook. *)
Definition quiz_payload (user topic : string) (score : float)
  : list (string * pyval) :=
  [("user_id", PStr user); ("quiz_topic", PStr topic); ("score", PFloat score)].

(** A [float] that takes no string. *)
Definition no_float (_ : string) : option float := None.

(** A [str] field that takes strings only. *)
Definition strict_str (v : pyval) : outcome string :=
  match v with
  | PStr s => Returned s
  | _ => Raised "ValidationError" "str type expected"
  end.

(** The memory of a user after one intervention. *)
Definition priya_memory : UserMemory :=
  {| struggle_history :=
       [{| rec_event_type := "quiz_failure"; rec_topic := "CSS Flexbox";
           rec_metadata := []; rec_timestamp := 1 |}];
     intervention_count := 1;
     last_intervention := Some 1;
     last_intervention_topic := Some "CSS Flexbox" |}.

End Samples.

(* ===================================================================== *)
(** ** The agent dependency and the artifact endpoint of [src/api.py] *)
(* ===================================================================== *)

Module Service.
Import Json Agent Api.

(** What [Depends(get_agent)] hands to a route: the agent, here its
    [user_memory], or the [HTTPException] raised instead. *)
Inductive dependency : Type :=
| AgentReady (memory : UserStore)
| AgentMissing (status_code : Z) (detail : string).

(** The body of [POST /generate-artifact]. *)
Record GeneratedArtifact := {
  gen_topic : string;
  gen_artifact : pyval;
  gen_generated_at : instant
}.

Section Dependency.

(** [ProactiveAgent(api_key)]: the [user_memory] of a newly built agent.
    The constructor is taken to return. *)
Variable new_agent : string -> UserStore.

(** [get_agent], lines 91-102.  The global [agent_instance] is the second
    component; [api_key] is what [os.getenv] reads, and an empty value
    counts as missing ([if not api_key]). *)
Definition get_agent (api_key : option string)
    (agent_instance : option UserStore) : dependency * option UserStore :=
  match agent_instance with
  | Some memory => (AgentReady memory, agent_instance)
  | None =>
      match api_key with
      | Some key =>
          if String.eqb key "" then
            (AgentMissing 500
               "GEMINI_API_KEY not configured. Please check environment variables.",
             None)
          else (AgentReady (new_agent key), Some (new_agent key))
      | None =>
          (AgentMissing 500
             "GEMINI_API_KEY not configured. Please check environment variables.",
           None)
      end
  end.

(** [startup_event], lines 105-112: the failure of [get_agent] is caught
    and printed. *)
Definition startup_event (api_key : option string)
    (agent_instance : option UserStore) : option UserStore :=
  snd (get_agent api_key agent_instance).

(** A request to a route that depends on the agent: the dependency is
    resolved first, and the route works on the one agent object, so what it
    leaves in the memory is what the next request finds. *)
Definition with_agent {A} (api_key : option string)
    (route : UserStore -> reply A * UserStore)
    (agent_instance : option UserStore) : reply A * option UserStore :=
  match get_agent api_key agent_instance with
  | (AgentMissing code detail, instance) => (HTTPException code detail, instance)
  | (AgentReady memory, _) =>
      let '(r, memory') := route memory in (r, Some memory')
  end.

End Dependency.

(** The characters a JSON text can begin with: white space, or the first
    character of a string, an object, an array, a number or a literal. *)
Definition starts_value (c : ascii) : bool :=
  is_ws c || is_digit c
  || existsb (Ascii.eqb c)
       [dquote; "{"; "["; "-"; "n"; "t"; "f"; "N"; "I"]%char.

Section Tool.

(** [agent._create_generate_tool().func(topic)]: the text the generation
    tool returns, or what it raises. *)
Variable tool_func : string -> outcome string.

(** [str(e)] for the error [json.loads] raises on a text. *)
Variable decode_error : string -> string.

(** [POST /generate-artifact], lines 249-266: the tool's whole output is
    decoded, with no search for braces. *)
Definition generate_learning_artifact (topic : string) (now : instant)
  : reply GeneratedArtifact :=
  match tool_func topic with
  | Raised _ msg => HTTPException 500 ("Failed to generate artifact: " +:+ msg)
  | Returned result =>
      match loads result with
      | Some artifact =>
          Reply {| gen_topic := topic;
                   gen_artifact := artifact;
                   gen_generated_at := now |} []
      | None =>
          HTTPException 500
            ("Failed to generate artifact: " +:+ decode_error result)
      end
  end.

End Tool.

(** The body of [GET /], lines 116-119. *)
Record HealthCheck := {
  health_message : string;
  health_status : string
}.

(** [root], lines 116-119: the one route without [Depends(get_agent)]. *)
Definition root : reply HealthCheck :=
  Reply {| health_message := "ProactiveAgent API is running";
           health_status := "healthy" |} [].

(** A request to one of the nine routes of the application, with what the
    handler reads from the clock.  The path and body are taken to have
    passed the framework's validation. *)
Inductive request : Type :=
| GetRoot
| GetStatus
| PostEvents (event_request : StudentEventRequest)
    (now_event now_stamp now_id : instant)
| GetUserProfile (uid : string) (now : instant)
| GetUsers
| PostUserReset (uid : string)
| PostGenerateArtifact (topic : string) (now : instant)
| PostQuizCompleted (data : list (string * pyval))
| PostHelpRequest (data : list (string * pyval)).

(** The body of a response, by route. *)
Inductive body : Type :=
| Health (h : HealthCheck)
| Status (s : SystemStatusResponse)
| Intervention (r : InterventionResponse)
| Profile (p : UserProfileResponse)
| Users (users : list UserSummary) (total_count : Z)
| Message (m : string)
| Generated (g : GeneratedArtifact)
| Ack (a : WebhookAck).

(** A reply with its body retagged. *)
Definition reply_map {A B} (f : A -> B) (r : reply A) : reply B :=
  match r with
  | Reply b tasks => Reply (f b) tasks
  | HTTPException code detail => HTTPException code detail
  | Unhandled exn => Unhandled exn
  end.

(** The routes whose signature has [agent: ProactiveAgent =
    Depends(get_agent)]: all but [root]. *)
Definition depends_on_agent (rq : request) : bool :=
  match rq with
  | GetRoot => false
  | _ => true
  end.

Section App.

Variable agent_process :
  StudentEvent -> UserStore -> outcome AgentResult * UserStore.
Variable list_set : list string -> list string.
Variable float_of_str : string -> option float.
Variable str_field : pyval -> outcome string.
Variable new_agent : string -> UserStore.
Variable tool_func : string -> outcome string.
Variable decode_error : string -> string.

(** The application: a request is routed to its handler, behind the agent
    dependency where the route declares it.  The reply holds the tasks the
    handler queued; they run once the response is sent. *)
Definition app (api_key : option string) (rq : request)
    (agent_instance : option UserStore) : reply body * option UserStore :=
  match rq with
  | GetRoot => (reply_map Health root, agent_instance)
  | GetStatus =>
      with_agent new_agent api_key
        (fun memory => (Reply (Status (get_system_status memory)) [], memory))
        agent_instance
  | PostEvents event_request now_event now_stamp now_id =>
      with_agent new_agent api_key
        (fun memory =>
           let '(r, memory') :=
             process_student_event agent_process event_request
               now_event now_stamp now_id memory in
           (reply_map Intervention r, memory'))
        agent_instance
  | GetUserProfile uid now =>
      with_agent new_agent api_key
        (fun memory =>
           (reply_map Profile (get_user_profile list_set uid now memory), memory))
        agent_instance
  | GetUsers =>
      with_agent new_agent api_key
        (fun memory =>
           let '(users, total_count) := list_users memory in
           (Reply (Users users total_count) [], memory))
        agent_instance
  | PostUserReset uid =>
      with_agent new_agent api_key
        (fun memory =>
           let '(r, memory') := reset_user_profile uid memory in
           (reply_map Message r, memory'))
        agent_instance
  | PostGenerateArtifact topic now =>
      with_agent new_agent api_key
        (fun memory =>
           (reply_map Generated
              (generate_learning_artifact tool_func decode_error topic now),
            memory))
        agent_instance
  | PostQuizCompleted data =>
      with_agent new_agent api_key
        (fun memory =>
           (reply_map Ack (quiz_completed_webhook float_of_str str_field data),
            memory))
        agent_instance
  | PostHelpRequest data =>
      with_agent new_agent api_key
        (fun memory =>
           (reply_map Ack (help_request_webhook str_field data), memory))
        agent_instance
  end.

End App.

End Service.

(* ===================================================================== *)
(** ** The test suite of [src/test_agent.py] *)
(* ===================================================================== *)

Module TestAgent.
Import Json Agent.

(** *** The operations on decoded values the suite uses *)

(** Sequencing of calls that may raise. *)
Definition and_then {A B} (x : outcome A) (k : A -> outcome B) : outcome B :=
  match x with
  | Returned a => k a
  | Raised exn msg => Raised exn msg
  end.

(** [v.get(k, dflt)]: only a dict has the method. *)
Definition py_get (v : pyval) (k : string) (dflt : pyval) : outcome pyval :=
  match v with
  | PDict d => Returned (default dflt (dict_get k d))
  | _ => Raised "AttributeError" "object has no attribute 'get'"
  end.

(** [v[k]] for a string key. *)
Definition py_getitem (v : pyval) (k : string) : outcome pyval :=
  match v with
  | PDict d =>
      match dict_get k d with
      | Some x => Returned x
      | None => Raised "KeyError" k
      end
  | _ => Raised "TypeError" "indices must be integers"
  end.

(** A byte that starts a character in UTF-8. *)
Definition starts_char (c : ascii) : bool :=
  let n := N_of_ascii c in ((n <? 128) || (192 <=? n))%N.

(** [len(v)]; the length of a [str] is its number of characters. *)
Definition py_len (v : pyval) : outcome Z :=
  match v with
  | PStr s =>
      Returned (Z.of_nat (List.length (List.filter starts_char
                                         (list_ascii_of_string s))))
  | PList l => Returned (Z.of_nat (List.length l))
  | PDict d => Returned (Z.of_nat (List.length d))
  | PNone | PBool _ | PInt _ | PFloat _ =>
      Raised "TypeError" "object has no len()"
  end.

(** [bool(v)]. *)
Definition py_truthy (v : pyval) : bool :=
  match v with
  | PNone => false
  | PBool b => b
  | PInt z => negb (z =? 0)
  | PFloat f => negb (f =? 0)%float
  | PStr s => negb (String.eqb s "")
  | PList l => match l with [] => false | _ :: _ => true end
  | PDict d => match d with [] => false | _ :: _ => true end
  end.

(** The first character of a text, with its continuation bytes. *)
Fixpoint continuation (s : string) : string :=
  match s with
  | EmptyString => EmptyString
  | String c r => if starts_char c then EmptyString else String c (continuation r)
  end.

(** [v[0]]. *)
Definition py_first (v : pyval) : outcome pyval :=
  match v with
  | PList (x :: _) => Returned x
  | PList [] => Raised "IndexError" "list index out of range"
  | PStr (String c r) => Returned (PStr (String c (continuation r)))
  | PStr EmptyString => Raised "IndexError" "string index out of range"
  | PDict _ => Raised "KeyError" "0"
  | PNone | PBool _ | PInt _ | PFloat _ =>
      Raised "TypeError" "object is not subscriptable"
  end.

(** Lines 119-126 of [test_tool_directly]: what is read off the artifact
    to print it.  Nothing is printed here; what remains is whether a read
    raises. *)
Definition show_artifact (artifact : pyval) : outcome unit :=
  and_then (py_get artifact "title" PNone) (fun _ =>
  and_then (py_get artifact "slides" (PList [])) (fun slides =>
  and_then (py_len slides) (fun _ =>
  and_then (py_get artifact "duration_minutes" PNone) (fun _ =>
  and_then (py_get artifact "slides" PNone) (fun slides' =>
  if py_truthy slides' then
    and_then (py_getitem artifact "slides") (fun s =>
    and_then (py_first s) (fun first_slide =>
    and_then (py_get first_slide "title" PNone) (fun _ => Returned tt)))
  else Returned tt))))).


(** [test_topics], line 112. *)
Definition test_topics : list string :=
  ["CSS Grid"; "React Hooks"; "Database Normalization"].

(** [not api_key]. *)
Definition no_key (api_key : option string) : bool :=
  match api_key with
  | Some key => String.eqb key ""
  | None => true
  end.

(** [validate_environment], lines 170-201: the key and the two imports. *)
Definition validate_environment (api_key : option string)
    (adk_imports genai_imports : bool) : bool :=
  if no_key api_key then false
  else if negb adk_imports then false
  else if negb genai_imports then false
  else true.

(** What [main] prints at its end. *)
Inductive report : Type :=
| EnvironmentInvalid
| SuiteFailed (exn : string)
| Tally (tests_passed total_tests : Z).

Section Suite.

(** [agent.process_student_event(event)], acting on [agent.user_memory]. *)
Variable agent_process :
  StudentEvent -> UserStore -> outcome AgentResult * UserStore.

(** [ProactiveAgent(api_key)]: the [user_memory] of a newly built agent;
    [None] is the key [os.getenv] did not find. *)
Variable new_agent : option string -> UserStore.

(** [ProactiveAgent(api_key)._create_generate_tool()], lines 105-109 of
    [test_tool_directly]: the [func] of the tool, or the exception that
    building the agent or the tool raises.  Both calls stand before the
    loop and outside its [try]. *)
Variable create_tool : option string -> outcome (string -> outcome string).

(** The event builders of [proactive_agent], given the user, the topic and
    the instant at which they are called. *)
Variable simulate_failed_quiz_event : string -> string -> instant -> StudentEvent.
Variable simulate_help_request_event : string -> string -> instant -> StudentEvent.
Variable simulate_session_timeout_event : string -> string -> instant -> StudentEvent.

(** [test_basic_functionality], lines 19-98.  [clock n] is the instant of
    the [n]-th event built.  The result is what the function returns or
    raises, with the memory of its agent when one was built. *)
Definition test_basic_functionality (api_key : option string)
    (clock : nat -> instant) : outcome bool * option UserStore :=
  if no_key api_key then (Returned false, None)
  else
    let memory := new_agent api_key in
    let event1 := simulate_failed_quiz_event "priya" "CSS Flexbox" (clock 0%nat) in
    match agent_process event1 memory with
    | (Raised exn msg, memory1) => (Raised exn msg, Some memory1)
    | (Returned result1, memory1) =>
        if bool_decide (action result1 = Some "intervention_created") then
          let event2 :=
            simulate_help_request_event "alex" "JavaScript Promises"
              (clock 1%nat) in
          match agent_process event2 memory1 with
          | (Raised exn msg, memory2) => (Raised exn msg, Some memory2)
          | (Returned result2, memory2) =>
              let event3a :=
                simulate_help_request_event "alex" "JavaScript Async/Await"
                  (clock 2%nat) in
              let event3b :=
                simulate_help_request_event "alex" "JavaScript Promises"
                  (clock 3%nat) in
              match agent_process event3a memory2 with
              | (Raised exn msg, memory3) => (Raised exn msg, Some memory3)
              | (Returned _, memory3) =>
                  match agent_process event3b memory3 with
                  | (Raised exn msg, memory4) => (Raised exn msg, Some memory4)
                  | (Returned result3, memory4) =>
                      let event4 :=
                        simulate_session_timeout_event "sam" "Python Functions"
                          (clock 4%nat) in
                      match agent_process event4 memory4 with
                      | (Raised exn msg, memory5) =>
                          (Raised exn msg, Some memory5)
                      | (Returned result4, memory5) =>
                          (Returned true, Some memory5)
                      end
                  end
              end
          end
        else (Returned false, Some memory1)
    end.

(** One turn of the loop of [test_tool_directly], lines 114-130, for the
    tool function [func]: [false] is the [return False] of the handler,
    which catches what [tool.func(topic)], the decoder or the printing
    raises. *)
Definition tool_check (func : string -> outcome string) (topic : string)
  : bool :=
  match func topic with
  | Raised _ _ => false
  | Returned result =>
      match loads result with
      | None => false
      | Some artifact =>
          match show_artifact artifact with
          | Returned _ => true
          | Raised _ _ => false
          end
      end
  end.

(** [test_tool_directly], lines 100-132.  The key is not checked here; an
    exception of the agent's or the tool's construction escapes the
    function, one inside the loop makes it return [False]. *)
Definition test_tool_directly (api_key : option string) : outcome bool :=
  match create_tool api_key with
  | Raised exn msg => Raised exn msg
  | Returned func => Returned (forallb (tool_check func) test_topics)
  end.

(** [run_comprehensive_demo], lines 134-168: three events of one learner;
    nothing is checked, the results are printed. *)
Definition run_comprehensive_demo (api_key : option string)
    (clock : nat -> instant) : outcome unit * UserStore :=
  let memory := new_agent api_key in
  match agent_process
          (simulate_failed_quiz_event "maya" "CSS Flexbox" (clock 0%nat))
          memory with
  | (Raised exn msg, memory1) => (Raised exn msg, memory1)
  | (Returned _, memory1) =>
      match agent_process
              (simulate_help_request_event "maya" "CSS Grid" (clock 1%nat))
              memory1 with
      | (Raised exn msg, memory2) => (Raised exn msg, memory2)
      | (Returned _, memory2) =>
          match agent_process
                  (simulate_session_timeout_event "maya" "JavaScript Events"
                     (clock 2%nat))
                  memory2 with
          | (Raised exn msg, memory3) => (Raised exn msg, memory3)
          | (Returned _, memory3) => (Returned tt, memory3)
          end
      end
  end.

(** [main], lines 203-235.  Each of the three functions builds an agent of
    its own; the first exception that escapes one of them ends the run in
    the handler of line 226. *)
Definition main (api_key : option string) (adk_imports genai_imports : bool)
    (clock_basic clock_demo : nat -> instant) : report :=
  if negb (validate_environment api_key adk_imports genai_imports)
  then EnvironmentInvalid
  else
    match fst (test_basic_functionality api_key clock_basic) with
    | Raised exn _ => SuiteFailed exn
    | Returned basic =>
        match test_tool_directly api_key with
        | Raised exn _ => SuiteFailed exn
        | Returned tool =>
            match fst (run_comprehensive_demo api_key clock_demo) with
            | Raised exn _ => SuiteFailed exn
            | Returned _ =>
                Tally ((if basic then 1 else 0) + (if tool then 1 else 0) + 1) 3
            end
        end
    end.

End Suite.

End TestAgent.

(* ===================================================================== *)
(** ** More sample data *)
(* ===================================================================== *)

Module MoreSamples.
Import Json Agent Samples.

(** A generation tool that answers every topic with one lesson. *)
Definition lesson_tool (_ : string) : outcome string :=
  Returned
    (quoted
       "{'title':'CSS Grid','slides':[{'title':'Intro'}],'duration_minutes':5}").

(** A tool that wraps its lesson in prose. *)
Definition prose_tool (_ : string) : outcome string := Returned lesson_text.

(** A quiz-completion body whose [user_id] is [null]. *)
Definition anonymous_quiz_payload : list (string * pyval) :=
  [("user_id", PNone); ("quiz_topic", PStr "CSS Flexbox");
   ("score", PFloat 0.4)].

(** An agent that reports an intervention whose text holds braces around
    something that is not JSON. *)
Definition garbled_agent (_ : StudentEvent) (store : UserStore)
  : outcome AgentResult * UserStore :=
  (Returned {| action := Some "intervention_created";
               response := Some "Lesson: {title: CSS Grid}";
               user_message := Some "I made you a lesson";
               result_timestamp := None |},
   store).

(** The decoder's message for a key that is not quoted. *)
Definition expecting_name (_ : string) : string :=
  "Expecting property name enclosed in double quotes: line 1 column 2 (char 1)".

(** The decoder's message, left blank. *)
Definition no_message (_ : string) : string := "".

(** A new agent remembers nobody. *)
Definition blank_agent (_ : string) : UserStore := ∅.





(** Two learners with one and two events. *)
Definition alex_memory : UserMemory :=
  {| struggle_history :=
       [{| rec_event_type := "help_request"; rec_topic := "JavaScript Promises";
           rec_metadata := []; rec_timestamp := 5 |};
        {| rec_event_type := "help_request"; rec_topic := "JavaScript Async/Await";
           rec_metadata := []; rec_timestamp := 7 |}];
     intervention_count := 0;
     last_intervention := None;
     last_intervention_topic := None |}.

Definition two_users : UserStore :=
  <["alex" := alex_memory]> {["priya" := priya_memory]}.

End MoreSamples.

Module Padding.
(** A text of JSON white space only: what the decoder skips around a
    value. *)
Definition blank (s : string) : bool :=
  forallb Json.is_ws (list_ascii_of_string s).
End Padding.

(* ===================================================================== *)
(** ** The decoder consumes its input and never runs out of fuel *)
(* ===================================================================== *)

Module JsonFacts.
Import Json.

Local Abbreviation size := (@List.length ascii).

Lemma skip_ws_length s : (size (skip_ws s) <= size s)%nat.
Proof.
  induction s as [|c s IH]; cbn; [lia|].
  destruct (is_ws c); cbn; lia.
Qed.

Lemma strip_prefix_length lit s r :
  strip_prefix lit s = Some r -> (size r + size lit = size s)%nat.
Proof.
  revert s. induction lit as [|a lit IH]; intros s; cbn.
  - intros [= ->]. lia.
  - destruct s as [|b s]; [discriminate|].
    destruct (Ascii.eqb a b); [|discriminate].
    intros H. apply IH in H. cbn. lia.
Qed.

Lemma take_digits_length s acc n v k r :
  take_digits s acc n = (v, k, r) -> (size r <= size s)%nat.
Proof.
  revert acc n. induction s as [|c s IH]; intros acc n; cbn.
  - intros [= _ _ <-]. cbn. lia.
  - destruct (is_digit c).
    + intros H. apply IH in H. lia.
    + intros [= _ _ <-]. cbn. lia.
Qed.

Lemma match_digits_length s v k r :
  match_digits s = Some (v, k, r) -> (size r < size s)%nat.
Proof.
  destruct s as [|c s]; cbn; [discriminate|].
  destruct (is_digit c); [|discriminate].
  intros [= H]. apply take_digits_length in H. lia.
Qed.

Lemma match_int_length s v r :
  match_int s = Some (v, r) -> (size r < size s)%nat.
Proof.
  destruct s as [|c s]; cbn; [discriminate|].
  destruct (Ascii.eqb c "0"); [intros [= _ <-]; lia|].
  destruct (is_digit c) eqn:Hd; [|discriminate].
  destruct (take_digits s _ _) as [[v' k] r'] eqn:Ht.
  intros [= _ <-]. apply take_digits_length in Ht. lia.
Qed.

Lemma match_frac_length s v k r :
  match_frac s = Some (v, k, r) -> (size r < size s)%nat.
Proof.
  destruct s as [|c s]; cbn; [discriminate|].
  destruct (Ascii.eqb c "."); [|discriminate].
  intros H. apply match_digits_length in H. lia.
Qed.

Lemma match_exp_length s v r :
  match_exp s = Some (v, r) -> (size r < size s)%nat.
Proof.
  destruct s as [|c s]; cbn; [discriminate|].
  destruct (Ascii.eqb c "e" || Ascii.eqb c "E"); [|discriminate].
  match goal with
  | |- context [let '(neg, digits) := ?p in _] =>
      assert (Hp : (size (snd p) <= size s)%nat);
      [|destruct p as [neg digits]]
  end.
  { destruct s as [|sign s']; [cbn; lia|].
    destruct (Ascii.eqb sign "-"); [cbn; lia|].
    destruct (Ascii.eqb sign "+"); cbn; lia. }
  cbn [snd] in Hp.
  destruct (match_digits digits) as [[[v0 k] rest]|] eqn:Hm; [|discriminate].
  intros [= _ <-]. apply match_digits_length in Hm. lia.
Qed.

Lemma match_unsigned_length neg s v r :
  match_unsigned neg s = Some (v, r) -> (size r < size s)%nat.
Proof.
  unfold match_unsigned.
  destruct (match_int s) as [[i r0]|] eqn:Hi; [|discriminate].
  apply match_int_length in Hi.
  destruct (match_frac r0) as [[[fd fn] r1]|] eqn:Hf.
  - apply match_frac_length in Hf.
    destruct (match_exp r1) as [[e r2]|] eqn:He.
    + apply match_exp_length in He. intros [= _ <-]. lia.
    + destruct (fn =? 0); intros [= _ <-]; lia.
  - destruct (match_exp r0) as [[e r2]|] eqn:He.
    + apply match_exp_length in He. intros [= _ <-]. lia.
    + cbn. intros [= _ <-]. lia.
Qed.

Lemma match_number_length s v r :
  match_number s = Some (v, r) -> (size r < size s)%nat.
Proof.
  destruct s as [|c s]; cbn; [discriminate|].
  destruct (Ascii.eqb c "-"); intros H; apply match_unsigned_length in H;
    cbn in H; lia.
Qed.

Lemma literal_length lit s r :
  literal lit s = Some r -> lit <> EmptyString -> (size r < size s)%nat.
Proof.
  unfold literal. intros H Hne. apply strip_prefix_length in H.
  destruct lit; [congruence|]. cbn in H. lia.
Qed.

Lemma scan_scalar_length s v r :
  scan_scalar s = Ok (v, r) -> (size r < size s)%nat.
Proof.
  unfold scan_scalar.
  repeat match goal with
         | |- context [literal ?lit s] =>
             let H := fresh "H" in
             destruct (literal lit s) eqn:H;
             [apply literal_length in H; [|discriminate]; intros [= _ <-]; exact H|]
         | |- context [match_number s] =>
             let H := fresh "H" in
             destruct (match_number s) as [[? ?]|] eqn:H;
             [apply match_number_length in H; intros [= _ <-]; exact H|]
         end.
  discriminate.
Qed.
Lemma scanstring_length_bounded n :
  forall s acc str r,
    (size s <= n)%nat -> scanstring s acc = Some (str, r) -> (size r < size s)%nat.
Proof.
  induction n as [|n IH]; intros s acc str r Hn.
  - destruct s; [discriminate | cbn in Hn; lia].
  - destruct s as [|c s]; [discriminate|]. cbn [scanstring].
    cbn [List.length] in Hn.
    repeat match goal with
           | |- context [if ?b then _ else _] => destruct b eqn:?
           | |- context [match ?x with _ => _ end] =>
               lazymatch x with
               | scanstring _ _ => fail
               | _ => destruct x eqn:?
               end
           end;
      try discriminate;
      try (intros [= _ <-]; cbn [List.length]; lia);
      intros H; apply IH in H; cbn [List.length] in *; lia.
Qed.

Lemma scanstring_length s acc str r :
  scanstring s acc = Some (str, r) -> (size r < size s)%nat.
Proof. apply (scanstring_length_bounded (size s)). lia. Qed.

(** Every successful scan consumes at least one character. *)
Lemma scan_consumes fuel :
  (forall s v r, scan_once fuel s = Ok (v, r) -> (size r < size s)%nat)
  /\ (forall s acc v r,
        parse_array fuel s acc = Ok (v, r) -> (size r < size s)%nat)
  /\ (forall s acc v r,
        parse_object fuel s acc = Ok (v, r) -> (size r < size s)%nat).
Proof.
  induction fuel as [|f (IHs & IHa & IHo)]; [repeat split; discriminate|].
  split; [|split].
  - intros s v r. cbn [scan_once].
    destruct s as [|c s]; [discriminate|].
    destruct (Ascii.eqb c dquote).
    { destruct (scanstring s []) as [[str r']|] eqn:Hs; [|discriminate].
      apply scanstring_length in Hs. intros [= _ <-]. cbn. lia. }
    pose proof (skip_ws_length s) as Hw.
    destruct (Ascii.eqb c "{").
    { destruct (skip_ws s) as [|c1 r1] eqn:Hb; [discriminate|].
      cbn [List.length] in Hw.
      destruct (Ascii.eqb c1 "}"); [intros [= _ <-]; cbn; lia|].
      intros H. apply IHo in H. cbn [List.length] in *. lia. }
    destruct (Ascii.eqb c "[").
    { destruct (skip_ws s) as [|c1 r1] eqn:Hb; [discriminate|].
      cbn [List.length] in Hw.
      destruct (Ascii.eqb c1 "]"); [intros [= _ <-]; cbn; lia|].
      intros H. apply IHa in H. cbn [List.length] in *. lia. }
    apply scan_scalar_length.
  - intros s acc v r. cbn [parse_array].
    destruct (scan_once f s) as [[v1 r1]| |] eqn:H1; try discriminate.
    apply IHs in H1. pose proof (skip_ws_length r1) as Hw.
    destruct (skip_ws r1) as [|c r2]; [discriminate|]. cbn [List.length] in Hw.
    destruct (Ascii.eqb c "]"); [intros [= _ <-]; lia|].
    destruct (Ascii.eqb c ","); [|discriminate].
    intros H. apply IHa in H. pose proof (skip_ws_length r2). lia.
  - intros s acc v r. cbn [parse_object].
    destruct s as [|c s]; [discriminate|].
    destruct (Ascii.eqb c dquote); [|discriminate].
    destruct (scanstring s []) as [[key r1]|] eqn:Hk; [|discriminate].
    apply scanstring_length in Hk. pose proof (skip_ws_length r1) as Hw1.
    destruct (skip_ws r1) as [|c2 r2]; [discriminate|]. cbn [List.length] in Hw1.
    destruct (Ascii.eqb c2 ":"); [|discriminate].
    pose proof (skip_ws_length r2) as Hw2.
    destruct (scan_once f (skip_ws r2)) as [[v1 r3]| |] eqn:H1; try discriminate.
    apply IHs in H1. pose proof (skip_ws_length r3) as Hw3.
    destruct (skip_ws r3) as [|c3 r4]; [discriminate|]. cbn [List.length] in Hw3.
    destruct (Ascii.eqb c3 "}"); [intros [= _ <-]; cbn; lia|].
    destruct (Ascii.eqb c3 ","); [|discriminate].
    intros H. apply IHo in H. pose proof (skip_ws_length r4). cbn. lia.
Qed.

(** With at least [2 * size s + 1] units, [scan_once] does not run out of
    fuel on [s]. *)
Lemma scan_fuel fuel :
  (forall s, (2 * size s + 1 <= fuel)%nat -> scan_once fuel s <> OutOfFuel)
  /\ (forall s acc,
        (2 * size s + 2 <= fuel)%nat -> parse_array fuel s acc <> OutOfFuel)
  /\ (forall s acc,
        (2 * size s + 2 <= fuel)%nat -> parse_object fuel s acc <> OutOfFuel).
Proof.
  induction fuel as [|f (IHs & IHa & IHo)]; [repeat split; intros; lia|].
  split; [|split].
  - intros s Hf. cbn [scan_once].
    destruct s as [|c s]; [discriminate|]. cbn [List.length] in Hf.
    destruct (Ascii.eqb c dquote).
    { destruct (scanstring s []) as [[str r']|]; discriminate. }
    pose proof (skip_ws_length s) as Hw.
    destruct (Ascii.eqb c "{").
    { destruct (skip_ws s) as [|c1 r1] eqn:Hb; [discriminate|].
      destruct (Ascii.eqb c1 "}"); [discriminate|].
      apply IHo. lia. }
    destruct (Ascii.eqb c "[").
    { destruct (skip_ws s) as [|c1 r1] eqn:Hb; [discriminate|].
      destruct (Ascii.eqb c1 "]"); [discriminate|].
      apply IHa. lia. }
    unfold scan_scalar.
    repeat match goal with
           | |- context [match ?x with _ => _ end] => destruct x as [[? ?]|] || destruct x
           end; discriminate.
  - intros s acc Hf. cbn [parse_array].
    destruct (scan_once f s) as [[v1 r1]| |] eqn:H1; [|discriminate|].
    + apply (proj1 (scan_consumes f)) in H1. pose proof (skip_ws_length r1) as Hw.
      destruct (skip_ws r1) as [|c r2]; [discriminate|]. cbn [List.length] in Hw.
      destruct (Ascii.eqb c "]"); [discriminate|].
      destruct (Ascii.eqb c ","); [|discriminate].
      apply IHa. pose proof (skip_ws_length r2). lia.
    + exfalso. revert H1. apply IHs. lia.
  - intros s acc Hf. cbn [parse_object].
    destruct s as [|c s]; [discriminate|]. cbn [List.length] in Hf.
    destruct (Ascii.eqb c dquote); [|discriminate].
    destruct (scanstring s []) as [[key r1]|] eqn:Hk; [|discriminate].
    apply scanstring_length in Hk. pose proof (skip_ws_length r1) as Hw1.
    destruct (skip_ws r1) as [|c2 r2]; [discriminate|]. cbn [List.length] in Hw1.
    destruct (Ascii.eqb c2 ":"); [|discriminate].
    pose proof (skip_ws_length r2) as Hw2.
    destruct (scan_once f (skip_ws r2)) as [[v1 r3]| |] eqn:H1; [|discriminate|].
    + apply (proj1 (scan_consumes f)) in H1. pose proof (skip_ws_length r3) as Hw3.
      destruct (skip_ws r3) as [|c3 r4]; [discriminate|]. cbn [List.length] in Hw3.
      destruct (Ascii.eqb c3 "}"); [discriminate|].
      destruct (Ascii.eqb c3 ","); [|discriminate].
      apply IHo. pose proof (skip_ws_length r4). lia.
    + exfalso. revert H1. apply IHs. lia.
Qed.

(** An object decodes to a [dict]. *)
Lemma parse_object_dict fuel :
  forall s acc v r, parse_object fuel s acc = Ok (v, r) -> exists d, v = PDict d.
Proof.
  induction fuel as [|f IH]; [discriminate|].
  intros s acc v r. cbn [parse_object].
  destruct s as [|c s]; [discriminate|].
  destruct (Ascii.eqb c dquote); [|discriminate].
  destruct (scanstring s []) as [[key r1]|]; [|discriminate].
  destruct (skip_ws r1) as [|c2 r2]; [discriminate|].
  destruct (Ascii.eqb c2 ":"); [|discriminate].
  destruct (scan_once f (skip_ws r2)) as [[v1 r3]| |]; try discriminate.
  destruct (skip_ws r3) as [|c3 r4]; [discriminate|].
  destruct (Ascii.eqb c3 "}"); [intros [= <- _]; eexists; reflexivity|].
  destruct (Ascii.eqb c3 ","); [|discriminate].
  apply IH.
Qed.

Lemma scan_once_object fuel s v r :
  scan_once fuel ("{"%char :: s) = Ok (v, r) -> exists d, v = PDict d.
Proof.
  destruct fuel as [|f]; [discriminate|]. cbn [scan_once].
  change (Ascii.eqb "{" dquote) with false.
  change (Ascii.eqb "{" "{") with true. cbn iota.
  destruct (skip_ws s) as [|c1 r1]; [discriminate|].
  destruct (Ascii.eqb c1 "}"); [intros [= <- _]; eexists; reflexivity|].
  apply parse_object_dict.
Qed.

(** A text that starts with an opening brace decodes to a [dict], if it
    decodes. *)
Lemma loads_object (text : string) (v : pyval) :
  loads (String "{" text) = Some v -> exists d, v = PDict d.
Proof.
  unfold loads. set (l := list_ascii_of_string text).
  change (list_ascii_of_string (String "{" text)) with ("{"%char :: l).
  change (skip_ws ("{"%char :: l)) with ("{"%char :: l).
  destruct (scan_once _ _) as [[v1 r]| |] eqn:H; try discriminate.
  apply scan_once_object in H as [d ->].
  destruct (skip_ws r); [intros [= <-]; eexists; reflexivity | discriminate].
Qed.

(** [loads] decides every text: its fuel is never exhausted, so [None]
    always stands for a decoding error. *)
Lemma loads_has_enough_fuel (text : string) :
  let s := list_ascii_of_string text in
  scan_once (enough_fuel s) (skip_ws s) <> OutOfFuel.
Proof.
  intros s. apply (proj1 (scan_fuel _)).
  pose proof (skip_ws_length s). unfold enough_fuel. lia.
Qed.

End JsonFacts.

(* ===================================================================== *)
(** ** Facts about the string primitives *)
(* ===================================================================== *)

Module PyStrFacts.
Import PyStr.

Local Arguments String.append : simpl nomatch.

Lemma len_nonneg s : 0 <= len s.
Proof. unfold len. lia. Qed.

Lemma len_String a s : len (String a s) = 1 + len s.
Proof. unfold len. simpl. lia. Qed.

Lemma len_app s t : len (s +:+ t) = len s + len t.
Proof.
  induction s as [|a s IH]; simpl.
  - unfold len. simpl. lia.
  - rewrite !len_String, IH. lia.
Qed.

Lemma contains_app c s t :
  contains c (s +:+ t) = contains c s || contains c t.
Proof.
  induction s as [|a s IH]; simpl; [reflexivity|].
  destruct (Ascii.eqb a c); [reflexivity | exact IH].
Qed.

(** The first occurrence splits the text. *)
Lemma find_from_split c s :
  contains c s = true ->
  exists pre post,
    s = pre +:+ String c post /\ contains c pre = false /\
    forall i, find_from c s i = i + len pre.
Proof.
  induction s as [|a s IH]; simpl; [discriminate|].
  destruct (Ascii.eqb a c) eqn:E.
  - intros _. apply Ascii.eqb_eq in E. subst a.
    exists EmptyString, s. repeat split.
    intros i. unfold len. simpl. lia.
  - intros H. destruct (IH H) as (pre & post & -> & Hpre & Hf).
    exists (String a pre), post. simpl. rewrite E. repeat split; [exact Hpre|].
    intros i. rewrite Hf, len_String. lia.
Qed.

Lemma rfind_from_absent c s :
  contains c s = false -> forall i last, rfind_from c s i last = last.
Proof.
  induction s as [|a s IH]; simpl; [reflexivity|].
  destruct (Ascii.eqb a c); [discriminate|].
  intros H i last. apply IH, H.
Qed.

(** The last occurrence splits the text. *)
Lemma rfind_from_split c s :
  contains c s = true ->
  exists pre post,
    s = pre +:+ String c post /\ contains c post = false /\
    forall i last, rfind_from c s i last = i + len pre.
Proof.
  induction s as [|a s IH]; simpl; [discriminate|].
  destruct (contains c s) eqn:Hs.
  - intros _. destruct (IH eq_refl) as (pre & post & -> & Hpost & Hf).
    exists (String a pre), post. simpl. repeat split; [exact Hpost|].
    intros i last. rewrite Hf, len_String. lia.
  - destruct (Ascii.eqb a c) eqn:E; [|discriminate].
    intros _. apply Ascii.eqb_eq in E. subst a.
    exists EmptyString, s. repeat split; [exact Hs|].
    intros i last. rewrite rfind_from_absent by exact Hs.
    unfold len. simpl. lia.
Qed.

Lemma substring_all n s : n = String.length s -> substring 0 n s = s.
Proof.
  revert n. induction s as [|a s IH]; intros n ->; simpl; [reflexivity|].
  f_equal. apply IH. reflexivity.
Qed.

Lemma substring_prefix m post :
  substring 0 (String.length m) (m +:+ post) = m.
Proof.
  induction m as [|a m IH]; simpl.
  - destruct post; reflexivity.
  - f_equal. exact IH.
Qed.

Lemma substring_middle pre m post :
  substring (String.length pre) (String.length m) (pre +:+ m +:+ post) = m.
Proof.
  induction pre as [|a pre IH]; simpl; [apply substring_prefix | exact IH].
Qed.

Lemma substring_empty n s : substring n 0 s = EmptyString.
Proof.
  revert n. induction s as [|a s IH]; intros [|n]; simpl; auto.
Qed.

Lemma clamp_inside n i : 0 <= i <= n -> clamp n i = i.
Proof. intros H. unfold clamp. destruct (Z.ltb_spec i 0); lia. Qed.

(** A slice at the bounds of a middle part is that part. *)
Lemma slice_middle pre m post :
  slice (pre +:+ m +:+ post) (len pre) (len pre + len m) = m.
Proof.
  unfold slice. rewrite !len_app.
  pose proof (len_nonneg pre). pose proof (len_nonneg m).
  pose proof (len_nonneg post).
  rewrite !clamp_inside by lia.
  replace (len pre + len m - len pre) with (len m) by lia.
  unfold len. rewrite !Nat2Z.id. apply substring_middle.
Qed.

(** A slice whose bounds cross is empty. *)
Lemma slice_crossed s i j :
  0 <= j <= i -> i <= len s -> slice s i j = EmptyString.
Proof.
  intros Hj Hi. unfold slice. rewrite !clamp_inside by lia.
  replace (Z.to_nat (j - i)) with O by lia. apply substring_empty.
Qed.

(** Two splits of one text: the shorter prefix is a prefix of the longer. *)
Lemma app_eq_app_le (p1 x p2 y : string) :
  p1 +:+ x = p2 +:+ y -> len p1 <= len p2 ->
  exists d, p2 = p1 +:+ d /\ x = d +:+ y.
Proof.
  revert p2. induction p1 as [|a p1 IH]; intros p2; simpl.
  - intros -> _. exists p2. split; reflexivity.
  - destruct p2 as [|b p2]; simpl.
    + rewrite len_String. pose proof (len_nonneg p1). unfold len at 2. simpl. lia.
    + intros [= -> H]. rewrite !len_String. intros Hl.
      destruct (IH p2 H ltac:(lia)) as (d & -> & ->).
      exists d. split; reflexivity.
Qed.

End PyStrFacts.

(* ===================================================================== *)
(** ** The artifact inside the response text ([api.py], lines 163-173) *)
(* ===================================================================== *)

Module ParseFacts.
Import PyStr PyStrFacts Json Api Samples.

Local Arguments String.append : simpl nomatch.

Lemma append_assoc (a b c : string) : (a +:+ b) +:+ c = a +:+ b +:+ c.
Proof. induction a as [|x a IH]; simpl; [reflexivity | f_equal; exact IH]. Qed.

(** What [json_str] is, by where the braces stand. *)
Lemma payload_shape text :
  contains "{" text = true -> contains "}" text = true ->
  let json_str := slice text (find "{" text) (rfind "}" text + 1) in
  (find "{" text < rfind "}" text /\
   exists pre mid post,
     text = pre +:+ String "{" mid +:+ String "}" post /\
     contains "{" pre = false /\ contains "}" post = false /\
     json_str = String "{" mid +:+ String "}" EmptyString)
  \/ (rfind "}" text < find "{" text /\ json_str = EmptyString).
Proof.
  intros Ho Hc json_str. subst json_str.
  destruct (find_from_split _ _ Ho) as (p1 & q1 & E1 & Hp1 & Hf).
  destruct (rfind_from_split _ _ Hc) as (p2 & q2 & E2 & Hq2 & Hr).
  unfold find, rfind. rewrite Hf, Hr, !Z.add_0_l.
  pose proof (len_nonneg p1). pose proof (len_nonneg p2).
  destruct (Z_le_gt_dec (len p1) (len p2)) as [Hle|Hgt].
  - left.
    assert (E : p1 +:+ String "{" q1 = p2 +:+ String "}" q2) by congruence.
    destruct (app_eq_app_le _ _ _ _ E Hle) as (d & -> & Hd).
    destruct d as [|c mid]; simpl in Hd; [discriminate|].
    injection Hd as <- ->.
    rewrite len_app, len_String. pose proof (len_nonneg mid).
    split; [lia|].
    exists p1, mid, q2. repeat split; [exact E1 | exact Hp1 | exact Hq2 |].
    rewrite E1.
    replace (String "{" (mid +:+ String "}" q2))
      with ((String "{" mid +:+ String "}" EmptyString) +:+ q2)
      by (simpl; rewrite append_assoc; reflexivity).
    replace (len p1 + (1 + len mid) + 1)
      with (len p1 + len (String "{" mid +:+ String "}" EmptyString))
      by (rewrite len_app, !len_String; unfold len; simpl; lia).
    apply slice_middle.
  - right. split; [lia|].
    apply slice_crossed; [lia|].
    rewrite E1, len_app. pose proof (len_nonneg (String "{" q1)). lia.
Qed.

Lemma parse_with_braces text :
  contains "{" text = true -> contains "}" text = true ->
  parse text =
    match loads (slice text (find "{" text) (rfind "}" text + 1)) with
    | Some artifact => Artifact artifact
    | None => Unparsable
    end.
Proof. intros Ho Hc. unfold parse. rewrite Ho, Hc. reflexivity. Qed.

Lemma parse_without_braces text :
  contains "{" text = false \/ contains "}" text = false ->
  parse text = NoPayload.
Proof.
  intros [H|H]; unfold parse; rewrite H; [reflexivity|].
  rewrite andb_false_r. reflexivity.
Qed.

End ParseFacts.

(* ===================================================================== *)
(** ** Properties of the artifact parser *)
(* ===================================================================== *)

Import PyStr Json Agent Samples.

(** C3.  For every raw text that holds an opening and a closing brace,
    [parse] cuts the text from its first opening brace to its last closing
    brace and decodes that substring as the payload: the substring is
    [{ mid }] with no opening brace before it and no closing brace after it
    (or it is empty, and decoding fails, when the last closing brace stands
    before the first opening one).  In particular the lesson text yields an
    artifact whose title is "CSS Grid" and which has exactly one slide. *)
Theorem parse_extracts_payload (text : string) :
  contains "{" text = true -> contains "}" text = true ->
  let json_str := slice text (find "{" text) (rfind "}" text + 1) in
  Api.parse text =
    match loads json_str with
    | Some artifact => Api.Artifact artifact
    | None => Api.Unparsable
    end
  /\ ((find "{" text < rfind "}" text /\
       exists pre mid post,
         text = pre +:+ String "{" mid +:+ String "}" post /\
         contains "{" pre = false /\ contains "}" post = false /\
         json_str = String "{" mid +:+ String "}" EmptyString)
      \/ (rfind "}" text < find "{" text /\ json_str = EmptyString /\
          Api.parse text = Api.Unparsable))
  /\ exists artifact slide,
       Api.parse lesson_text = Api.Artifact artifact /\
       get "title" artifact = Some (PStr "CSS Grid") /\
       get "slides" artifact = Some (PList [slide]).
Proof.
  intros Ho Hc json_str.
  pose proof (ParseFacts.parse_with_braces text Ho Hc) as Hp.
  split; [exact Hp|]. split.
  - destruct (ParseFacts.payload_shape text Ho Hc) as [H|[Hlt He]].
    + left. exact H.
    + right. repeat split; [exact Hlt | exact He |].
      rewrite Hp. fold json_str. change json_str with
        (slice text (find "{" text) (rfind "}" text + 1)).
      rewrite He. reflexivity.
  - eexists _, _. vm_compute. repeat split.
Qed.

(** The lesson text is such a text, and its payload decodes to the dict the
    theorem speaks of. *)
Lemma parse_extracts_payload_witness :
  contains "{" lesson_text = true /\ contains "}" lesson_text = true /\
  Api.parse lesson_text =
    Api.Artifact
      (PDict [("title", PStr "CSS Grid");
              ("slides", PList [PDict [("title", PStr "Intro")]])]).
Proof.
  split; [reflexivity|]. split; [reflexivity|].
  destruct (parse_extracts_payload lesson_text eq_refl eq_refl) as [H _].
  rewrite H. vm_compute. reflexivity.
Defined.

(** C4, as stated, fails: the empty object and an object with an empty title
    and no slides are both accepted as artifacts, where a parser that
    validates the shape ([Engine.parse]) refuses them. *)
Lemma parse_accepts_shapeless_payload :
  Api.parse "{}" = Api.Artifact (PDict [])
  /\ get "title" (PDict []) = None /\ get "slides" (PDict []) = None
  /\ Engine.parse config "{}" = None
  /\ Api.parse (quoted "{'title':'','slides':[]}")
     = Api.Artifact (PDict [("title", PStr ""); ("slides", PList [])])
  /\ Engine.parse config (quoted "{'title':'','slides':[]}") = None.
Proof. vm_compute. repeat split. Qed.

(** C4, amended.  [parse] yields no artifact exactly when a brace is missing
    (the block is skipped) or the text between the first opening and the
    last closing brace does not decode as JSON (the error is caught and
    logged, none is raised); every payload that decodes is the artifact, as
    decoded (a dict), whatever its title and slides; a payload without
    [duration_minutes] is accepted and the key stays absent.  The decoder
    always has fuel to spare, so "does not decode" is a decoding error. *)
Theorem parse_outcomes (text : string) :
  let json_str := slice text (find "{" text) (rfind "}" text + 1) in
  let braces := contains "{" text && contains "}" text in
  (Api.parse text = Api.NoPayload <-> braces = false)
  /\ (Api.parse text = Api.Unparsable <-> braces = true /\ loads json_str = None)
  /\ (forall artifact,
        Api.parse text = Api.Artifact artifact <->
        braces = true /\ loads json_str = Some artifact)
  /\ (Api.artifact_of (Api.parse text) = None <->
      braces = false \/ loads json_str = None)
  /\ (forall artifact,
        Api.parse text = Api.Artifact artifact -> exists d, artifact = PDict d)
  /\ scan_once (enough_fuel (list_ascii_of_string json_str))
       (skip_ws (list_ascii_of_string json_str)) <> OutOfFuel
  /\ exists artifact,
       Api.parse lesson_text = Api.Artifact artifact /\
       get "duration_minutes" artifact = None.
Proof.
  intros json_str braces. subst json_str braces.
  assert (Hex : exists artifact,
             Api.parse lesson_text = Api.Artifact artifact /\
             get "duration_minutes" artifact = None)
    by (eexists; vm_compute; split; reflexivity).
  assert (Hdict : forall artifact,
             Api.parse text = Api.Artifact artifact ->
             exists d, artifact = PDict d).
  { intros artifact. unfold Api.parse.
    destruct (contains "{" text) eqn:Ho; [|discriminate].
    destruct (contains "}" text) eqn:Hc; [|discriminate]. cbn [andb].
    destruct (ParseFacts.payload_shape text Ho Hc)
      as [(_ & pre & mid & post & _ & _ & _ & ->)|(_ & ->)].
    - destruct (loads _) as [a|] eqn:Hl; [|discriminate].
      intros [= <-]. exact (JsonFacts.loads_object _ _ Hl).
    - discriminate. }
  revert Hdict. unfold Api.parse. intros Hdict.
  destruct (contains "{" text && contains "}" text).
  - destruct (loads _) as [a|]; cbn.
    + split; [split; discriminate|].
      split; [split; [discriminate | intros [_ ?]; discriminate]|].
      split; [intros artifact; split;
              [intros [= ->]; auto | intros [_ [= ->]]; reflexivity]|].
      split; [split; [discriminate | intros [?|?]; discriminate]|].
      split; [exact Hdict|]. split; [apply JsonFacts.loads_has_enough_fuel | exact Hex].
    + split; [split; discriminate|].
      split; [split; auto|].
      split; [intros artifact; split;
              [discriminate | intros [_ ?]; discriminate]|].
      split; [split; auto|].
      split; [exact Hdict|]. split; [apply JsonFacts.loads_has_enough_fuel | exact Hex].
  - cbn.
    split; [split; auto|].
    split; [split; [discriminate | intros [? _]; discriminate]|].
    split; [intros artifact; split;
            [discriminate | intros [? _]; discriminate]|].
    split; [split; auto|].
    split; [exact Hdict|]. split; [apply JsonFacts.loads_has_enough_fuel | exact Hex].
Qed.

(* ===================================================================== *)
(** ** Properties of the routes *)
(* ===================================================================== *)

(** C5, as stated, fails: an agent reports a created intervention whose text
    cannot be parsed, and [POST /events] answers [intervention_created],
    not [intervention_failed_unparseable]; the artifact is absent, and
    since the text has no brace nothing is printed. *)
Lemma unparseable_reported_as_created :
  Api.parse "Sorry, no lesson today." = Api.NoPayload
  /\ fst (Api.process_student_event chatty_agent
            {| Api.req_user_id := "priya"; Api.req_event_type := "quiz_failure";
               Api.req_topic := "CSS Flexbox";
               Api.req_metadata := [("quiz_score", PFloat 0.4)] |}
            10 11 12 ∅)
     = Api.Reply
         {| Api.resp_action := "intervention_created";
            Api.resp_user_message := Some "I made you a lesson";
            Api.resp_artifact := None;
            Api.resp_user_id := "priya";
            Api.resp_timestamp := 11;
            Api.resp_intervention_id := ("int", 12, "priya") |}
         [Api.TrackInterventionAnalytics "priya" "quiz_failure"
            (Some "intervention_created")]
  /\ "intervention_created" <> "intervention_failed_unparseable"
  /\ Api.process_student_event_output chatty_agent MoreSamples.expecting_name
       {| Api.req_user_id := "priya"; Api.req_event_type := "quiz_failure";
          Api.req_topic := "CSS Flexbox";
          Api.req_metadata := [("quiz_score", PFloat 0.4)] |}
       10 ∅ = [].
Proof.
  split; [reflexivity|]. split; [reflexivity|].
  split; [discriminate | reflexivity].
Qed.

(** C5, amended.  For every intervention the agent reports as created and
    whose text cannot be parsed into an artifact, [POST /events] surfaces no
    exception: it answers with the agent's action, [intervention_created],
    and its user message, with no artifact; the memory is as the agent left
    it.  The reply does not carry the raw text: another unparseable text in
    its place gives the same reply.  A warning is printed exactly when the
    text holds both braces (the part between them then fails to decode),
    and it is the decoder's message for that part; when a brace is missing
    nothing is printed. *)
Theorem unparseable_artifact_is_dropped
    (agent_process : StudentEvent -> UserStore -> outcome AgentResult * UserStore)
    (decode_error : string -> string)
    (event_request : Api.StudentEventRequest)
    (now_event now_stamp now_id : instant)
    (memory memory' : UserStore) (result : AgentResult) :
  let event := {| user_id := Api.req_user_id event_request;
                  event_type := Api.req_event_type event_request;
                  topic := Api.req_topic event_request;
                  metadata := Api.req_metadata event_request;
                  Agent.timestamp := now_event |} in
  let text := default "" (response result) in
  let braces := contains "{" text && contains "}" text in
  let json_str := slice text (find "{" text) (rfind "}" text + 1) in
  agent_process event memory = (Returned result, memory') ->
  Agent.action result = Some "intervention_created" ->
  Api.artifact_of (Api.parse text) = None ->
  (exists body tasks,
     Api.process_student_event agent_process event_request
       now_event now_stamp now_id memory = (Api.Reply body tasks, memory')
     /\ Api.resp_action body = "intervention_created"
     /\ Api.resp_artifact body = None
     /\ Api.resp_user_message body = Agent.user_message result)
  /\ (forall other_agent other_text,
        other_agent event memory
          = (Returned {| Agent.action := Agent.action result;
                         response := other_text;
                         Agent.user_message := Agent.user_message result;
                         result_timestamp := result_timestamp result |},
             memory') ->
        Api.artifact_of (Api.parse (default "" other_text)) = None ->
        Api.process_student_event other_agent event_request
          now_event now_stamp now_id memory
        = Api.process_student_event agent_process event_request
            now_event now_stamp now_id memory)
  /\ (braces = false ->
      Api.parse text = Api.NoPayload
      /\ Api.process_student_event_output agent_process decode_error
           event_request now_event memory = [])
  /\ (braces = true ->
      Api.parse text = Api.Unparsable
      /\ loads json_str = None
      /\ Api.process_student_event_output agent_process decode_error
           event_request now_event memory
         = ["Warning: Could not parse artifact JSON: "
              +:+ decode_error json_str]).
Proof.
  intros event text braces json_str Hagent Hact Hparse.
  assert (Hreply : forall agent txt,
             agent event memory
               = (Returned {| Agent.action := Agent.action result;
                              response := txt;
                              Agent.user_message := Agent.user_message result;
                              result_timestamp := result_timestamp result |},
                  memory') ->
             Api.artifact_of (Api.parse (default "" txt)) = None ->
             Api.process_student_event agent event_request
               now_event now_stamp now_id memory
             = (Api.Reply
                  {| Api.resp_action := "intervention_created";
                     Api.resp_user_message := Agent.user_message result;
                     Api.resp_artifact := None;
                     Api.resp_user_id := Api.req_user_id event_request;
                     Api.resp_timestamp :=
                       default now_stamp (result_timestamp result);
                     Api.resp_intervention_id :=
                       ("int", now_id, Api.req_user_id event_request) |}
                  [Api.TrackInterventionAnalytics
                     (Api.req_user_id event_request)
                     (Api.req_event_type event_request)
                     (Some "intervention_created")],
                memory')).
  { intros agent txt Ha Hp. unfold Api.process_student_event. fold event.
    rewrite Ha. cbn [Agent.action response Agent.user_message result_timestamp].
    rewrite Hact, bool_decide_eq_true_2 by reflexivity. rewrite Hp.
    reflexivity. }
  assert (Hown : Api.process_student_event agent_process event_request
                   now_event now_stamp now_id memory
                 = (Api.Reply
                      {| Api.resp_action := "intervention_created";
                         Api.resp_user_message := Agent.user_message result;
                         Api.resp_artifact := None;
                         Api.resp_user_id := Api.req_user_id event_request;
                         Api.resp_timestamp :=
                           default now_stamp (result_timestamp result);
                         Api.resp_intervention_id :=
                           ("int", now_id, Api.req_user_id event_request) |}
                      [Api.TrackInterventionAnalytics
                         (Api.req_user_id event_request)
                         (Api.req_event_type event_request)
                         (Some "intervention_created")],
                    memory')).
  { apply (Hreply agent_process (response result)); [|exact Hparse].
    rewrite Hagent. destruct result; reflexivity. }
  assert (Hout : Api.process_student_event_output agent_process decode_error
                   event_request now_event memory
                 = Api.parse_warning decode_error text).
  { unfold Api.process_student_event_output. fold event. rewrite Hagent.
    rewrite bool_decide_eq_true_2 by exact Hact. reflexivity. }
  split; [|split; [|split]].
  - eexists _, _. split; [exact Hown|]. repeat split.
  - intros other_agent other_text Ha Hp.
    rewrite (Hreply other_agent other_text Ha Hp), Hown. reflexivity.
  - intros Hb. rewrite Hout. unfold Api.parse, Api.parse_warning.
    fold text braces. rewrite Hb. split; reflexivity.
  - intros Hb. rewrite Hout. revert Hparse.
    unfold Api.parse, Api.parse_warning. fold text braces json_str.
    rewrite Hb. destruct (loads json_str) as [a|]; [discriminate|].
    intros _. repeat split.
Qed.

Lemma unparseable_artifact_is_dropped_witness :
  (exists body tasks,
     Api.process_student_event MoreSamples.garbled_agent
       {| Api.req_user_id := "priya"; Api.req_event_type := "quiz_failure";
          Api.req_topic := "CSS Flexbox"; Api.req_metadata := [] |}
       10 11 12 ∅ = (Api.Reply body tasks, ∅)
     /\ Api.resp_action body = "intervention_created"
     /\ Api.resp_artifact body = None
     /\ Api.resp_user_message body = Some "I made you a lesson")
  /\ Api.process_student_event_output MoreSamples.garbled_agent
       MoreSamples.expecting_name
       {| Api.req_user_id := "priya"; Api.req_event_type := "quiz_failure";
          Api.req_topic := "CSS Flexbox"; Api.req_metadata := [] |}
       10 ∅
     = ["Warning: Could not parse artifact JSON: Expecting property name enclosed in double quotes: line 1 column 2 (char 1)"].
Proof.
  destruct (unparseable_artifact_is_dropped MoreSamples.garbled_agent
              MoreSamples.expecting_name
              {| Api.req_user_id := "priya";
                 Api.req_event_type := "quiz_failure";
                 Api.req_topic := "CSS Flexbox"; Api.req_metadata := [] |}
              10 11 12 ∅ ∅ _ eq_refl eq_refl eq_refl)
    as (Hreply & _ & _ & Hwarn).
  split; [exact Hreply|].
  destruct (Hwarn eq_refl) as (_ & _ & Hout). exact Hout.
Defined.

(** After a reset every request about the user finds nothing. *)
Lemma serve_all_unknown_user (list_set : list string -> list string)
    (uid : string) (memory : UserStore) (rqs : list Api.user_request) :
  memory !! uid = None ->
  Api.serve_all list_set uid rqs memory = (map (fun _ => 404) rqs, memory).
Proof.
  intros Hnone. induction rqs as [|rq rqs IH]; [reflexivity|].
  cbn [Api.serve_all map].
  assert (Hrq : Api.serve_user list_set uid rq memory = (404, memory)).
  { destruct rq as [now|]; unfold Api.serve_user.
    - unfold Api.get_user_profile. rewrite Hnone. reflexivity.
    - unfold Api.reset_user_profile.
      rewrite bool_decide_eq_false_2; [reflexivity|].
      rewrite elem_of_dom, Hnone. intros [? [=]]. }
  rewrite Hrq, IH. reflexivity.
Qed.

(** C9.  Resetting an existing user drops the user's memory: every later
    profile query for that user answers 404, a second reset answers 404 as
    well and changes nothing, and so does any run of such requests; the user
    is no longer listed. *)
Theorem reset_then_not_found (list_set : list string -> list string)
    (uid : string) (memory : UserStore) :
  is_Some (memory !! uid) ->
  let not_found := "User " +:+ uid +:+ " not found" in
  exists memory',
    Api.reset_user_profile uid memory
      = (Api.Reply ("User " +:+ uid +:+ " profile reset successfully") [], memory')
    /\ memory' !! uid = None
    /\ (forall now,
          Api.get_user_profile list_set uid now memory'
            = Api.HTTPException 404 not_found)
    /\ Api.reset_user_profile uid memory'
         = (Api.HTTPException 404 not_found, memory')
    /\ (forall rqs,
          Api.serve_all list_set uid rqs memory'
            = (map (fun _ => 404) rqs, memory'))
    /\ uid ∉ map Api.sum_user_id (fst (Api.list_users memory')).
Proof.
  intros Hsome not_found. exists (delete uid memory).
  assert (Hgone : delete uid memory !! uid = None) by apply lookup_delete_eq.
  split.
  { unfold Api.reset_user_profile.
    rewrite bool_decide_eq_true_2; [reflexivity|]. apply elem_of_dom, Hsome. }
  split; [exact Hgone|]. split.
  { intros now. unfold Api.get_user_profile. rewrite Hgone. reflexivity. }
  split.
  { unfold Api.reset_user_profile.
    rewrite bool_decide_eq_false_2; [reflexivity|].
    rewrite elem_of_dom, Hgone. intros [? [=]]. }
  split; [intros rqs; apply serve_all_unknown_user, Hgone|].
  unfold Api.list_users. cbn [fst]. rewrite list_elem_of_fmap.
  intros (s & -> & Hs). apply list_elem_of_fmap in Hs as ([k m] & -> & Hkm).
  apply elem_of_map_to_list in Hkm. cbn in Hgone, Hkm. congruence.
Qed.

Lemma reset_then_not_found_witness :
  exists memory',
    Api.reset_user_profile "priya" {["priya" := priya_memory]}
      = (Api.Reply "User priya profile reset successfully" [], memory')
    /\ memory' !! "priya" = None
    /\ (forall now,
          Api.get_user_profile remove_dups "priya" now memory'
            = Api.HTTPException 404 "User priya not found")
    /\ Api.reset_user_profile "priya" memory'
         = (Api.HTTPException 404 "User priya not found", memory')
    /\ (forall rqs,
          Api.serve_all remove_dups "priya" rqs memory'
            = (map (fun _ => 404) rqs, memory'))
    /\ "priya" ∉ map Api.sum_user_id (fst (Api.list_users memory')).
Proof.
  apply (reset_then_not_found remove_dups "priya" {["priya" := priya_memory]}).
  rewrite lookup_singleton_eq. eexists. reflexivity.
Defined.

(** Binary64 comparison: [a <= b] excludes [b < a]. *)
Lemma SFleb_not_ltb (x y : spec_float) : SFleb x y = true -> SFltb y x = false.
Proof.
  unfold SFleb, SFltb.
  destruct x as [sx|sx| |sx mx ex], y as [sy|sy| |sy my ey]; cbn;
    try destruct sx; try destruct sy; try reflexivity; try discriminate.
  - rewrite (Z.compare_antisym ex ey).
    destruct (ex ?= ey); cbn; try reflexivity; try discriminate.
    pose proof (Pos.compare_cont_antisym mx my Eq) as Hm. cbn in Hm.
    rewrite <- Hm.
    destruct (Pos.compare_cont Eq mx my); cbn; reflexivity || discriminate.
  - rewrite (Z.compare_antisym ex ey).
    destruct (ex ?= ey); cbn; try reflexivity; try discriminate.
    pose proof (Pos.compare_cont_antisym mx my Eq) as Hm. cbn in Hm.
    rewrite <- Hm.
    destruct (Pos.compare_cont Eq mx my); cbn; reflexivity || discriminate.
Qed.

Lemma leb_not_ltb (a b : float) : (a <=? b)%float = true -> (b <? a)%float = false.
Proof. rewrite leb_spec, ltb_spec. apply SFleb_not_ltb. Qed.

(** C10, as stated, fails: a payload holds the three fields and a score of
    0.4, below 0.6, but its [user_id] is [null]; the request model refuses
    it, the exception escapes the route, no event is queued, the agent is
    not called and no [will_process] is reported. *)
Lemma quiz_webhook_null_user :
  dict_get "user_id" MoreSamples.anonymous_quiz_payload = Some PNone
  /\ dict_get "quiz_topic" MoreSamples.anonymous_quiz_payload
     = Some (PStr "CSS Flexbox")
  /\ dict_get "score" MoreSamples.anonymous_quiz_payload = Some (PFloat 0.4)
  /\ Api.py_float no_float (PFloat 0.4) = Returned 0.4%float
  /\ (0.4 <? 0.6)%float = true
  /\ Api.quiz_completed_webhook no_float strict_str
       MoreSamples.anonymous_quiz_payload
     = Api.Unhandled "ValidationError"
  /\ forall agent_process clock memory,
       Api.serve_quiz_completed agent_process no_float strict_str
         MoreSamples.anonymous_quiz_payload clock memory
       = (Api.Unhandled "ValidationError", memory).
Proof. repeat split. Qed.

(** C10, amended.  For every quiz-completion payload with a user, a topic
    and a score that [float] converts: when the route answers, it reports
    [will_process] as "the score is below 0.6" and has queued one
    [quiz_failure] event exactly in that case.  Below 0.6, with a user and
    a topic the request model accepts as strings, the route answers, and
    the queued task hands the agent that one event (the user, the topic,
    the converted score, [attempts] and [time_spent] with their defaults,
    stamped when the task runs), the memory afterwards being the one the
    agent leaves; with a user or a topic the request model refuses, the
    exception escapes, nothing is queued and the memory stays as it was.
    When the score is not below 0.6 (at least 0.6, say) nothing is queued,
    [will_process] is false and the whole request leaves every user's
    memory as it was. *)
Theorem quiz_webhook_dispatch
    (agent_process : StudentEvent -> UserStore -> outcome AgentResult * UserStore)
    (float_of_str : string -> option float)
    (str_field : pyval -> outcome string)
    (data : list (string * pyval)) (uid quiz_topic raw_score : pyval)
    (score : float) :
  dict_get "user_id" data = Some uid ->
  dict_get "quiz_topic" data = Some quiz_topic ->
  dict_get "score" data = Some raw_score ->
  Api.py_float float_of_str raw_score = Returned score ->
  (forall ack tasks,
     Api.quiz_completed_webhook float_of_str str_field data
       = Api.Reply ack tasks ->
     ack = {| Api.ack_status := "received";
              Api.ack_will_process := Some (score <? 0.6)%float |}
     /\ ((exists request,
            tasks = [Api.ProcessStudentEventBackground request]
            /\ str_field uid = Returned (Api.req_user_id request)
            /\ Api.req_event_type request = "quiz_failure"
            /\ str_field quiz_topic = Returned (Api.req_topic request)
            /\ dict_get "quiz_score" (Api.req_metadata request)
               = Some (PFloat score))
         <-> (score <? 0.6)%float = true)
     /\ ((score <? 0.6)%float = false -> tasks = []))
  /\ (forall user topic,
        str_field uid = Returned user -> str_field quiz_topic = Returned topic ->
        exists ack tasks,
          Api.quiz_completed_webhook float_of_str str_field data
            = Api.Reply ack tasks)
  /\ ((0.6 <=? score)%float = true ->
      (score <? 0.6)%float = false
      /\ Api.quiz_completed_webhook float_of_str str_field data
         = Api.Reply {| Api.ack_status := "received";
                        Api.ack_will_process := Some false |} []
      /\ forall clock memory,
           Api.serve_quiz_completed agent_process float_of_str str_field
             data clock memory
             = (Api.Reply {| Api.ack_status := "received";
                             Api.ack_will_process := Some false |} [],
                memory))
  /\ ((score <? 0.6)%float = false ->
      forall clock memory,
        Api.serve_quiz_completed agent_process float_of_str str_field
          data clock memory
        = (Api.Reply {| Api.ack_status := "received";
                        Api.ack_will_process := Some false |} [],
           memory))
  /\ ((score <? 0.6)%float = true ->
      forall user topic,
        str_field uid = Returned user -> str_field quiz_topic = Returned topic ->
        let event_metadata :=
          [("quiz_score", PFloat score);
           ("attempts", default (PInt 1) (dict_get "attempts" data));
           ("time_spent", default (PInt 0) (dict_get "time_spent" data))] in
        forall clock memory,
          Api.serve_quiz_completed agent_process float_of_str str_field
            data clock memory
          = (Api.Reply
               {| Api.ack_status := "received";
                  Api.ack_will_process := Some true |}
               [Api.ProcessStudentEventBackground
                  {| Api.req_user_id := user;
                     Api.req_event_type := "quiz_failure";
                     Api.req_topic := topic;
                     Api.req_metadata := event_metadata |}],
             snd (agent_process
                    {| user_id := user;
                       event_type := "quiz_failure";
                       topic := topic;
                       metadata := event_metadata;
                       Agent.timestamp := clock O |}
                    memory)))
  /\ ((score <? 0.6)%float = true ->
      (exists exn msg, str_field uid = Raised exn msg)
      \/ (exists exn msg, str_field quiz_topic = Raised exn msg) ->
      exists exn,
        Api.quiz_completed_webhook float_of_str str_field data
          = Api.Unhandled exn
        /\ forall clock memory,
             Api.serve_quiz_completed agent_process float_of_str str_field
               data clock memory
             = (Api.Unhandled exn, memory)).
Proof.
  intros Hu Ht Hs Hf.
  unfold Api.serve_quiz_completed, Api.quiz_completed_webhook.
  rewrite Hu, Ht, Hs, Hf.
  destruct (score <? 0.6)%float eqn:Hlt.
  - split; [|split; [|split; [|split; [|split]]]].
    + intros ack tasks.
      destruct (str_field uid) as [u|]; [|discriminate].
      destruct (str_field quiz_topic) as [t|]; [|discriminate].
      intros [= <- <-].
      split; [reflexivity|]. split; [|discriminate].
      split; [reflexivity|]. intros _. eexists. repeat split.
    + intros user topic -> ->. eexists _, _. reflexivity.
    + intros Hge. apply leb_not_ltb in Hge. congruence.
    + discriminate.
    + intros _ user topic -> -> clock memory. reflexivity.
    + intros _ [(exn & msg & ->)|(exn & msg & ->)].
      * exists exn. split; [reflexivity|]. reflexivity.
      * destruct (str_field uid) as [u|exn' msg'];
          eexists; split; reflexivity.
  - split; [|split; [|split; [|split; [|split]]]].
    + intros ack tasks [= <- <-].
      split; [reflexivity|]. split; [|reflexivity].
      split; [|discriminate]. intros (request & [=] & _).
    + intros user topic _ _. eexists _, _. reflexivity.
    + intros _. repeat split.
    + intros _ clock memory. reflexivity.
    + discriminate.
    + discriminate.
Qed.

Lemma quiz_webhook_dispatch_witness :
  Api.quiz_completed_webhook no_float strict_str
    (quiz_payload "maya" "CSS Grid" 0.75)
    = Api.Reply {| Api.ack_status := "received";
                   Api.ack_will_process := Some false |} []
  /\ (forall clock memory,
        Api.serve_quiz_completed chatty_agent no_float strict_str
          (quiz_payload "maya" "CSS Grid" 0.75) clock memory
          = (Api.Reply {| Api.ack_status := "received";
                          Api.ack_will_process := Some false |} [],
             memory))
  /\ (exists request,
        Api.quiz_completed_webhook no_float strict_str
          (quiz_payload "priya" "CSS Flexbox" 0.4)
          = Api.Reply {| Api.ack_status := "received";
                         Api.ack_will_process := Some true |}
              [Api.ProcessStudentEventBackground request]
        /\ Api.req_event_type request = "quiz_failure")
  /\ forall agent_process clock memory,
       snd (Api.serve_quiz_completed agent_process no_float strict_str
              (quiz_payload "priya" "CSS Flexbox" 0.4) clock memory)
       = snd (agent_process
                {| user_id := "priya"; event_type := "quiz_failure";
                   topic := "CSS Flexbox";
                   metadata := [("quiz_score", PFloat 0.4);
                                ("attempts", PInt 1); ("time_spent", PInt 0)];
                   Agent.timestamp := clock O |}
                memory).
Proof.
  destruct (quiz_webhook_dispatch chatty_agent no_float strict_str
              (quiz_payload "maya" "CSS Grid" 0.75)
              (PStr "maya") (PStr "CSS Grid") (PFloat 0.75) 0.75
              eq_refl eq_refl eq_refl eq_refl) as (_ & _ & Hhigh & _).
  destruct (Hhigh eq_refl) as (_ & Hreply & Hserve).
  split; [exact Hreply|]. split; [exact Hserve|].
  destruct (quiz_webhook_dispatch chatty_agent no_float strict_str
              (quiz_payload "priya" "CSS Flexbox" 0.4)
              (PStr "priya") (PStr "CSS Flexbox") (PFloat 0.4) 0.4
              eq_refl eq_refl eq_refl eq_refl) as (Hlow & _ & _).
  destruct (Hlow _ _ eq_refl) as (_ & Hiff & _).
  destruct (proj2 Hiff eq_refl) as (request & [= <-] & _ & Htype & _).
  split; [eexists; split; reflexivity|].
  intros agent_process clock memory.
  destruct (quiz_webhook_dispatch agent_process no_float strict_str
              (quiz_payload "priya" "CSS Flexbox" 0.4)
              (PStr "priya") (PStr "CSS Flexbox") (PFloat 0.4) 0.4
              eq_refl eq_refl eq_refl eq_refl) as (_ & _ & _ & _ & Hrun & _).
  rewrite (Hrun eq_refl "priya" "CSS Flexbox" eq_refl eq_refl clock memory).
  reflexivity.
Defined.

(* ===================================================================== *)
(** ** Properties of the engine *)
(* ===================================================================== *)

Module EngineFacts.
Import Engine.

Lemma history_record_struggle uid r u (store : UserStore) :
  history u (record_struggle uid r store)
    = (history u store ++ (if bool_decide (uid = u) then [r] else []))%list.
Proof.
  unfold history, get_or_create, record_struggle.
  case_bool_decide as Hu.
  - subst u. rewrite lookup_insert_eq. reflexivity.
  - rewrite lookup_insert_ne by exact Hu. rewrite app_nil_r. reflexivity.
Qed.

Lemma history_record_intervention uid t at_ u (store : UserStore) :
  history u (record_intervention uid t at_ store) = history u store.
Proof.
  unfold history, get_or_create, record_intervention.
  destruct (decide (uid = u)) as [->|Hu].
  - rewrite lookup_insert_eq. reflexivity.
  - rewrite lookup_insert_ne by exact Hu. reflexivity.
Qed.

Lemma interventions_record_struggle uid r u (store : UserStore) :
  interventions u (record_struggle uid r store) = interventions u store.
Proof.
  unfold interventions, get_or_create, record_struggle.
  destruct (decide (uid = u)) as [->|Hu].
  - rewrite lookup_insert_eq. reflexivity.
  - rewrite lookup_insert_ne by exact Hu. reflexivity.
Qed.

Lemma process_history cfg generate ev u (store : UserStore) :
  history u (snd (process cfg generate ev store))
    = (history u store ++ appended u ev)%list.
Proof.
  unfold process, appended.
  destruct (valid ev); cbn [negb andb].
  - destruct (should_intervene _);
      [destruct (generate _) as [raw|]; [destruct (parse _ _)|]|]; cbn [snd];
      rewrite ?history_record_intervention; apply history_record_struggle.
  - cbn [snd]. rewrite app_nil_r. reflexivity.
Qed.

Lemma process_all_history cfg calls u (store : UserStore) :
  history u (snd (process_all cfg calls store))
    = (history u store ++ concat (map (fun c => appended u (fst c)) calls))%list.
Proof.
  revert store. induction calls as [|[ev generate] calls IH]; intros store.
  - cbn. rewrite app_nil_r. reflexivity.
  - cbn [process_all].
    pose proof (process_history cfg generate ev u store) as H1.
    destruct (process cfg generate ev store) as [r store1]. cbn [snd] in H1.
    specialize (IH store1).
    destruct (process_all cfg calls store1) as [rs store2]. cbn [snd] in *.
    rewrite IH, H1. cbn [map concat fst]. rewrite app_assoc. reflexivity.
Qed.

Lemma existsb_eqb_false x (l : list string) :
  x ∉ l -> existsb (String.eqb x) l = false.
Proof.
  induction l as [|y l IH]; [reflexivity|].
  intros Hx. apply not_elem_of_cons in Hx as [Hne Hx]. cbn.
  rewrite IH by exact Hx. apply String.eqb_neq in Hne. rewrite Hne. reflexivity.
Qed.

Lemma invalid_not_valid ev :
  user_id ev = "" \/ event_type ev ∉ event_types \/ topic ev = "" ->
  valid ev = false.
Proof.
  unfold valid. intros [H|[H|H]].
  - rewrite H. reflexivity.
  - rewrite existsb_eqb_false by exact H. rewrite andb_false_r. reflexivity.
  - rewrite H. rewrite andb_false_r. reflexivity.
Qed.

Lemma fresh_not_cooling cfg ev uid (store : UserStore) :
  fresh uid store -> cooldown_active cfg ev (get_or_create uid store) = false.
Proof. unfold fresh. intros ->. reflexivity. Qed.

End EngineFacts.

Import Engine EngineFacts.

(** C7.  For every user without history and every sequence of N valid
    events of that user, the history after processing them holds exactly
    their N records, in submission order.  The history is append-only: over
    any run of [process] calls at all (other users' events and rejected
    events included) a user's earlier history stays as a prefix of the later
    one. *)
Theorem history_append_only (cfg : Config) (uid : string)
    (calls : list (StudentEvent * (string -> option string)))
    (store : UserStore) :
  history uid store = [] ->
  Forall (fun c => valid (fst c) = true /\ user_id (fst c) = uid) calls ->
  let store' := snd (process_all cfg calls store) in
  history uid store' = map (fun c => record_of (fst c)) calls
  /\ List.length (history uid store') = List.length calls
  /\ forall (any : list (StudentEvent * (string -> option string)))
            (u : string) (store0 : UserStore),
       exists later,
         history u (snd (process_all cfg any store0))
           = (history u store0 ++ later)%list.
Proof.
  intros Hempty Hcalls store'. subst store'.
  assert (Hall : history uid (snd (process_all cfg calls store))
                 = map (fun c => record_of (fst c)) calls).
  { rewrite process_all_history, Hempty. cbn [app].
    induction Hcalls as [|[ev g] calls [Hv Hu] _ IH]; [reflexivity|].
    cbn [map concat fst] in *. unfold appended at 1.
    rewrite Hv, bool_decide_eq_true_2 by exact Hu. cbn [andb app].
    f_equal. exact IH. }
  split; [exact Hall|]. split.
  - rewrite Hall, length_map. reflexivity.
  - intros any u store0. eexists. apply process_all_history.
Qed.

Lemma history_append_only_witness :
  let calls :=
    [(help_request "alex" "JavaScript Promises" 100, generator_up);
     (help_request "alex" "JavaScript Async/Await" 200, generator_down);
     (help_request "alex" "JavaScript Promises" 300, generator_up)] in
  let store' := snd (process_all config calls ∅) in
  history "alex" store' = map (fun c => record_of (fst c)) calls
  /\ List.length (history "alex" store') = 3%nat
  /\ forall (any : list (StudentEvent * (string -> option string)))
            (u : string) (store0 : UserStore),
       exists later,
         history u (snd (process_all config any store0))
           = (history u store0 ++ later)%list.
Proof.
  apply (history_append_only config "alex"
           [(help_request "alex" "JavaScript Promises" 100, generator_up);
            (help_request "alex" "JavaScript Async/Await" 200, generator_down);
            (help_request "alex" "JavaScript Promises" 300, generator_up)] ∅).
  - reflexivity.
  - repeat constructor.
Defined.

(** C8.  For every event with an empty [user_id], an [event_type] outside
    the three known ones, or an empty [topic], [process] fails with
    [ValidationError] and the store is the one it was given: no memory is
    changed and none is created.  Through [POST /events] the failure is an
    HTTP error, and the memory is likewise untouched. *)
Theorem invalid_event_rejected (cfg : Config)
    (generate : string -> option string)
    (event_request : Api.StudentEventRequest) (now : instant)
    (store : UserStore) :
  let ev := {| user_id := Api.req_user_id event_request;
               event_type := Api.req_event_type event_request;
               topic := Api.req_topic event_request;
               metadata := Api.req_metadata event_request;
               Agent.timestamp := now |} in
  user_id ev = "" \/ event_type ev ∉ event_types \/ topic ev = "" ->
  process cfg generate ev store = (inl ValidationError, store)
  /\ forall now_stamp now_id,
       Api.process_student_event (as_agent cfg generate) event_request
         now now_stamp now_id store
         = (Api.HTTPException 500 "Failed to process event: invalid event",
            store).
Proof.
  intros ev Hbad. apply invalid_not_valid in Hbad.
  assert (Hp : process cfg generate ev store = (inl ValidationError, store)).
  { unfold process. rewrite Hbad. reflexivity. }
  split; [exact Hp|]. intros now_stamp now_id.
  unfold Api.process_student_event, as_agent. fold ev. rewrite Hp. reflexivity.
Qed.

Lemma invalid_event_rejected_witness :
  process config generator_up
    {| user_id := "priya"; event_type := "page_view"; topic := "CSS Flexbox";
       metadata := []; Agent.timestamp := 100 |}
    {["priya" := priya_memory]}
    = (inl ValidationError, {["priya" := priya_memory]})
  /\ forall now_stamp now_id,
       Api.process_student_event (as_agent config generator_up)
         {| Api.req_user_id := "priya"; Api.req_event_type := "page_view";
            Api.req_topic := "CSS Flexbox"; Api.req_metadata := [] |}
         100 now_stamp now_id {["priya" := priya_memory]}
         = (Api.HTTPException 500 "Failed to process event: invalid event",
            {["priya" := priya_memory]}).
Proof.
  apply (invalid_event_rejected config generator_up
           {| Api.req_user_id := "priya"; Api.req_event_type := "page_view";
              Api.req_topic := "CSS Flexbox"; Api.req_metadata := [] |}
           100 {["priya" := priya_memory]}).
  right. left. cbn. unfold event_types.
  rewrite !not_elem_of_cons. repeat split; try discriminate.
  apply not_elem_of_nil.
Defined.

(** C6.  For every valid event on which the policy triggers while the
    generator call fails, [process] returns a result, not an error: its
    action is [intervention_failed] with the fallback message and no
    artifact, the triggering event is the new last record of the user's
    history, and no intervention is counted.  [POST /events] answers with
    that action. *)
Theorem generator_failure_isolated (cfg : Config)
    (generate : string -> option string)
    (event_request : Api.StudentEventRequest) (now : instant)
    (store : UserStore) :
  let ev := {| user_id := Api.req_user_id event_request;
               event_type := Api.req_event_type event_request;
               topic := Api.req_topic event_request;
               metadata := Api.req_metadata event_request;
               Agent.timestamp := now |} in
  valid ev = true ->
  should_intervene (evaluate cfg ev (get_or_create (user_id ev) store)) = true ->
  generate (topic ev) = None ->
  exists r store',
    process cfg generate ev store = (inr r, store')
    /\ Engine.action r = intervention_failed
    /\ Engine.user_message r = Some (fallback_message cfg)
    /\ artifact r = None
    /\ history (user_id ev) store'
       = (history (user_id ev) store ++ [record_of ev])%list
    /\ interventions (user_id ev) store' = interventions (user_id ev) store
    /\ forall now_stamp now_id,
       exists body tasks,
         Api.process_student_event (as_agent cfg generate) event_request
           now now_stamp now_id store = (Api.Reply body tasks, store')
         /\ Api.resp_action body = "intervention_failed"
         /\ Api.resp_artifact body = None.
Proof.
  intros ev Hvalid Htrigger Hdown.
  assert (Hp : process cfg generate ev store
               = (inr {| Engine.action := intervention_failed;
                         Engine.user_message := Some (fallback_message cfg);
                         artifact := None; raw_text := None;
                         Engine.timestamp := Agent.timestamp ev |},
                  record_struggle (user_id ev) (record_of ev) store)).
  { unfold process. rewrite Hvalid, Htrigger, Hdown. reflexivity. }
  eexists _, _. split; [exact Hp|]. cbn [Engine.action Engine.user_message artifact].
  repeat split.
  - rewrite history_record_struggle, bool_decide_eq_true_2 by reflexivity.
    reflexivity.
  - apply interventions_record_struggle.
  - intros now_stamp now_id. eexists _, _.
    unfold Api.process_student_event, as_agent. fold ev. rewrite Hp.
    split; [reflexivity|]. split; reflexivity.
Qed.

Lemma generator_failure_isolated_witness :
  exists r store',
    process config generator_down (failed_quiz "priya" "CSS Flexbox" 0.4 100) ∅
      = (inr r, store')
    /\ Engine.action r = intervention_failed
    /\ Engine.user_message r = Some "We could not prepare a lesson right now."
    /\ artifact r = None
    /\ history "priya" store'
       = [record_of (failed_quiz "priya" "CSS Flexbox" 0.4 100)]
    /\ interventions "priya" store' = 0
    /\ forall now_stamp now_id,
       exists body tasks,
         Api.process_student_event (as_agent config generator_down)
           {| Api.req_user_id := "priya"; Api.req_event_type := "quiz_failure";
              Api.req_topic := "CSS Flexbox";
              Api.req_metadata := [("quiz_score", PFloat 0.4)] |}
           100 now_stamp now_id ∅ = (Api.Reply body tasks, store')
         /\ Api.resp_action body = "intervention_failed"
         /\ Api.resp_artifact body = None.
Proof.
  exact (generator_failure_isolated config generator_down
           {| Api.req_user_id := "priya"; Api.req_event_type := "quiz_failure";
              Api.req_topic := "CSS Flexbox";
              Api.req_metadata := [("quiz_score", PFloat 0.4)] |}
           100 ∅ eq_refl eq_refl eq_refl).
Defined.

(** The strong-signal rule on the engine of the design document.  For
    every fresh user, a single valid [quiz_failure] whose metadata score is
    below the failure threshold triggers the policy on that first call, so
    the result is never [monitoring]; it is [intervention_created], with
    the artifact, when the generator answers with a text that the engine's
    parser accepts.  What [ProactiveAgent] itself returns cannot be read
    off [api.py] or [test_agent.py]. *)
Theorem strong_signal_triggers (cfg : Config)
    (generate : string -> option string) (ev : StudentEvent)
    (store : UserStore) (score : float) :
  fresh (user_id ev) store ->
  valid ev = true ->
  event_type ev = "quiz_failure" ->
  quiz_score ev = Some score ->
  (score <? failure_threshold cfg)%float = true ->
  should_intervene (evaluate cfg ev (get_or_create (user_id ev) store)) = true
  /\ (exists r store',
        process cfg generate ev store = (inr r, store')
        /\ Engine.action r <> monitoring)
  /\ forall raw art,
       generate (topic ev) = Some raw -> parse cfg raw = Some art ->
       exists r store',
         process cfg generate ev store = (inr r, store')
         /\ Engine.action r = intervention_created
         /\ artifact r = Some art
         /\ history (user_id ev) store' = [record_of ev]
         /\ interventions (user_id ev) store' = 1.
Proof.
  intros Hfresh Hvalid Htype Hscore Hlow.
  assert (Htrigger :
            should_intervene (evaluate cfg ev (get_or_create (user_id ev) store))
            = true).
  { unfold evaluate. cbn [should_intervene].
    rewrite (fresh_not_cooling cfg ev _ _ Hfresh).
    unfold strong_signal. rewrite Htype, Hscore, Hlow. reflexivity. }
  split; [exact Htrigger|]. split.
  - unfold process. rewrite Hvalid, Htrigger. cbn [negb].
    destruct (generate (topic ev)) as [raw|];
      [destruct (parse cfg raw)|]; eexists _, _; (split; [reflexivity|]);
      discriminate.
  - intros raw art Hgen Hparse. unfold process.
    rewrite Hvalid, Htrigger, Hgen, Hparse. cbn [negb].
    eexists _, _. split; [reflexivity|]. cbn [Engine.action artifact].
    repeat split.
    + rewrite history_record_intervention, history_record_struggle.
      rewrite bool_decide_eq_true_2 by reflexivity.
      unfold history. rewrite Hfresh. reflexivity.
    + unfold interventions, get_or_create, record_intervention.
      rewrite lookup_insert_eq. cbn.
      fold (get_or_create (user_id ev)
              (record_struggle (user_id ev) (record_of ev) store)).
      fold (interventions (user_id ev)
              (record_struggle (user_id ev) (record_of ev) store)).
      rewrite interventions_record_struggle. unfold interventions.
      rewrite Hfresh. reflexivity.
Qed.

Lemma strong_signal_triggers_witness :
  exists r store',
    process config generator_up (failed_quiz "priya" "CSS Flexbox" 0.4 100) ∅
      = (inr r, store')
    /\ Engine.action r = intervention_created
    /\ artifact r
       = Some {| title := "CSS Grid";
                 slides := [PDict [("title", PStr "Intro")]];
                 duration_minutes := PInt 5 |}
    /\ history "priya" store'
       = [record_of (failed_quiz "priya" "CSS Flexbox" 0.4 100)]
    /\ interventions "priya" store' = 1.
Proof.
  assert (Hfresh : fresh "priya" ∅) by reflexivity.
  destruct (strong_signal_triggers config generator_up
              (failed_quiz "priya" "CSS Flexbox" 0.4 100) ∅ 0.4
              Hfresh eq_refl eq_refl eq_refl eq_refl) as (_ & _ & H).
  apply (H lesson_text); [reflexivity | vm_compute; reflexivity].
Defined.

(** The repeated-signal rule on the engine of the design document.  For
    every fresh user a single valid [help_request] returns [monitoring].  A
    second valid [help_request] of the same user, on a topic matching or
    closely related to the first and inside the recency window, triggers
    the policy; the result is [intervention_created] when the generator
    answers with a text that the engine's parser accepts.  What
    [ProactiveAgent] itself returns cannot be read off [api.py] or
    [test_agent.py]. *)
Theorem repeated_help_request_triggers (cfg : Config)
    (generate1 : string -> option string) (e1 : StudentEvent)
    (store : UserStore) :
  fresh (user_id e1) store ->
  valid e1 = true ->
  event_type e1 = "help_request" ->
  exists r1 store1,
    process cfg generate1 e1 store = (inr r1, store1)
    /\ Engine.action r1 = monitoring
    /\ forall (generate2 : string -> option string) (e2 : StudentEvent),
         user_id e2 = user_id e1 ->
         valid e2 = true ->
         event_type e2 = "help_request" ->
         related_topic cfg (topic e1) (topic e2) = true ->
         Agent.timestamp e2 - Agent.timestamp e1 <= recency_window cfg ->
         should_intervene (evaluate cfg e2 (get_or_create (user_id e2) store1))
           = true
         /\ forall raw art,
              generate2 (topic e2) = Some raw -> parse cfg raw = Some art ->
              exists r2 store2,
                process cfg generate2 e2 store1 = (inr r2, store2)
                /\ Engine.action r2 = intervention_created
                /\ artifact r2 = Some art
                /\ map action_of
                     (fst (process_all cfg [(e1, generate1); (e2, generate2)]
                             store))
                   = [Some monitoring; Some intervention_created].
Proof.
  intros Hfresh Hvalid1 Htype1.
  assert (Hquiet :
            should_intervene (evaluate cfg e1 (get_or_create (user_id e1) store))
            = false).
  { unfold evaluate, strong_signal, repeated_signal. cbn [should_intervene].
    rewrite Hfresh, Htype1. cbn. reflexivity. }
  assert (Hp1 : process cfg generate1 e1 store
                = (inr {| Engine.action := monitoring;
                          Engine.user_message := None; artifact := None;
                          raw_text := None;
                          Engine.timestamp := Agent.timestamp e1 |},
                   record_struggle (user_id e1) (record_of e1) store)).
  { unfold process. rewrite Hvalid1, Hquiet. reflexivity. }
  eexists _, _. split; [exact Hp1|]. split; [reflexivity|].
  intros generate2 e2 Huser Hvalid2 Htype2 Hrel Hwin.
  assert (Hmem : get_or_create (user_id e2)
                   (record_struggle (user_id e1) (record_of e1) store)
                 = {| struggle_history := [record_of e1];
                      intervention_count := 0;
                      last_intervention := None;
                      last_intervention_topic := None |}).
  { rewrite Huser. unfold get_or_create at 1, record_struggle.
    rewrite lookup_insert_eq. cbn. rewrite Hfresh. reflexivity. }
  assert (Htrigger :
            should_intervene
              (evaluate cfg e2
                 (get_or_create (user_id e2)
                    (record_struggle (user_id e1) (record_of e1) store)))
            = true).
  { rewrite Hmem. unfold evaluate, repeated_signal, earlier_signal.
    cbn [should_intervene cooldown_active last_intervention_topic
         struggle_history existsb record_of rec_event_type rec_topic
         rec_timestamp negb andb].
    rewrite Htype2, Htype1, Hrel.
    apply Z.leb_le in Hwin. rewrite Hwin. cbn.
    rewrite orb_true_r. reflexivity. }
  split; [exact Htrigger|].
  intros raw art Hgen Hparse.
  assert (Hp2 : process cfg generate2 e2
                  (record_struggle (user_id e1) (record_of e1) store)
                = (inr {| Engine.action := intervention_created;
                          Engine.user_message :=
                            Some (intervention_message cfg (topic e2));
                          artifact := Some art; raw_text := Some raw;
                          Engine.timestamp := Agent.timestamp e2 |},
                   record_intervention (user_id e2) (topic e2)
                     (Agent.timestamp e2)
                     (record_struggle (user_id e2) (record_of e2)
                        (record_struggle (user_id e1) (record_of e1) store)))).
  { unfold process. rewrite Hvalid2, Htrigger, Hgen, Hparse. reflexivity. }
  eexists _, _. split; [exact Hp2|]. split; [reflexivity|].
  split; [reflexivity|].
  cbn [process_all]. rewrite Hp1, Hp2. reflexivity.
Qed.

Lemma repeated_help_request_triggers_witness :
  exists r1 store1 r2 store2,
    process config generator_up
      (help_request "alex" "JavaScript Async/Await" 100) ∅ = (inr r1, store1)
    /\ Engine.action r1 = monitoring
    /\ process config generator_up
         (help_request "alex" "JavaScript Promises" 200) store1
       = (inr r2, store2)
    /\ Engine.action r2 = intervention_created.
Proof.
  assert (Hfresh : fresh "alex" ∅) by reflexivity.
  destruct (repeated_help_request_triggers config generator_up
              (help_request "alex" "JavaScript Async/Await" 100) ∅
              Hfresh eq_refl eq_refl) as (r1 & store1 & Hp1 & Ha1 & Hnext).
  destruct (Hnext generator_up (help_request "alex" "JavaScript Promises" 200)
              eq_refl eq_refl eq_refl eq_refl) as [_ Hcreated].
  { vm_compute. discriminate. }
  destruct (Hcreated lesson_text
              {| title := "CSS Grid";
                 slides := [PDict [("title", PStr "Intro")]];
                 duration_minutes := PInt 5 |} eq_refl)
    as (r2 & store2 & Hp2 & Ha2 & _).
  { vm_compute. reflexivity. }
  exists r1, store1, r2, store2. repeat split; assumption.
Defined.

(* ===================================================================== *)
(** ** Further properties of the webhooks and of [POST /events] *)
(* ===================================================================== *)

Module RouteFacts.
Import Api.

(** An artifact [parse] hands out is a dict. *)
Lemma parsed_artifact_is_dict text artifact :
  parse text = Artifact artifact -> exists d, artifact = PDict d.
Proof.
  unfold parse.
  destruct (contains "{" text) eqn:Ho; [|discriminate].
  destruct (contains "}" text) eqn:Hc; [|discriminate]. cbn [andb].
  destruct (ParseFacts.payload_shape text Ho Hc)
    as [(_ & pre & mid & post & _ & _ & _ & ->)|(_ & ->)].
  - destruct (loads _) as [a|] eqn:Hl; [|discriminate].
    intros [= <-]. exact (JsonFacts.loads_object _ _ Hl).
  - discriminate.
Qed.

Lemma run_tasks_nil agent_process clock (memory : UserStore) :
  run_tasks agent_process clock [] memory = memory.
Proof. reflexivity. Qed.

End RouteFacts.

(** X1.  A quiz-completion payload that lacks [user_id], [quiz_topic] or
    [score] is answered with HTTP 400, whatever else it holds; nothing is
    queued and the memory stays as it was. *)
Theorem quiz_webhook_missing_field
    (agent_process : StudentEvent -> UserStore -> outcome AgentResult * UserStore)
    (float_of_str : string -> option float)
    (str_field : pyval -> outcome string)
    (data : list (string * pyval)) :
  dict_get "user_id" data = None \/ dict_get "quiz_topic" data = None
  \/ dict_get "score" data = None ->
  Api.quiz_completed_webhook float_of_str str_field data
    = Api.HTTPException 400
        "Missing required fields: ['user_id', 'quiz_topic', 'score']"
  /\ forall clock memory,
       Api.serve_quiz_completed agent_process float_of_str str_field
         data clock memory
       = (Api.HTTPException 400
            "Missing required fields: ['user_id', 'quiz_topic', 'score']",
          memory).
Proof.
  intros Hmiss.
  assert (H : Api.quiz_completed_webhook float_of_str str_field data
              = Api.HTTPException 400
                  "Missing required fields: ['user_id', 'quiz_topic', 'score']").
  { unfold Api.quiz_completed_webhook.
    destruct Hmiss as [->|[->| ->]].
    - reflexivity.
    - destruct (dict_get "user_id" data); reflexivity.
    - destruct (dict_get "user_id" data), (dict_get "quiz_topic" data);
        reflexivity. }
  split; [exact H|]. intros clock memory.
  unfold Api.serve_quiz_completed. rewrite H. reflexivity.
Qed.

Lemma quiz_webhook_missing_field_witness :
  Api.quiz_completed_webhook no_float strict_str
    [("user_id", PStr "priya"); ("score", PStr "not a number")]
    = Api.HTTPException 400
        "Missing required fields: ['user_id', 'quiz_topic', 'score']"
  /\ forall clock memory,
       Api.serve_quiz_completed chatty_agent no_float strict_str
         [("user_id", PStr "priya"); ("score", PStr "not a number")]
         clock memory
       = (Api.HTTPException 400
            "Missing required fields: ['user_id', 'quiz_topic', 'score']",
          memory).
Proof.
  apply (quiz_webhook_missing_field chatty_agent no_float strict_str
           [("user_id", PStr "priya"); ("score", PStr "not a number")]).
  right. left. reflexivity.
Defined.

(** X2.  When the three fields are present but the score is not a number
    [float] accepts ([None], a list, a dict, an integer too large for a
    float, a text [float] refuses), the conversion's exception escapes the
    route: no 400 is sent, nothing is queued and the memory stays as it
    was, also when the score would otherwise have been low. *)
Theorem quiz_webhook_bad_score
    (agent_process : StudentEvent -> UserStore -> outcome AgentResult * UserStore)
    (float_of_str : string -> option float)
    (str_field : pyval -> outcome string)
    (data : list (string * pyval)) (uid quiz_topic raw_score : pyval) :
  dict_get "user_id" data = Some uid ->
  dict_get "quiz_topic" data = Some quiz_topic ->
  dict_get "score" data = Some raw_score ->
  (raw_score = PNone \/ (exists l, raw_score = PList l)
   \/ (exists d, raw_score = PDict d)
   \/ (exists s, raw_score = PStr s /\ float_of_str s = None)
   \/ (exists z, raw_score = PInt z
                 /\ is_infinity (float_of_decimal (z <? 0) (Z.abs z) 0) = true)) ->
  exists exn,
    Api.quiz_completed_webhook float_of_str str_field data = Api.Unhandled exn
    /\ forall clock memory,
         Api.serve_quiz_completed agent_process float_of_str str_field
           data clock memory = (Api.Unhandled exn, memory).
Proof.
  intros Hu Ht Hs Hbad.
  assert (H : exists exn msg, Api.py_float float_of_str raw_score = Raised exn msg).
  { destruct Hbad as [->|[[l ->]|[[d ->]|[(s & -> & Hf)|(z & -> & Hz)]]]];
      unfold Api.py_float; cbv iota beta; rewrite ?Hf, ?Hz;
      eexists _, _; reflexivity. }
  destruct H as (exn & msg & H). exists exn.
  unfold Api.serve_quiz_completed, Api.quiz_completed_webhook.
  rewrite Hu, Ht, Hs, H. split; reflexivity.
Qed.

Lemma quiz_webhook_bad_score_witness :
  exists exn,
    Api.quiz_completed_webhook no_float strict_str
      [("user_id", PStr "priya"); ("quiz_topic", PStr "CSS Flexbox");
       ("score", PNone)] = Api.Unhandled exn
    /\ forall clock memory,
         Api.serve_quiz_completed chatty_agent no_float strict_str
           [("user_id", PStr "priya"); ("quiz_topic", PStr "CSS Flexbox");
            ("score", PNone)] clock memory = (Api.Unhandled exn, memory).
Proof.
  apply (quiz_webhook_bad_score chatty_agent no_float strict_str
           [("user_id", PStr "priya"); ("quiz_topic", PStr "CSS Flexbox");
            ("score", PNone)] (PStr "priya") (PStr "CSS Flexbox") PNone
           eq_refl eq_refl eq_refl).
  left. reflexivity.
Defined.

(** X3.  The quiz webhook answers before the agent runs: its reply is the
    same whatever the agent does, also when the agent raises.  When an
    event is queued it is the only task, and it is built from the payload:
    its user and topic are the payload's [user_id] and [quiz_topic] as the
    request model stores them, its [quiz_score] is [float(data['score'])],
    which is below 0.6, with [attempts] (1 when the payload has none) and
    [time_spent] (0 when the payload has none); the memory after the
    request is the one the agent leaves on that single [quiz_failure]
    event. *)
Theorem quiz_webhook_fire_and_forget
    (agent1 agent2 : StudentEvent -> UserStore -> outcome AgentResult * UserStore)
    (float_of_str : string -> option float)
    (str_field : pyval -> outcome string)
    (data : list (string * pyval)) (clock : nat -> instant)
    (memory : UserStore) :
  fst (Api.serve_quiz_completed agent1 float_of_str str_field data clock memory)
    = fst (Api.serve_quiz_completed agent2 float_of_str str_field data clock memory)
  /\ fst (Api.serve_quiz_completed agent1 float_of_str str_field data clock memory)
     = Api.quiz_completed_webhook float_of_str str_field data
  /\ forall ack task tasks,
       Api.quiz_completed_webhook float_of_str str_field data
         = Api.Reply ack (task :: tasks) ->
       exists request raw_user raw_topic raw_score score,
         task = Api.ProcessStudentEventBackground request /\ tasks = []
         /\ dict_get "user_id" data = Some raw_user
         /\ dict_get "quiz_topic" data = Some raw_topic
         /\ dict_get "score" data = Some raw_score
         /\ Api.py_float float_of_str raw_score = Returned score
         /\ (score <? 0.6)%float = true
         /\ str_field raw_user = Returned (Api.req_user_id request)
         /\ str_field raw_topic = Returned (Api.req_topic request)
         /\ Api.req_event_type request = "quiz_failure"
         /\ Api.req_metadata request
            = [("quiz_score", PFloat score);
               ("attempts", default (PInt 1) (dict_get "attempts" data));
               ("time_spent", default (PInt 0) (dict_get "time_spent" data))]
         /\ ack = {| Api.ack_status := "received";
                     Api.ack_will_process := Some true |}
         /\ snd (Api.serve_quiz_completed agent1 float_of_str str_field
                   data clock memory)
            = snd (agent1 {| user_id := Api.req_user_id request;
                             event_type := "quiz_failure";
                             topic := Api.req_topic request;
                             metadata := Api.req_metadata request;
                             Agent.timestamp := clock O |} memory).
Proof.
  unfold Api.serve_quiz_completed.
  destruct (Api.quiz_completed_webhook float_of_str str_field data)
    as [ack tasks| |] eqn:Hw; cbn [fst snd].
  - split; [reflexivity|]. split; [reflexivity|].
    intros ack' task tasks' [= <- ->].
    revert Hw. unfold Api.quiz_completed_webhook.
    destruct (dict_get "user_id" data) as [uid|]; [|discriminate].
    destruct (dict_get "quiz_topic" data) as [qt|]; [|discriminate].
    destruct (dict_get "score" data) as [raw|]; [|discriminate].
    destruct (Api.py_float float_of_str raw) as [score|] eqn:Hf; [|discriminate].
    destruct (score <? 0.6)%float eqn:Hlow; [|discriminate].
    destruct (str_field uid) as [u|] eqn:Hu; [|discriminate].
    destruct (str_field qt) as [t|] eqn:Ht; [|discriminate].
    intros [= <- <- <-]. eexists _, uid, qt, raw, score.
    repeat split; assumption.
  - split; [reflexivity|]. split; [reflexivity|]. discriminate.
  - split; [reflexivity|]. split; [reflexivity|]. discriminate.
Qed.

(** X4.  The help-request webhook has no threshold and no 400: a payload
    whose [user_id] and [topic] are accepted as strings, with no metadata
    or a dict of metadata, always queues exactly one [help_request] event
    carrying that metadata (empty when absent); a payload without
    [user_id] or without [topic] makes the route fail with an escaping
    [KeyError]. *)
Theorem help_webhook_dispatch
    (str_field : pyval -> outcome string)
    (data : list (string * pyval)) :
  (forall uid topic user t,
     dict_get "user_id" data = Some uid -> dict_get "topic" data = Some topic ->
     str_field uid = Returned user -> str_field topic = Returned t ->
     (dict_get "metadata" data = None \/
      exists md, dict_get "metadata" data = Some (PDict md)) ->
     exists request,
       Api.help_request_webhook str_field data
         = Api.Reply {| Api.ack_status := "received";
                        Api.ack_will_process := None |}
             [Api.ProcessStudentEventBackground request]
       /\ Api.req_user_id request = user
       /\ Api.req_event_type request = "help_request"
       /\ Api.req_topic request = t
       /\ PDict (Api.req_metadata request)
          = default (PDict []) (dict_get "metadata" data))
  /\ (dict_get "user_id" data = None \/ dict_get "topic" data = None ->
      Api.help_request_webhook str_field data = Api.Unhandled "KeyError").
Proof.
  unfold Api.help_request_webhook. split.
  - intros uid topic user t -> -> -> -> [-> | [md ->]];
      eexists; repeat split.
  - intros [-> | ->]; [reflexivity|].
    destruct (dict_get "user_id" data); reflexivity.
Qed.

(** X5.  [POST /events] never lets an exception escape.  It answers 500
    exactly when the agent raises, and then queues nothing.  Otherwise it
    answers with the agent's action ("unknown" when the result has none)
    for the user of the request, queues exactly one analytics task with
    that action, and carries an artifact only when the action is
    [intervention_created]; the artifact is then the dict decoded from the
    response text.  In both cases the memory is the one the agent leaves. *)
Theorem events_reply_shape
    (agent_process : StudentEvent -> UserStore -> outcome AgentResult * UserStore)
    (event_request : Api.StudentEventRequest)
    (now_event now_stamp now_id : instant) (memory : UserStore) :
  let event := {| user_id := Api.req_user_id event_request;
                  event_type := Api.req_event_type event_request;
                  topic := Api.req_topic event_request;
                  metadata := Api.req_metadata event_request;
                  Agent.timestamp := now_event |} in
  let served := Api.process_student_event agent_process event_request
                  now_event now_stamp now_id memory in
  snd served = snd (agent_process event memory)
  /\ match fst served with
     | Api.Reply body tasks =>
         exists result,
           fst (agent_process event memory) = Returned result
           /\ Api.resp_action body = default "unknown" (Agent.action result)
           /\ Api.resp_user_id body = Api.req_user_id event_request
           /\ tasks = [Api.TrackInterventionAnalytics
                         (Api.req_user_id event_request)
                         (Api.req_event_type event_request) (Agent.action result)]
           /\ forall artifact,
                Api.resp_artifact body = Some artifact ->
                Agent.action result = Some "intervention_created"
                /\ Api.resp_action body = "intervention_created"
                /\ (exists d, artifact = PDict d)
                /\ Api.parse (default "" (response result))
                   = Api.Artifact artifact
     | Api.HTTPException code detail =>
         code = 500
         /\ exists exn msg,
              fst (agent_process event memory) = Raised exn msg
              /\ detail = "Failed to process event: " +:+ msg
     | Api.Unhandled _ => False
     end.
Proof.
  intros event served. subst served. unfold Api.process_student_event.
  fold event. destruct (agent_process event memory) as [[result|exn msg] memory'];
    cbn [fst snd]; (split; [reflexivity|]).
  - exists result. repeat split.
    all: revert H; case_bool_decide as Hact; try discriminate; intros H.
    + exact Hact.
    + rewrite Hact. reflexivity.
    + destruct (Api.parse _) as [a| |] eqn:Hp; try discriminate.
      injection H as <-. exact (RouteFacts.parsed_artifact_is_dict _ _ Hp).
    + destruct (Api.parse _) as [a| |] eqn:Hp; try discriminate.
      injection H as <-. reflexivity.
  - split; [reflexivity|]. eexists _, _. split; reflexivity.
Qed.

(* ===================================================================== *)
(** ** Further properties of the reporting routes *)
(* ===================================================================== *)

Module ReportFacts.
Import Api.

(** [max] returns an item of greatest key. *)
Lemma py_max_from {A} (key : A -> Z) (items : list A) (best : option A) :
  match fold_left
          (fun best x =>
             match best with
             | None => Some x
             | Some b => if key b <? key x then Some x else Some b
             end) items best with
  | None => best = None /\ items = []
  | Some x =>
      (best = Some x \/ x ∈ items)
      /\ (forall b, best = Some b -> key b <= key x)
      /\ forall y, y ∈ items -> key y <= key x
  end.
Proof.
  revert best. induction items as [|a items IH]; intros best; cbn [fold_left].
  - destruct best as [b|].
    + split; [left; reflexivity|]. split; [intros ? [= ->]; lia|].
      intros y Hy. inversion Hy.
    + split; reflexivity.
  - match goal with |- context [fold_left ?f items ?b'] =>
      specialize (IH b'); destruct (fold_left f items b') as [x|] end.
    + destruct IH as (Hin & Hbest & Hall).
      destruct best as [b|].
      * destruct (Z.ltb_spec (key b) (key a)) as [Hlt|Hge].
        -- specialize (Hbest a eq_refl).
           split; [right; destruct Hin as [[= ->]|Hin];
                   [apply elem_of_cons; left; reflexivity | apply elem_of_cons; right; exact Hin]|].
           split; [intros ? [= <-]; lia|].
           intros y Hy. apply elem_of_cons in Hy as [->|Hy]; auto.
        -- specialize (Hbest b eq_refl).
           split; [destruct Hin as [Hin|Hin];
                   [left; exact Hin | right; apply elem_of_cons; right; exact Hin]|].
           split; [intros ? [= <-]; lia|].
           intros y Hy. apply elem_of_cons in Hy as [->|Hy]; [lia | auto].
      * specialize (Hbest a eq_refl).
        split; [right; destruct Hin as [[= ->]|Hin];
                [apply elem_of_cons; left; reflexivity | apply elem_of_cons; right; exact Hin]|].
        split; [discriminate|].
        intros y Hy. apply elem_of_cons in Hy as [->|Hy]; auto.
    + destruct IH as [Hnone _]. destruct best as [b|]; [|discriminate].
      destruct (key b <? key a); discriminate.
Qed.

Lemma py_max_spec {A} (key : A -> Z) (items : list A) :
  match py_max key items with
  | None => items = []
  | Some x => x ∈ items /\ forall y, y ∈ items -> key y <= key x
  end.
Proof.
  unfold py_max. pose proof (py_max_from key items None) as H.
  destruct (fold_left _ items None) as [x|].
  - destruct H as ([[=]|Hin] & _ & Hall). split; assumption.
  - apply H.
Qed.

Lemma count_occ_str_nonneg l x : 0 <= count_occ_str l x.
Proof. unfold count_occ_str. lia. Qed.

Lemma count_occ_str_absent l x : x ∉ l -> count_occ_str l x = 0.
Proof.
  unfold count_occ_str. induction l as [|y l IH]; intros Hx; [reflexivity|].
  apply not_elem_of_cons in Hx as [Hne Hx]. cbn [List.filter].
  destruct (String.eqb_spec x y) as [->|_]; [congruence|]. exact (IH Hx).
Qed.


Lemma sum_Z_Permutation l1 l2 : l1 ≡ₚ l2 -> sum_Z l1 = sum_Z l2.
Proof. unfold sum_Z. induction 1; cbn [fold_right] in *; lia. Qed.

End ReportFacts.



(** X7.  Provided [list(set(l))] lists exactly the items of [l], the
    profile's [most_common_struggle_type] is absent exactly when the user
    has no events, and otherwise is an event type of the history that no
    other type outnumbers. *)
Theorem profile_most_common_type (list_set : list string -> list string)
    (uid : string) (now : instant) (memory : UserStore) (m : UserMemory) :
  (forall l x, x ∈ list_set l <-> x ∈ l) ->
  memory !! uid = Some m ->
  exists body,
    Api.get_user_profile list_set uid now memory = Api.Reply body []
    /\ match Api.prof_most_common_struggle_type body with
       | None => struggle_history m = []
       | Some t =>
           t ∈ map rec_event_type (struggle_history m)
           /\ forall t',
                Api.count_occ_str (map rec_event_type (struggle_history m)) t'
                <= Api.count_occ_str (map rec_event_type (struggle_history m)) t
       end.
Proof.
  intros Hset Hm. unfold Api.get_user_profile. rewrite Hm.
  eexists. split; [reflexivity|]. cbn [Api.prof_most_common_struggle_type].
  destruct (struggle_history m) as [|r history] eqn:Hh; [reflexivity|].
  cbn [map].
  set (types := rec_event_type r :: map rec_event_type history).
  assert (Hne : types = rec_event_type r :: map rec_event_type history)
    by reflexivity.
  pose proof (ReportFacts.py_max_spec (Api.count_occ_str types) (list_set types))
    as Hmax.
  destruct (Api.py_max _ _) as [t|].
  - destruct Hmax as [Hin Hall]. split; [apply Hset, Hin|].
    intros t'. destruct (decide (t' ∈ types)) as [Ht'|Ht'].
    + apply Hall, Hset, Ht'.
    + rewrite (ReportFacts.count_occ_str_absent _ _ Ht').
      apply ReportFacts.count_occ_str_nonneg.
  - exfalso. assert (Hr : rec_event_type r ∈ list_set types).
    { apply Hset. rewrite Hne. apply elem_of_cons; left; reflexivity. }
    rewrite Hmax in Hr. inversion Hr.
Qed.

Lemma profile_most_common_type_witness :
  exists body,
    Api.get_user_profile remove_dups "alex" 10 MoreSamples.two_users
      = Api.Reply body []
    /\ Api.prof_most_common_struggle_type body = Some "help_request".
Proof.
  destruct (profile_most_common_type remove_dups "alex" 10
              MoreSamples.two_users MoreSamples.alex_memory
              (fun l x => elem_of_remove_dups l x) eq_refl)
    as (body & Hb & _).
  exists body. split; [exact Hb|].
  unfold MoreSamples.two_users in Hb. unfold Api.get_user_profile in Hb.
  rewrite lookup_insert_eq in Hb. injection Hb as <-. vm_compute. reflexivity.
Defined.

(** X8.  [GET /users] lists every user of the memory exactly once and
    nobody else: [total_count] is the number of users, the listed ids are
    distinct, and each entry carries that user's number of events and of
    interventions, with [last_activity] the stamp of the latest event,
    absent when the user has none. *)
Theorem users_listing_matches_memory (memory : UserStore) :
  let users := fst (Api.list_users memory) in
  snd (Api.list_users memory) = Z.of_nat (size memory)
  /\ List.length users = size memory
  /\ NoDup (map Api.sum_user_id users)
  /\ (forall uid, uid ∈ map Api.sum_user_id users <-> is_Some (memory !! uid))
  /\ forall s,
       s ∈ users ->
       exists m,
         memory !! Api.sum_user_id s = Some m
         /\ Api.sum_event_count s = Z.of_nat (List.length (struggle_history m))
         /\ Api.sum_intervention_count s = intervention_count m
         /\ Api.sum_last_activity s = rec_timestamp <$> last (struggle_history m)
         /\ (Api.sum_last_activity s = None <-> struggle_history m = []).
Proof.
  intros users. subst users. unfold Api.list_users. cbn [fst snd].
  set (entry := fun '(uid, m) =>
         {| Api.sum_user_id := uid;
            Api.sum_event_count := Z.of_nat (List.length (struggle_history m));
            Api.sum_intervention_count := intervention_count m;
            Api.sum_last_activity := rec_timestamp <$> last (struggle_history m) |}).
  assert (Hids : map Api.sum_user_id (map entry (map_to_list memory))
                 = (map_to_list memory).*1).
  { rewrite map_map. apply map_ext. intros [uid m]. reflexivity. }
  split; [rewrite length_map, length_map_to_list; reflexivity|].
  split; [rewrite length_map; apply length_map_to_list|].
  split; [rewrite Hids; apply NoDup_fst_map_to_list|].
  split.
  - intros uid. rewrite Hids, list_elem_of_fmap. split.
    + intros ([k m] & -> & Hkm). apply elem_of_map_to_list in Hkm.
      cbn. rewrite Hkm. eexists. reflexivity.
    + intros [m Hm]. exists (uid, m). split; [reflexivity|].
      apply elem_of_map_to_list, Hm.
  - intros s Hs. apply list_elem_of_fmap in Hs as ([uid m] & -> & Hkm).
    apply elem_of_map_to_list in Hkm. exists m. cbn.
    repeat split; try assumption.
    + destruct (struggle_history m) as [|r l] using rev_ind; [reflexivity|].
      rewrite last_snoc. discriminate.
    + intros ->. reflexivity.
Qed.

(** X9.  [GET /status] and [GET /users] agree: the status counts as many
    users as are listed, and its totals of events and of interventions are
    the sums over the listed entries; on an empty memory all three are
    zero. *)
Theorem status_agrees_with_listing (memory : UserStore) :
  let status := Api.get_system_status memory in
  let users := fst (Api.list_users memory) in
  Api.status_total_users status = snd (Api.list_users memory)
  /\ Api.status_total_events status
     = Api.sum_Z (map Api.sum_event_count users)
  /\ Api.status_total_interventions status
     = Api.sum_Z (map Api.sum_intervention_count users)
  /\ 0 <= Api.status_total_events status
  /\ Api.get_system_status ∅
     = {| Api.status_total_users := 0; Api.status_total_events := 0;
          Api.status_total_interventions := 0 |}.
Proof.
  intros status users. subst status users.
  unfold Api.get_system_status, Api.list_users. cbn [fst snd
    Api.status_total_users Api.status_total_events
    Api.status_total_interventions].
  split; [rewrite length_map, length_map_to_list; reflexivity|].
  split; [rewrite !map_map; f_equal; apply map_ext; intros [uid m]; reflexivity|].
  split; [rewrite !map_map; f_equal; apply map_ext; intros [uid m]; reflexivity|].
  split.
  - unfold Api.sum_Z. induction (map_to_list memory) as [|[uid m] l IH];
      cbn [map fold_right snd]; lia.
  - rewrite map_to_list_empty, map_size_empty. reflexivity.
Qed.

(** X10.  Resetting a known user lowers the system totals by exactly that
    user's share: one user fewer, the user's events fewer, the user's
    interventions fewer. *)
Theorem reset_lowers_totals (uid : string) (memory : UserStore) (m : UserMemory) :
  memory !! uid = Some m ->
  let before := Api.get_system_status memory in
  let after := Api.get_system_status (snd (Api.reset_user_profile uid memory)) in
  Api.status_total_users after = Api.status_total_users before - 1
  /\ Api.status_total_events after
     = Api.status_total_events before
       - Z.of_nat (List.length (struggle_history m))
  /\ Api.status_total_interventions after
     = Api.status_total_interventions before - intervention_count m.
Proof.
  intros Hm before after. subst before after.
  unfold Api.reset_user_profile.
  rewrite bool_decide_eq_true_2 by (apply elem_of_dom; eexists; exact Hm).
  cbn [snd]. unfold Api.get_system_status.
  cbn [Api.status_total_users Api.status_total_events
       Api.status_total_interventions].
  pose proof (map_to_list_delete memory uid m Hm) as Hperm.
  split; [|split].
  - rewrite map_size_delete_Some by (eexists; exact Hm).
    assert (size memory <> 0%nat).
    { intros Hz. apply map_size_empty_iff in Hz. subst memory.
      rewrite lookup_empty in Hm. discriminate. }
    lia.
  - rewrite <- (ReportFacts.sum_Z_Permutation _ _
                  (Permutation_map
                     (fun x => Z.of_nat (List.length (struggle_history x)))
                     (Permutation_map snd Hperm))).
    unfold Api.sum_Z. cbn [map fold_right snd]. lia.
  - rewrite <- (ReportFacts.sum_Z_Permutation _ _
                  (Permutation_map intervention_count
                     (Permutation_map snd Hperm))).
    unfold Api.sum_Z. cbn [map fold_right snd]. lia.
Qed.

Lemma reset_lowers_totals_witness :
  let after :=
    Api.get_system_status
      (snd (Api.reset_user_profile "alex" MoreSamples.two_users)) in
  Api.status_total_users after = 2 - 1
  /\ Api.status_total_events after = 3 - 2
  /\ Api.status_total_interventions after = 1 - 0.
Proof.
  exact (reset_lowers_totals "alex" MoreSamples.two_users
           MoreSamples.alex_memory eq_refl).
Defined.

(** X11.  A reset touches one user only: every other user's profile is
    answered as before, and resetting an unknown user changes nothing. *)
Theorem reset_leaves_others (list_set : list string -> list string)
    (uid other : string) (now : instant) (memory : UserStore) :
  other <> uid ->
  Api.get_user_profile list_set other now
    (snd (Api.reset_user_profile uid memory))
    = Api.get_user_profile list_set other now memory
  /\ snd (Api.reset_user_profile uid memory) !! other = memory !! other
  /\ (memory !! uid = None ->
      snd (Api.reset_user_profile uid memory) = memory).
Proof.
  intros Hne.
  assert (Hl : snd (Api.reset_user_profile uid memory) !! other = memory !! other).
  { unfold Api.reset_user_profile. case_bool_decide; cbn [snd];
      [apply lookup_delete_ne; congruence | reflexivity]. }
  split; [unfold Api.get_user_profile; rewrite Hl; reflexivity|].
  split; [exact Hl|].
  intros Hnone. unfold Api.reset_user_profile.
  rewrite bool_decide_eq_false_2; [reflexivity|].
  rewrite elem_of_dom, Hnone. intros [? [=]].
Qed.

Lemma reset_leaves_others_witness :
  Api.get_user_profile remove_dups "priya" 10
    (snd (Api.reset_user_profile "alex" MoreSamples.two_users))
    = Api.get_user_profile remove_dups "priya" 10 MoreSamples.two_users
  /\ snd (Api.reset_user_profile "alex" MoreSamples.two_users) !! "priya"
     = MoreSamples.two_users !! "priya".
Proof.
  destruct (reset_leaves_others remove_dups "alex" "priya" 10
              MoreSamples.two_users ltac:(discriminate)) as (H1 & H2 & _).
  split; [exact H1 | exact H2].
Defined.

(* ===================================================================== *)
(** ** Further properties of the parser and of [POST /generate-artifact] *)
(* ===================================================================== *)

Module WrapFacts.
Import PyStrFacts.

Local Arguments String.append : simpl nomatch.

Lemma find_from_prefix c pre rest :
  contains c pre = false ->
  forall i, find_from c (pre +:+ String c rest) i = i + len pre.
Proof.
  induction pre as [|a pre IH]; cbn.
  - intros _ i. rewrite Ascii.eqb_refl. unfold len. cbn. lia.
  - destruct (Ascii.eqb a c); [discriminate|].
    intros H i. rewrite (IH H), len_String. lia.
Qed.

Lemma rfind_from_suffix c pre post :
  contains c post = false ->
  forall i last, rfind_from c (pre +:+ String c post) i last = i + len pre.
Proof.
  intros Hpost. induction pre as [|a pre IH]; intros i last; cbn.
  - rewrite Ascii.eqb_refl, rfind_from_absent by exact Hpost.
    unfold len. cbn. lia.
  - rewrite IH, len_String. lia.
Qed.

Lemma contains_here c pre rest : contains c (pre +:+ String c rest) = true.
Proof.
  rewrite contains_app. cbn. rewrite Ascii.eqb_refl. apply orb_true_r.
Qed.

(** A text that begins with a character no JSON value begins with does not
    decode. *)
Lemma loads_prose c rest :
  Service.starts_value c = false -> loads (String c rest) = None.
Proof.
  unfold Service.starts_value. cbn [existsb].
  rewrite !orb_false_iff.
  intros [[Hws Hdig] (Hq & Ho & Ha & Hm & Hn & Ht & Hf & HN & HI & _)].
  unfold loads. cbn [list_ascii_of_string skip_ws]. rewrite Hws.
  unfold enough_fuel. cbn [List.length Nat.mul]. rewrite Nat.add_comm.
  cbn [Nat.add scan_once]. rewrite Hq, Ho, Ha.
  unfold scan_scalar, literal, match_number, match_unsigned, match_int.
  cbn [list_ascii_of_string strip_prefix].
  rewrite (Ascii.eqb_sym "n" c), (Ascii.eqb_sym "t" c), (Ascii.eqb_sym "f" c),
    (Ascii.eqb_sym "N" c), (Ascii.eqb_sym "I" c), (Ascii.eqb_sym "-" c).
  rewrite Hn, Ht, Hf, HN, HI, Hm, Hdig.
  destruct (Ascii.eqb c "0") eqn:H0; [|reflexivity].
  apply Ascii.eqb_eq in H0. subst c. discriminate.
Qed.

(** The text around the braces does not matter. *)
Lemma parse_wrapped (pre mid post : string) :
  contains "{" pre = false -> contains "}" post = false ->
  Api.parse (pre +:+ String "{" mid +:+ String "}" post)
    = match loads (String "{" mid +:+ String "}" EmptyString) with
      | Some artifact => Api.Artifact artifact
      | None => Api.Unparsable
      end.
Proof.
  intros Hpre Hpost.
  set (text := pre +:+ String "{" mid +:+ String "}" post).
  assert (Ho : contains "{" text = true) by apply contains_here.
  assert (Et : text = (pre +:+ String "{" mid) +:+ String "}" post).
  { unfold text. rewrite ParseFacts.append_assoc. reflexivity. }
  assert (Hc : contains "}" text = true)
    by (rewrite Et; apply contains_here).
  rewrite (ParseFacts.parse_with_braces text Ho Hc).
  assert (Hf : find "{" text = len pre + 0).
  { unfold find.
    change text with (pre +:+ String "{" (mid +:+ String "}" post)).
    rewrite find_from_prefix by exact Hpre. lia. }
  assert (Hr : rfind "}" text + 1
               = len pre
                 + len (String "{" mid +:+ String "}" EmptyString)).
  { unfold rfind. rewrite Et, rfind_from_suffix by exact Hpost.
    rewrite !PyStrFacts.len_app, !PyStrFacts.len_String. unfold len. cbn. lia. }
  rewrite Hf, Hr, Z.add_0_r.
  replace text
    with (pre +:+ (String "{" mid +:+ String "}" EmptyString) +:+ post).
  - rewrite PyStrFacts.slice_middle. reflexivity.
  - unfold text. rewrite ParseFacts.append_assoc. reflexivity.
Qed.

End WrapFacts.

(** X12.  The parser ignores the prose around the payload: for every text
    made of a prefix without an opening brace, a part in braces and a suffix
    without a closing brace, [parse] decodes exactly the part in braces,
    whatever the prefix and the suffix say. *)
Theorem parse_ignores_prose (pre mid post : string) :
  contains "{" pre = false -> contains "}" post = false ->
  Api.parse (pre +:+ String "{" mid +:+ String "}" post)
    = match loads (String "{" mid +:+ String "}" EmptyString) with
      | Some artifact => Api.Artifact artifact
      | None => Api.Unparsable
      end.
Proof. apply WrapFacts.parse_wrapped. Qed.

Lemma parse_ignores_prose_witness :
  Api.parse lesson_text
    = match loads (quoted "{'title':'CSS Grid','slides':[{'title':'Intro'}]}")
      with
      | Some artifact => Api.Artifact artifact
      | None => Api.Unparsable
      end.
Proof.
  exact (parse_ignores_prose "Here is your lesson: "
           (quoted "'title':'CSS Grid','slides':[{'title':'Intro'}]")
           " Enjoy!" eq_refl eq_refl).
Defined.

(** X13.  [POST /generate-artifact] decodes the tool's whole output: it
    answers with the decoded value exactly when the whole text is JSON, and
    with 500 otherwise.  On a text that is one part in braces it yields the
    artifact [POST /events] would parse from it; but a text that begins
    with prose (a character no JSON value begins with) is refused with 500,
    also when it holds a payload. *)
Theorem generate_artifact_strict
    (tool_func : string -> outcome string) (decode_error : string -> string)
    (topic : string) (now : instant) (text : string) :
  tool_func topic = Returned text ->
  (forall artifact,
     Service.generate_learning_artifact tool_func decode_error topic now
       = Api.Reply {| Service.gen_topic := topic;
                      Service.gen_artifact := artifact;
                      Service.gen_generated_at := now |} []
     <-> loads text = Some artifact)
  /\ (loads text = None ->
      Service.generate_learning_artifact tool_func decode_error topic now
        = Api.HTTPException 500
            ("Failed to generate artifact: " +:+ decode_error text))
  /\ (forall mid artifact,
        text = String "{" mid +:+ String "}" EmptyString ->
        (loads text = Some artifact <-> Api.parse text = Api.Artifact artifact))
  /\ (forall c rest,
        text = String c rest -> Service.starts_value c = false ->
        Service.generate_learning_artifact tool_func decode_error topic now
          = Api.HTTPException 500
              ("Failed to generate artifact: " +:+ decode_error text)).
Proof.
  intros Htool. unfold Service.generate_learning_artifact. rewrite Htool.
  split; [|split; [|split]].
  - intros artifact. destruct (loads text) as [a|]; split;
      try discriminate; intros [= ->]; reflexivity.
  - intros ->. reflexivity.
  - intros mid artifact ->.
    pose proof (WrapFacts.parse_wrapped EmptyString mid EmptyString eq_refl eq_refl)
      as Hp.
    change (EmptyString +:+ String "{" mid +:+ String "}" EmptyString)
      with (String "{" mid +:+ String "}" EmptyString) in Hp.
    rewrite Hp. destruct (loads _) as [a|]; split;
      try discriminate; intros [= ->]; reflexivity.
  - intros c rest -> Hc. rewrite (WrapFacts.loads_prose c rest Hc). reflexivity.
Qed.

Lemma generate_artifact_strict_witness :
  Service.generate_learning_artifact MoreSamples.prose_tool
    MoreSamples.no_message "CSS Grid" 10
    = Api.HTTPException 500 "Failed to generate artifact: "
  /\ exists artifact, Api.parse lesson_text = Api.Artifact artifact.
Proof.
  destruct (generate_artifact_strict MoreSamples.prose_tool
              MoreSamples.no_message "CSS Grid" 10 lesson_text eq_refl)
    as (_ & _ & _ & Hprose).
  split.
  - exact (Hprose "H"%char _ eq_refl eq_refl).
  - eexists. vm_compute. reflexivity.
Defined.

(* ===================================================================== *)
(** ** Properties of the agent dependency *)
(* ===================================================================== *)

(** X14.  The agent is built once.  After a start-up with a key, the
    instance holds the memory it had before, or that of a new agent; from
    then on the key is not read again (a request is served also when the
    key has since gone), every route works on that one memory, and what a
    request leaves there is what the next request finds. *)
Theorem agent_built_once (new_agent : string -> UserStore)
    (key : string) (agent_instance : option UserStore) :
  key <> "" ->
  exists memory,
    Service.startup_event new_agent (Some key) agent_instance = Some memory
    /\ memory = default (new_agent key) agent_instance
    /\ (forall api_key,
          Service.get_agent new_agent api_key (Some memory)
            = (Service.AgentReady memory, Some memory))
    /\ (forall (A : Type) api_key (route : UserStore -> Api.reply A * UserStore),
          Service.with_agent new_agent api_key route (Some memory)
            = (fst (route memory), Some (snd (route memory))))
    /\ forall (A B : Type) key1 key2
              (route1 : UserStore -> Api.reply A * UserStore)
              (route2 : UserStore -> Api.reply B * UserStore),
         Service.with_agent new_agent key2 route2
           (snd (Service.with_agent new_agent key1 route1 (Some memory)))
         = (fst (route2 (snd (route1 memory))),
            Some (snd (route2 (snd (route1 memory))))).
Proof.
  intros Hkey. apply String.eqb_neq in Hkey.
  exists (default (new_agent key) agent_instance).
  assert (Hwith : forall (A : Type) api_key
                    (route : UserStore -> Api.reply A * UserStore) memory,
             Service.with_agent new_agent api_key route (Some memory)
             = (fst (route memory), Some (snd (route memory)))).
  { intros A api_key route memory. unfold Service.with_agent, Service.get_agent.
    destruct (route memory); reflexivity. }
  split.
  { unfold Service.startup_event, Service.get_agent.
    destruct agent_instance; [reflexivity|]. rewrite Hkey. reflexivity. }
  split; [reflexivity|]. split; [reflexivity|].
  split; [intros; apply Hwith|].
  intros A B key1 key2 route1 route2. rewrite Hwith. cbn [snd]. apply Hwith.
Qed.

Lemma agent_built_once_witness :
  exists memory,
    Service.startup_event MoreSamples.blank_agent (Some "secret") None
      = Some memory
    /\ memory = ∅
    /\ forall now,
         Service.with_agent MoreSamples.blank_agent None
           (fun m => (Api.get_user_profile remove_dups "priya" now m, m))
           (Some memory)
         = (Api.HTTPException 404 "User priya not found", Some memory).
Proof.
  destruct (agent_built_once MoreSamples.blank_agent "secret" None
              ltac:(discriminate)) as (memory & Hs & Hm & _ & Hw & _).
  exists memory. split; [exact Hs|]. split; [exact Hm|].
  intros now. rewrite Hw. subst memory. reflexivity.
Defined.

(** X15.  Without a key (none, or an empty one) and without an agent,
    every route that depends on the agent, that is every route but the
    health check [GET /], is answered with 500 and the configuration
    message, whatever the request holds; no handler runs and no agent is
    built.  The health check has no such dependency: it answers "healthy"
    with or without a key and leaves the agent as it is.  The start-up
    swallows the same failure, and nothing is remembered of it: the first
    request made once a key is there builds the agent and is served. *)
Theorem agent_needs_key
    (agent_process : StudentEvent -> UserStore -> outcome AgentResult * UserStore)
    (list_set : list string -> list string)
    (float_of_str : string -> option float)
    (str_field : pyval -> outcome string)
    (new_agent : string -> UserStore)
    (tool_func : string -> outcome string)
    (decode_error : string -> string)
    (api_key : option string) :
  api_key = None \/ api_key = Some "" ->
  let serve := Service.app agent_process list_set float_of_str str_field
                 new_agent tool_func decode_error in
  let healthy :=
    Api.Reply (Service.Health
                 {| Service.health_message := "ProactiveAgent API is running";
                    Service.health_status := "healthy" |}) [] in
  Service.startup_event new_agent api_key None = None
  /\ (forall (A : Type) (route : UserStore -> Api.reply A * UserStore),
        Service.with_agent new_agent api_key route None
          = (Api.HTTPException 500
               "GEMINI_API_KEY not configured. Please check environment variables.",
             None))
  /\ (forall rq,
        Service.depends_on_agent rq = true ->
        serve api_key rq None
          = (Api.HTTPException 500
               "GEMINI_API_KEY not configured. Please check environment variables.",
             None))
  /\ (forall rq,
        Service.depends_on_agent rq = false <-> rq = Service.GetRoot)
  /\ (forall any_key agent_instance,
        serve any_key Service.GetRoot agent_instance = (healthy, agent_instance))
  /\ forall (A : Type) key (route : UserStore -> Api.reply A * UserStore),
       key <> "" ->
       Service.with_agent new_agent (Some key) route
         (Service.startup_event new_agent api_key None)
       = (fst (route (new_agent key)), Some (snd (route (new_agent key)))).
Proof.
  intros Hno serve healthy.
  assert (Hs : Service.startup_event new_agent api_key None = None)
    by (destruct Hno as [-> | ->]; reflexivity).
  assert (Hw : forall (A : Type) (route : UserStore -> Api.reply A * UserStore),
             Service.with_agent new_agent api_key route None
             = (Api.HTTPException 500
                  "GEMINI_API_KEY not configured. Please check environment variables.",
                None))
    by (intros A route; destruct Hno as [-> | ->]; reflexivity).
  split; [exact Hs|]. split; [exact Hw|]. split; [|split; [|split]].
  - intros rq Hdep. subst serve. unfold Service.app.
    destruct rq; try discriminate Hdep; apply Hw.
  - intros rq. destruct rq; cbn; split; intros H; congruence.
  - intros any_key agent_instance. reflexivity.
  - intros A key route Hkey. rewrite Hs. apply String.eqb_neq in Hkey.
    unfold Service.with_agent, Service.get_agent. rewrite Hkey.
    destruct (route (new_agent key)); reflexivity.
Qed.

Lemma agent_needs_key_witness :
  Service.startup_event MoreSamples.blank_agent (Some "") None = None
  /\ (forall now,
        Service.with_agent MoreSamples.blank_agent (Some "")
          (fun m => (Api.get_user_profile remove_dups "priya" now m, m)) None
        = (Api.HTTPException 500
             "GEMINI_API_KEY not configured. Please check environment variables.",
           None))
  /\ Service.app chatty_agent remove_dups no_float strict_str
       MoreSamples.blank_agent MoreSamples.lesson_tool MoreSamples.no_message
       (Some "") (Service.PostQuizCompleted (quiz_payload "priya" "CSS Flexbox" 0.4))
       None
     = (Api.HTTPException 500
          "GEMINI_API_KEY not configured. Please check environment variables.",
        None)
  /\ Service.app chatty_agent remove_dups no_float strict_str
       MoreSamples.blank_agent MoreSamples.lesson_tool MoreSamples.no_message
       (Some "") Service.GetRoot None
     = (Api.Reply (Service.Health
                     {| Service.health_message := "ProactiveAgent API is running";
                        Service.health_status := "healthy" |}) [],
        None).
Proof.
  destruct (agent_needs_key chatty_agent remove_dups no_float strict_str
              MoreSamples.blank_agent MoreSamples.lesson_tool
              MoreSamples.no_message (Some "") (or_intror eq_refl))
    as (Hs & Hw & Hdep & _ & Hroot & _).
  split; [exact Hs|]. split; [intros now; apply Hw|].
  split; [apply Hdep; reflexivity | apply Hroot].
Defined.

(* ===================================================================== *)
(** ** Properties of the test suite *)
(* ===================================================================== *)

Module SuiteFacts.
Import TestAgent.


End SuiteFacts.



(** X18.  [main] counts the demo as a passed test: in a valid environment
    and with nothing raised it reports between 1 and 3 passed tests out of
    3, and 3 exactly when both [test_basic_functionality] and
    [test_tool_directly] return [True].  It reports an invalid environment
    exactly when the key or an import is missing.  It reports a failed
    suite exactly when one of the three functions raises, with the first
    exception in the order basic test, tool test, demo: the basic test's,
    else the one that building the agent or the tool raises in the tool
    test, else the demo's. *)
Theorem main_tally
    (agent_process : StudentEvent -> UserStore -> outcome AgentResult * UserStore)
    (new_agent : option string -> UserStore)
    (create_tool : option string -> outcome (string -> outcome string))
    (failed_quiz help timed_out : string -> string -> instant -> StudentEvent)
    (api_key : option string) (adk_imports genai_imports : bool)
    (clock_basic clock_demo : nat -> instant) :
  let basic := fst (TestAgent.test_basic_functionality agent_process new_agent
                      failed_quiz help timed_out api_key clock_basic) in
  let tool := TestAgent.test_tool_directly create_tool api_key in
  let demo := fst (TestAgent.run_comprehensive_demo agent_process new_agent
                     failed_quiz help timed_out api_key clock_demo) in
  match TestAgent.main agent_process new_agent create_tool
          failed_quiz help timed_out api_key adk_imports genai_imports
          clock_basic clock_demo with
  | TestAgent.EnvironmentInvalid =>
      TestAgent.no_key api_key = true \/ adk_imports = false
      \/ genai_imports = false
  | TestAgent.SuiteFailed exn =>
      TestAgent.no_key api_key = false /\ adk_imports = true
      /\ genai_imports = true
      /\ ((exists msg, basic = Raised exn msg)
          \/ ((exists passed_basic, basic = Returned passed_basic)
              /\ exists msg, tool = Raised exn msg
                             /\ create_tool api_key = Raised exn msg)
          \/ ((exists passed_basic, basic = Returned passed_basic)
              /\ (exists passed_tool, tool = Returned passed_tool)
              /\ exists msg, demo = Raised exn msg))
  | TestAgent.Tally tests_passed total_tests =>
      total_tests = 3 /\ 1 <= tests_passed <= 3
      /\ TestAgent.no_key api_key = false /\ adk_imports = true
      /\ genai_imports = true
      /\ exists passed_basic passed_tool,
           basic = Returned passed_basic
           /\ tool = Returned passed_tool
           /\ demo = Returned tt
           /\ (tests_passed = 3 <-> passed_basic = true /\ passed_tool = true)
           /\ (tests_passed = 1 <-> passed_basic = false /\ passed_tool = false)
  end.
Proof.
  intros basic tool demo. subst basic tool demo. unfold TestAgent.main.
  unfold TestAgent.validate_environment.
  destruct (TestAgent.no_key api_key); [left; reflexivity|].
  destruct adk_imports; [|right; left; reflexivity].
  destruct genai_imports; [|right; right; reflexivity]. cbn [negb].
  destruct (fst (TestAgent.test_basic_functionality _ _ _ _ _ _ _))
    as [passed_basic|exn msg].
  - unfold TestAgent.test_tool_directly.
    destruct (create_tool api_key) as [func|exn msg].
    + destruct (fst (TestAgent.run_comprehensive_demo _ _ _ _ _ _ _))
        as [[]|exn msg].
      * destruct passed_basic,
          (forallb (TestAgent.tool_check func) TestAgent.test_topics);
          (split; [reflexivity|]); (split; [lia|]);
          repeat (split; [reflexivity|]);
          eexists _, _; (split; [reflexivity|]); (split; [reflexivity|]);
          (split; [reflexivity|]);
          split; split; try lia; try (intros [? ?]; discriminate);
          intros; split; reflexivity.
      * repeat (split; [reflexivity|]). right. right.
        split; [eexists; reflexivity|].
        split; eexists; reflexivity.
    + repeat (split; [reflexivity|]). right. left.
      split; [eexists; reflexivity|]. eexists. split; reflexivity.
  - repeat (split; [reflexivity|]). left. eexists. reflexivity.
Qed.


(* ===================================================================== *)
(** ** The decoder and blank space around a text *)
(* ===================================================================== *)

Module BlankFacts.
Import Json.

Lemma scan_once_S f s :
  scan_once (S f) s =
  match s with
  | [] => DecodeError
  | c :: r =>
      if Ascii.eqb c dquote then
        match scanstring r [] with
        | Some (str, r') => Ok (PStr str, r')
        | None => DecodeError
        end
      else if Ascii.eqb c "{" then
        match skip_ws r with
        | [] => DecodeError
        | (c1 :: r1) as body =>
            if Ascii.eqb c1 "}" then Ok (PDict [], r1)
            else parse_object f body []
        end
      else if Ascii.eqb c "[" then
        match skip_ws r with
        | [] => DecodeError
        | (c1 :: r1) as body =>
            if Ascii.eqb c1 "]" then Ok (PList [], r1)
            else parse_array f body []
        end
      else scan_scalar s
  end.
Proof. reflexivity. Qed.

Lemma parse_array_S f s acc :
  parse_array (S f) s acc =
  match scan_once f s with
  | Ok (v, r) =>
      match skip_ws r with
      | [] => DecodeError
      | c :: r1 =>
          if Ascii.eqb c "]" then Ok (PList (rev (v :: acc)), r1)
          else if Ascii.eqb c "," then parse_array f (skip_ws r1) (v :: acc)
          else DecodeError
      end
  | DecodeError => DecodeError
  | OutOfFuel => OutOfFuel
  end.
Proof. reflexivity. Qed.

Lemma parse_object_S f s acc :
  parse_object (S f) s acc =
  match s with
  | [] => DecodeError
  | c :: r =>
      if Ascii.eqb c dquote then
        match scanstring r [] with
        | None => DecodeError
        | Some (key, r1) =>
            match skip_ws r1 with
            | [] => DecodeError
            | c2 :: r2 =>
                if Ascii.eqb c2 ":" then
                  match scan_once f (skip_ws r2) with
                  | Ok (v, r3) =>
                      match skip_ws r3 with
                      | [] => DecodeError
                      | c3 :: r4 =>
                          if Ascii.eqb c3 "}" then
                            Ok (PDict (dict_set key v acc), r4)
                          else if Ascii.eqb c3 "," then
                            parse_object f (skip_ws r4) (dict_set key v acc)
                          else DecodeError
                      end
                  | DecodeError => DecodeError
                  | OutOfFuel => OutOfFuel
                  end
                else DecodeError
            end
        end
      else DecodeError
  end.
Proof. reflexivity. Qed.

(** One more unit of fuel does not change a result. *)
Lemma scan_more_fuel fuel :
  (forall s, scan_once fuel s <> OutOfFuel ->
             scan_once (S fuel) s = scan_once fuel s)
  /\ (forall s acc, parse_array fuel s acc <> OutOfFuel ->
                    parse_array (S fuel) s acc = parse_array fuel s acc)
  /\ (forall s acc, parse_object fuel s acc <> OutOfFuel ->
                    parse_object (S fuel) s acc = parse_object fuel s acc).
Proof.
  induction fuel as [|f (IHs & IHa & IHo)];
    [repeat split; intros; exfalso; auto|].
  split; [|split].
  - intros s. rewrite (scan_once_S (S f)), (scan_once_S f).
    destruct s as [|c s]; [reflexivity|].
    destruct (Ascii.eqb c dquote); [reflexivity|].
    destruct (Ascii.eqb c "{").
    { destruct (skip_ws s) as [|c1 r1]; [reflexivity|].
      destruct (Ascii.eqb c1 "}"); [reflexivity|]. apply IHo. }
    destruct (Ascii.eqb c "[").
    { destruct (skip_ws s) as [|c1 r1]; [reflexivity|].
      destruct (Ascii.eqb c1 "]"); [reflexivity|]. apply IHa. }
    reflexivity.
  - intros s acc. rewrite (parse_array_S (S f)), (parse_array_S f).
    destruct (scan_once f s) as [[v r]| |] eqn:Hs; intros H;
      [| |exfalso; apply H; reflexivity];
      rewrite (IHs s) by (rewrite Hs; discriminate); rewrite Hs; [|reflexivity].
    destruct (skip_ws r) as [|c r1]; [reflexivity|].
    destruct (Ascii.eqb c "]"); [reflexivity|].
    destruct (Ascii.eqb c ","); [|reflexivity].
    apply IHa, H.
  - intros s acc. rewrite (parse_object_S (S f)), (parse_object_S f).
    destruct s as [|c s]; [reflexivity|].
    destruct (Ascii.eqb c dquote); [|reflexivity].
    destruct (scanstring s []) as [[key r1]|]; [|reflexivity].
    destruct (skip_ws r1) as [|c2 r2]; [reflexivity|].
    destruct (Ascii.eqb c2 ":"); [|reflexivity].
    destruct (scan_once f (skip_ws r2)) as [[v r3]| |] eqn:Hs; intros H;
      [| |exfalso; apply H; reflexivity];
      rewrite (IHs (skip_ws r2)) by (rewrite Hs; discriminate); rewrite Hs;
      [|reflexivity].
    destruct (skip_ws r3) as [|c3 r4]; [reflexivity|].
    destruct (Ascii.eqb c3 "}"); [reflexivity|].
    destruct (Ascii.eqb c3 ","); [|reflexivity].
    apply IHo, H.
Qed.

(** Fuel beyond what a text needs does not change its result. *)
Lemma scan_fuel_irrelevant f1 f2 s :
  (f1 <= f2)%nat -> scan_once f1 s <> OutOfFuel ->
  scan_once f2 s = scan_once f1 s.
Proof.
  intros Hle Hf. induction Hle as [|f2 Hle IH]; [reflexivity|].
  rewrite <- IH. apply (proj1 (scan_more_fuel f2)). rewrite IH. exact Hf.
Qed.


Local Arguments String.append : simpl nomatch.
Local Abbreviation blanks w := (forallb is_ws w = true).

Lemma blank_cases c :
  is_ws c = true ->
  c = " "%char \/ c = "009"%char \/ c = "010"%char \/ c = "013"%char.
Proof. unfold is_ws. rewrite !orb_true_iff, !Ascii.eqb_eq. tauto. Qed.

Ltac blank_char H := destruct (blank_cases _ H) as [->|[->|[->| ->]]].

Ltac split_blank w Hw a Ha :=
  destruct w as [|a w];
  [|cbn [forallb] in Hw; apply andb_prop in Hw as [Ha Hw]].

Lemma blank_not_digit c : is_ws c = true -> is_digit c = false.
Proof. intros H. blank_char H; reflexivity. Qed.

Lemma blank_not_hex c : is_ws c = true -> hex_val c = None.
Proof. intros H. blank_char H; reflexivity. Qed.

Lemma blank_not_char c a : is_ws c = true -> is_ws a = false -> Ascii.eqb c a = false.
Proof.
  intros Hc Ha. destruct (Ascii.eqb c a) eqn:E; [|reflexivity].
  apply Ascii.eqb_eq in E. congruence.
Qed.

Lemma hex4_blank a b c d :
  existsb is_ws [a; b; c; d] = true -> hex4 a b c d = None.
Proof.
  cbn [existsb]. rewrite orb_false_r, !orb_true_iff. unfold hex4.
  intros [H|[H|[H|H]]]; rewrite (blank_not_hex _ H);
    repeat match goal with
           | |- context [hex_val ?v] => destruct (hex_val v)
           end; reflexivity.
Qed.

Ltac blank_side :=
  cbn [existsb];
  repeat match goal with H : is_ws _ = true |- _ => rewrite H end;
  rewrite ?orb_true_r; reflexivity.

(** *** Numbers and literals before blank space *)

Lemma take_digits_blank w :
  blanks w -> forall acc n, take_digits w acc n = (acc, n, w).
Proof.
  intros Hw acc n. split_blank w Hw a Ha; [reflexivity|].
  cbn. rewrite (blank_not_digit a Ha). reflexivity.
Qed.

Lemma take_digits_ws w x :
  blanks w ->
  forall acc n,
    take_digits (x ++ w)%list acc n
    = let '(v, k, r) := take_digits x acc n in (v, k, (r ++ w)%list).
Proof.
  intros Hw. induction x as [|c x IH]; intros acc n; cbn.
  - apply take_digits_blank, Hw.
  - destruct (is_digit c); [apply IH | reflexivity].
Qed.

Lemma match_digits_ws w x :
  blanks w ->
  match_digits (x ++ w)%list
  = match match_digits x with
    | Some (v, k, r) => Some (v, k, (r ++ w)%list)
    | None => None
    end.
Proof.
  intros Hw. destruct x as [|c x].
  - split_blank w Hw a Ha; [reflexivity|].
    cbn. rewrite (blank_not_digit a Ha). reflexivity.
  - cbn [app match_digits]. destruct (is_digit c); [|reflexivity].
    change (c :: (x ++ w)%list) with ((c :: x) ++ w)%list.
    rewrite take_digits_ws by exact Hw.
    destruct (take_digits (c :: x) 0 0) as [[v k] r]. reflexivity.
Qed.

Lemma match_int_ws w x :
  blanks w ->
  match_int (x ++ w)%list
  = match match_int x with
    | Some (v, r) => Some (v, (r ++ w)%list)
    | None => None
    end.
Proof.
  intros Hw. destruct x as [|c x].
  - split_blank w Hw a Ha; [reflexivity|].
    cbn. rewrite (blank_not_digit a Ha).
    rewrite (blank_not_char a "0" Ha eq_refl). reflexivity.
  - cbn [app match_int]. destruct (Ascii.eqb c "0"); [reflexivity|].
    destruct (is_digit c); [|reflexivity].
    change (c :: (x ++ w)%list) with ((c :: x) ++ w)%list.
    rewrite take_digits_ws by exact Hw.
    destruct (take_digits (c :: x) 0 0) as [[v k] r]. reflexivity.
Qed.

Lemma match_frac_ws w x :
  blanks w ->
  match_frac (x ++ w)%list
  = match match_frac x with
    | Some (v, k, r) => Some (v, k, (r ++ w)%list)
    | None => None
    end.
Proof.
  intros Hw. destruct x as [|c x].
  - split_blank w Hw a Ha; [reflexivity|].
    cbn. rewrite (blank_not_char a "." Ha eq_refl). reflexivity.
  - cbn [app match_frac]. destruct (Ascii.eqb c "."); [|reflexivity].
    apply match_digits_ws, Hw.
Qed.

Lemma match_exp_ws w x :
  blanks w ->
  match_exp (x ++ w)%list
  = match match_exp x with
    | Some (v, r) => Some (v, (r ++ w)%list)
    | None => None
    end.
Proof.
  intros Hw. destruct x as [|c x].
  - split_blank w Hw a Ha; [reflexivity|].
    cbn. rewrite (blank_not_char a "e" Ha eq_refl),
      (blank_not_char a "E" Ha eq_refl). reflexivity.
  - cbn [app match_exp]. destruct (Ascii.eqb c "e" || Ascii.eqb c "E");
      [|reflexivity].
    destruct x as [|sign x].
    + pose proof (match_digits_ws w [] Hw) as Hd. cbn [app] in Hd.
      change (match_digits []) with (@None (Z * Z * list ascii)) in *.
      cbn [app]. destruct w as [|a w']; [reflexivity|].
      cbn [forallb] in Hw. apply andb_prop in Hw as [Ha _].
      rewrite (blank_not_char a "-" Ha eq_refl),
        (blank_not_char a "+" Ha eq_refl), Hd. reflexivity.
    + cbn [app].
      destruct (Ascii.eqb sign "-");
        [|destruct (Ascii.eqb sign "+")].
      * rewrite match_digits_ws by exact Hw.
        destruct (match_digits x) as [[[v k] r]|]; reflexivity.
      * rewrite match_digits_ws by exact Hw.
        destruct (match_digits x) as [[[v k] r]|]; reflexivity.
      * change (sign :: (x ++ w)%list) with ((sign :: x) ++ w)%list.
        rewrite match_digits_ws by exact Hw.
        destruct (match_digits (sign :: x)) as [[[v k] r]|]; reflexivity.
Qed.

Lemma match_unsigned_ws w neg x :
  blanks w ->
  match_unsigned neg (x ++ w)%list
  = match match_unsigned neg x with
    | Some (v, r) => Some (v, (r ++ w)%list)
    | None => None
    end.
Proof.
  intros Hw. unfold match_unsigned. rewrite match_int_ws by exact Hw.
  destruct (match_int x) as [[i r]|]; [|reflexivity].
  rewrite match_frac_ws by exact Hw.
  destruct (match_frac r) as [[[fd fn] r1]|];
    rewrite match_exp_ws by exact Hw.
  - destruct (match_exp r1) as [[e r2]|]; [reflexivity|].
    destruct (fn =? 0); reflexivity.
  - destruct (match_exp r) as [[e r2]|]; reflexivity.
Qed.

Lemma match_number_ws w x :
  blanks w ->
  match_number (x ++ w)%list
  = match match_number x with
    | Some (v, r) => Some (v, (r ++ w)%list)
    | None => None
    end.
Proof.
  intros Hw. destruct x as [|c x].
  - pose proof (match_unsigned_ws w false [] Hw) as Hu. cbn [app] in Hu.
    destruct w as [|a w']; [reflexivity|].
    cbn [forallb] in Hw. apply andb_prop in Hw as [Ha _].
    cbn [app match_number]. rewrite (blank_not_char a "-" Ha eq_refl), Hu.
    reflexivity.
  - cbn [app match_number]. destruct (Ascii.eqb c "-").
    + apply match_unsigned_ws, Hw.
    + apply (match_unsigned_ws w false (c :: x) Hw).
Qed.

Lemma strip_prefix_ws w lit :
  blanks w -> forallb (fun a => negb (is_ws a)) lit = true ->
  forall x,
    strip_prefix lit (x ++ w)%list
    = match strip_prefix lit x with
      | Some r => Some (r ++ w)%list
      | None => None
      end.
Proof.
  intros Hw. induction lit as [|a lit IH]; intros Hlit x; [reflexivity|].
  cbn [forallb] in Hlit. apply andb_prop in Hlit as [Ha Hlit].
  apply negb_true_iff in Ha.
  destruct x as [|b x]; cbn [app strip_prefix].
  - destruct w as [|b w']; [reflexivity|].
    cbn [forallb] in Hw. apply andb_prop in Hw as [Hb _].
    rewrite Ascii.eqb_sym, (blank_not_char b a Hb Ha). reflexivity.
  - destruct (Ascii.eqb a b); [apply IH, Hlit | reflexivity].
Qed.

Local Abbreviation lift w res :=
  (match res with
   | Ok (v, r) => Ok (v, (r ++ w)%list)
   | DecodeError => DecodeError
   | OutOfFuel => OutOfFuel
   end).

Lemma scan_scalar_ws w x :
  blanks w -> scan_scalar (x ++ w)%list = lift w (scan_scalar x).
Proof.
  intros Hw. unfold scan_scalar, literal.
  rewrite !(strip_prefix_ws w _ Hw) by reflexivity.
  rewrite (match_number_ws w x Hw).
  repeat match goal with
         | |- context [strip_prefix ?l x] => destruct (strip_prefix l x)
         | |- context [match_number x] =>
             destruct (match_number x) as [[? ?]|]
         end; reflexivity.
Qed.

Lemma skip_ws_blank w : blanks w -> skip_ws w = [].
Proof.
  induction w as [|a w IH]; [reflexivity|]. cbn.
  intros H. apply andb_prop in H as [-> H]. apply IH, H.
Qed.

Lemma skip_ws_ws w x :
  blanks w ->
  skip_ws (x ++ w)%list
  = match skip_ws x with
    | [] => []
    | c :: r => c :: (r ++ w)%list
    end.
Proof.
  intros Hw. induction x as [|c x IH]; cbn.
  - apply skip_ws_blank, Hw.
  - destruct (is_ws c); [exact IH | reflexivity].
Qed.

Lemma skip_ws_lead w x : blanks w -> skip_ws (w ++ x)%list = skip_ws x.
Proof.
  induction w as [|a w IH]; [reflexivity|]. cbn.
  intros H. apply andb_prop in H as [-> H]. apply IH, H.
Qed.


(** *** Strings before blank space *)

Lemma scanstring_blank w : blanks w -> forall acc, scanstring w acc = None.
Proof.
  induction w as [|a w IH]; intros Hw acc; [reflexivity|].
  cbn [forallb] in Hw. apply andb_prop in Hw as [Ha Hw].
  blank_char Ha; cbn; try reflexivity; apply IH, Hw.
Qed.

Local Abbreviation pad w res :=
  (match res with
   | Some (str, r) => Some (str, (r ++ w)%list)
   | None => None
   end).

Lemma scanstring_S c r acc :
  scanstring (c :: r) acc =
      if Ascii.eqb c dquote then Some (string_of_list_ascii (rev acc), r)
      else if Ascii.eqb c backslash then
        match r with
        | [] => None
        | e :: r1 =>
            if Ascii.eqb e "u" then
              match r1 with
              | h1 :: h2 :: h3 :: h4 :: r2 =>
                  match hex4 h1 h2 h3 h4 with
                  | None => None
                  | Some u =>
                      if is_high_surrogate u then
                        match r2 with
                        | b :: x :: g1 :: g2 :: g3 :: g4 :: r3 =>
                            if Ascii.eqb b backslash && Ascii.eqb x "u" then
                              match hex4 g1 g2 g3 g4 with
                              | None => None
                              | Some u2 =>
                                  if is_low_surrogate u2 then
                                    scanstring r3
                                      (rev (utf8 (join_surrogates u u2)) ++ acc)%list
                                  else scanstring r2 (rev (utf8 u) ++ acc)%list
                              end
                            else scanstring r2 (rev (utf8 u) ++ acc)%list
                        | _ => scanstring r2 (rev (utf8 u) ++ acc)%list
                        end
                      else scanstring r2 (rev (utf8 u) ++ acc)%list
                  end
              | _ => None
              end
            else
              match simple_escape e with
              | Some d => scanstring r1 (d :: acc)
              | None => None
              end
        end
      else if (N_of_ascii c <? 32)%N then None
      else scanstring r (c :: acc).
Proof. reflexivity. Qed.

(** A [\u] escape cut short by blank space is an error. *)
Lemma short_escape w r1 acc :
  blanks w -> (List.length r1 < 4)%nat ->
  scanstring (backslash :: "u"%char :: r1 ++ w)%list acc = None.
Proof.
  intros Hw Hlen. rewrite scanstring_S.
  change (Ascii.eqb backslash dquote) with false.
  change (Ascii.eqb backslash backslash) with true.
  change (Ascii.eqb "u" "u") with true. cbv iota.
  destruct r1 as [|h1 [|h2 [|h3 [|h4 r2]]]];
    [| | | |cbn in Hlen; lia]; cbn [app];
    repeat (let a := fresh "a" in let Ha := fresh "Ha" in
            split_blank w Hw a Ha; [reflexivity|]);
    rewrite hex4_blank by blank_side; reflexivity.
Qed.

Lemma scanstring_ws_bounded w n :
  blanks w ->
  forall x acc,
    (List.length x <= n)%nat ->
    scanstring (x ++ w)%list acc = pad w (scanstring x acc).
Proof.
  intros Hw. induction n as [|n IH]; intros x acc Hn.
  { destruct x; [|cbn in Hn; lia]. apply scanstring_blank, Hw. }
  destruct x as [|c r]; [apply scanstring_blank, Hw|].
  cbn [List.length] in Hn. cbn [app]. rewrite !scanstring_S.
  destruct (Ascii.eqb c dquote); [reflexivity|].
  destruct (Ascii.eqb c backslash) eqn:Hc.
  2:{ destruct (N_of_ascii c <? 32)%N; [reflexivity|]. apply IH. lia. }
  destruct r as [|e r1].
  { cbn [app]. destruct w as [|e w1]; [reflexivity|].
    cbn [forallb] in Hw. apply andb_prop in Hw as [He _].
    blank_char He; reflexivity. }
  cbn [app List.length] in *. destruct (Ascii.eqb e "u") eqn:He.
  2:{ destruct (simple_escape e); [apply IH; lia | reflexivity]. }
  destruct r1 as [|h1 [|h2 [|h3 [|h4 r2]]]].
  1-4: match goal with
       | |- match (?l ++ _)%list with _ => _ end = _ =>
           pose proof (short_escape w l acc Hw ltac:(cbn; lia)) as Hs;
           rewrite scanstring_S in Hs;
           change (Ascii.eqb backslash dquote) with false in Hs;
           change (Ascii.eqb backslash backslash) with true in Hs;
           change (Ascii.eqb "u" "u") with true in Hs; cbv iota in Hs;
           exact Hs
       end.
  cbn [app List.length] in *.
  destruct (hex4 h1 h2 h3 h4) as [u|]; [|reflexivity].
  set (acc' := (rev (utf8 u) ++ acc)%list).
  assert (Hlone : scanstring (r2 ++ w)%list acc' = pad w (scanstring r2 acc'))
    by (apply IH; lia).
  destruct (is_high_surrogate u); [|exact Hlone].
  destruct r2 as [|b [|x [|g1 [|g2 [|g3 [|g4 r3]]]]]].
  7:{ cbn [app List.length] in *.
      destruct (Ascii.eqb b backslash && Ascii.eqb x "u"); [|exact Hlone].
      destruct (hex4 g1 g2 g3 g4) as [u2|]; [|reflexivity].
      destruct (is_low_surrogate u2); [apply IH; lia | exact Hlone]. }
  all: rewrite <- Hlone; cbn [app];
    repeat (let a := fresh "a" in let Ha := fresh "Ha" in
            split_blank w Hw a Ha; [reflexivity|]);
    match goal with
    | |- (if ?t then _ else _) = _ => destruct t eqn:Et; [|reflexivity]
    end;
    apply andb_prop in Et as [E1 E2];
    apply Ascii.eqb_eq in E1, E2; subst;
    try match goal with
        | H : is_ws backslash = true |- _ => discriminate H
        | H : is_ws "u" = true |- _ => discriminate H
        end;
    rewrite hex4_blank by blank_side.
  all: symmetry; rewrite scanstring_S;
    change (Ascii.eqb backslash dquote) with false;
    change (Ascii.eqb backslash backslash) with true;
    change (Ascii.eqb "u" "u") with true; cbv iota;
    rewrite hex4_blank by blank_side; reflexivity.
Qed.

Lemma scanstring_ws w x acc :
  blanks w -> scanstring (x ++ w)%list acc = pad w (scanstring x acc).
Proof. intros Hw. apply (scanstring_ws_bounded w (List.length x) Hw). lia. Qed.

(** *** Values before blank space *)

Lemma scan_once_empty f w : lift w (scan_once f []) = scan_once f [].
Proof. destruct f; reflexivity. Qed.

Lemma parse_array_empty f w acc :
  lift w (parse_array f [] acc) = parse_array f [] acc.
Proof.
  destruct (parse_array f [] acc) as [[v r]| |] eqn:E; [|reflexivity..].
  apply (proj1 (proj2 (JsonFacts.scan_consumes f))) in E. cbn in E. lia.
Qed.

Lemma parse_object_empty f w acc :
  lift w (parse_object f [] acc) = parse_object f [] acc.
Proof. destruct f; reflexivity. Qed.

(** Blank space after a text is left where it is: the scan of the text
    followed by blank space is the scan of the text, with the blank space
    after its rest. *)
Lemma scan_ws w f :
  blanks w ->
  (forall x, scan_once f (x ++ w)%list = lift w (scan_once f x))
  /\ (forall x acc, parse_array f (x ++ w)%list acc = lift w (parse_array f x acc))
  /\ (forall x acc,
        parse_object f (x ++ w)%list acc = lift w (parse_object f x acc)).
Proof.
  intros Hw.
  induction f as [|f (IHs & IHa & IHo)]; [repeat split; reflexivity|].
  split; [|split].
  - intros x. rewrite !scan_once_S. destruct x as [|c x].
    { pose proof (scan_scalar_ws w [] Hw) as Hs. cbn [app] in Hs.
      destruct w as [|a w']; [reflexivity|].
      cbn [forallb] in Hw. apply andb_prop in Hw as [Ha _]. cbn [app].
      rewrite (blank_not_char a dquote Ha eq_refl),
        (blank_not_char a "{" Ha eq_refl), (blank_not_char a "[" Ha eq_refl).
      exact Hs. }
    cbn [app]. destruct (Ascii.eqb c dquote).
    { rewrite scanstring_ws by exact Hw.
      destruct (scanstring x []) as [[str r]|]; reflexivity. }
    destruct (Ascii.eqb c "{").
    { rewrite skip_ws_ws by exact Hw.
      destruct (skip_ws x) as [|c1 r1]; [reflexivity|].
      destruct (Ascii.eqb c1 "}"); [reflexivity|]. apply (IHo (c1 :: r1)). }
    destruct (Ascii.eqb c "[").
    { rewrite skip_ws_ws by exact Hw.
      destruct (skip_ws x) as [|c1 r1]; [reflexivity|].
      destruct (Ascii.eqb c1 "]"); [reflexivity|]. apply (IHa (c1 :: r1)). }
    apply (scan_scalar_ws w (c :: x) Hw).
  - intros x acc. rewrite !parse_array_S, IHs.
    destruct (scan_once f x) as [[v r]| |]; [|reflexivity..].
    rewrite skip_ws_ws by exact Hw.
    destruct (skip_ws r) as [|c r1]; [reflexivity|].
    destruct (Ascii.eqb c "]"); [reflexivity|].
    destruct (Ascii.eqb c ","); [|reflexivity].
    rewrite skip_ws_ws by exact Hw.
    destruct (skip_ws r1) as [|c1 r2].
    + symmetry. apply parse_array_empty.
    + apply (IHa (c1 :: r2)).
  - intros x acc. rewrite !parse_object_S. destruct x as [|c x].
    { destruct w as [|a w']; [reflexivity|].
      cbn [forallb] in Hw. apply andb_prop in Hw as [Ha _]. cbn [app].
      rewrite (blank_not_char a dquote Ha eq_refl). reflexivity. }
    cbn [app]. destruct (Ascii.eqb c dquote); [|reflexivity].
    rewrite scanstring_ws by exact Hw.
    destruct (scanstring x []) as [[key r1]|]; [|reflexivity].
    rewrite skip_ws_ws by exact Hw.
    destruct (skip_ws r1) as [|c2 r2]; [reflexivity|].
    destruct (Ascii.eqb c2 ":"); [|reflexivity].
    rewrite skip_ws_ws by exact Hw.
    assert (Hv : scan_once f match skip_ws r2 with
                             | [] => []
                             | c0 :: r => c0 :: (r ++ w)%list
                             end
                 = lift w (scan_once f (skip_ws r2))).
    { destruct (skip_ws r2) as [|c0 r]; [symmetry; apply scan_once_empty|].
      apply (IHs (c0 :: r)). }
    rewrite Hv.
    destruct (scan_once f (skip_ws r2)) as [[v r3]| |]; [|reflexivity..].
    rewrite skip_ws_ws by exact Hw.
    destruct (skip_ws r3) as [|c3 r4]; [reflexivity|].
    destruct (Ascii.eqb c3 "}"); [reflexivity|].
    destruct (Ascii.eqb c3 ","); [|reflexivity].
    rewrite skip_ws_ws by exact Hw.
    destruct (skip_ws r4) as [|c4 r5].
    + symmetry. apply parse_object_empty.
    + apply (IHo (c4 :: r5)).
Qed.

Lemma list_ascii_app s1 s2 :
  list_ascii_of_string (s1 +:+ s2)
  = (list_ascii_of_string s1 ++ list_ascii_of_string s2)%list.
Proof. induction s1 as [|c s1 IH]; cbn; [reflexivity | now rewrite IH]. Qed.

(** [json.loads] ignores blank space before and after the text. *)
Lemma loads_blank lead s trail :
  blanks (list_ascii_of_string lead) -> blanks (list_ascii_of_string trail) ->
  loads (lead +:+ s +:+ trail) = loads s.
Proof.
  intros Hl Ht. unfold loads.
  rewrite !list_ascii_app.
  set (l1 := list_ascii_of_string lead) in *.
  set (l2 := list_ascii_of_string trail) in *.
  set (ls := list_ascii_of_string s).
  rewrite (skip_ws_lead l1 _ Hl), (skip_ws_ws l2 ls Ht).
  pose proof (JsonFacts.skip_ws_length ls) as Hlen.
  destruct (skip_ws ls) as [|c r] eqn:Hs.
  { unfold enough_fuel. rewrite !(Nat.add_comm _ 2). reflexivity. }
  rewrite (proj1 (scan_ws l2 _ Ht) (c :: r)).
  assert (Hfuel : scan_once (enough_fuel ls) (c :: r) <> OutOfFuel).
  { apply JsonFacts.scan_fuel. unfold enough_fuel. lia. }
  rewrite (scan_fuel_irrelevant (enough_fuel ls) _ (c :: r)); [|
    unfold enough_fuel; rewrite !length_app; lia | exact Hfuel].
  destruct (scan_once (enough_fuel ls) (c :: r)) as [[v r3]| |];
    [|reflexivity..].
  rewrite (skip_ws_ws l2 r3 Ht).
  destruct (skip_ws r3); reflexivity.
Qed.

Lemma blank_without c s :
  Padding.blank s = true -> is_ws c = false -> PyStr.contains c s = false.
Proof.
  unfold Padding.blank. intros Hs Hc. induction s as [|a s IH]; [reflexivity|].
  cbn in *. apply andb_prop in Hs as [Ha Hs].
  rewrite (blank_not_char a c Ha Hc). apply IH, Hs.
Qed.

End BlankFacts.

(** X19.  Blank space around the payload changes nothing, for either
    decoder.  On a text that is one part in braces with white space before
    and after it (a trailing newline, say), [json.loads] gives what it gives
    on the part in braces alone, the brace-extraction parser of
    [POST /events] gives the same value, and [POST /generate-artifact]
    answers with an artifact exactly when [POST /events] parses that
    artifact from the same tool output. *)
Theorem padded_payload_agreement (lead mid trail : string) :
  Padding.blank lead = true -> Padding.blank trail = true ->
  let payload := String "{" mid +:+ String "}" EmptyString in
  let text := lead +:+ payload +:+ trail in
  Json.loads text = Json.loads payload
  /\ Api.parse text
     = match Json.loads text with
       | Some artifact => Api.Artifact artifact
       | None => Api.Unparsable
       end
  /\ forall (tool_func : string -> Agent.outcome string)
            (decode_error : string -> string) (topic : string)
            (now : Agent.instant) (artifact : Json.pyval),
       tool_func topic = Agent.Returned text ->
       (Service.generate_learning_artifact tool_func decode_error topic now
          = Api.Reply {| Service.gen_topic := topic;
                         Service.gen_artifact := artifact;
                         Service.gen_generated_at := now |} []
        <-> Api.parse text = Api.Artifact artifact).
Proof.
  intros Hlead Htrail payload text.
  assert (Hloads : Json.loads text = Json.loads payload)
    by (apply BlankFacts.loads_blank; assumption).
  assert (Hparse : Api.parse text
                   = match Json.loads text with
                     | Some artifact => Api.Artifact artifact
                     | None => Api.Unparsable
                     end).
  { rewrite Hloads.
    replace text with (lead +:+ String "{" mid +:+ String "}" trail).
    - apply WrapFacts.parse_wrapped; apply BlankFacts.blank_without;
        assumption || reflexivity.
    - unfold text, payload. rewrite ParseFacts.append_assoc. reflexivity. }
  split; [exact Hloads|]. split; [exact Hparse|].
  intros tool_func decode_error topic now artifact Htool.
  unfold Service.generate_learning_artifact. rewrite Htool, Hparse.
  destruct (Json.loads text) as [a|]; split;
    try discriminate; intros [= ->]; reflexivity.
Qed.

Lemma padded_payload_agreement_witness :
  Api.parse (" " +:+ (String "{" (Json.quoted "'title':'CSS Grid'")
                        +:+ String "}" EmptyString)
                 +:+ String "010" EmptyString)
  = Api.Artifact (Json.PDict [("title", Json.PStr "CSS Grid")]).
Proof.
  destruct (padded_payload_agreement " " (Json.quoted "'title':'CSS Grid'")
              (String "010" EmptyString) eq_refl eq_refl) as (Hl & Hp & _).
  rewrite Hp, Hl. reflexivity.
Defined.
